(** * Kubernetes service registry controller (pilot/pkg/serviceregistry/kube/controller)

    A shallow embedding of [controller.go]: the Endpoints update filter, the
    service handler that maintains the Service Map, network and locality
    resolution, and the two instance-resolution directions
    ([InstancesByPort], [GetProxyServiceInstances]).

    Conventions.
    - Go structs are records, one module per struct so that fields keep their
      Go names ([EndpointPort.Name p] for [p.Name]).
    - A Go slice is [slice A = option (list A)]: [None] is the nil slice.
      [reflect.DeepEqual] tells nil from an empty slice, so the distinction is
      kept wherever the code compares with it.  A pointer that may be nil is an
      [option].
    - [map[string]string] label maps are [gmap string string]; a nil map reads
      like the empty map and the code only reads them.
    - Integers are [Z]; the casts the code performs are written out
      ([int32]).
    - Side effects that leave the controller (log lines, metrics, calls into
      informer stores, the pod cache, the CIDR ranger, the push context and the
      XDS updater) are recorded in order in a trace, through the writer monad
      [W].  Locking is not modelled: every function below runs to completion
      on one thread. *)

From Stdlib Require Import ZArith String.
From stdpp Require Import base option list strings gmap sorting.

Local Open Scope Z_scope.
Local Open Scope string_scope.
Local Open Scope list_scope.

(** ** Go values *)

Definition slice (A : Type) : Type := option (list A).

(** [range s] and [len(s)] see a nil slice as an empty one. *)
Definition elems {A} (s : slice A) : list A := default [] s.

(** [reflect.DeepEqual] on values whose model keeps nil-ness: structural
    equality. *)
Definition DeepEqual {A} `{EqDecision A} (x y : A) : bool := bool_decide (x = y).

(** Conversion to [int32] (two's complement wrap-around). *)
Definition int32 (z : Z) : Z := (z + 2 ^ 31) mod 2 ^ 32 - 2 ^ 31.

(** ** k8s.io/api/core/v1 *)

Module ObjectMeta.
Record t := mk {
  Name : string;
  Namespace : string;
  UID : string;
  ResourceVersion : string;
  Labels : gmap string string;
  Annotations : gmap string string }.
#[global] Instance eq_dec : EqDecision t.
Proof. solve_decision. Defined.
End ObjectMeta.

Module ObjectReference.
Record t := mk {
  Kind : string;
  Namespace : string;
  Name : string;
  UID : string;
  APIVersion : string;
  ResourceVersion : string;
  FieldPath : string }.
#[global] Instance eq_dec : EqDecision t.
Proof. solve_decision. Defined.
End ObjectReference.

Module EndpointAddress.
Record t := mk {
  IP : string;
  Hostname : string;
  NodeName : option string;
  TargetRef : option ObjectReference.t }.
#[global] Instance eq_dec : EqDecision t.
Proof. solve_decision. Defined.
End EndpointAddress.

Module EndpointPort.
Record t := mk {
  Name : string;
  Port : Z;          (* int32 *)
  Protocol : string }.
#[global] Instance eq_dec : EqDecision t.
Proof. solve_decision. Defined.
End EndpointPort.

Module EndpointSubset.
Record t := mk {
  Addresses : slice EndpointAddress.t;
  NotReadyAddresses : slice EndpointAddress.t;
  Ports : slice EndpointPort.t }.
#[global] Instance eq_dec : EqDecision t.
Proof. solve_decision. Defined.
End EndpointSubset.

Module Endpoints.
Record t := mk {
  Meta : ObjectMeta.t;
  Subsets : slice EndpointSubset.t }.
#[global] Instance eq_dec : EqDecision t.
Proof. solve_decision. Defined.
Definition Name (e : t) : string := ObjectMeta.Name (Meta e).
Definition Namespace (e : t) : string := ObjectMeta.Namespace (Meta e).
End Endpoints.

(** [intstr.IntOrString]: [Type] selects which of [IntVal], [StrVal] counts. *)
Module IntOrString.
Inductive kind := Int | String.
#[global] Instance kind_eq_dec : EqDecision kind.
Proof. solve_decision. Defined.
Record t := mk {
  Type_ : kind;
  IntVal : Z;        (* int32 *)
  StrVal : string }.
#[global] Instance eq_dec : EqDecision t.
Proof. solve_decision. Defined.
Definition IntValue (x : t) : Z := IntVal x.
End IntOrString.

Module ServicePort.
Record t := mk {
  Name : string;
  Protocol : string;
  Port : Z;          (* int32 *)
  TargetPort : IntOrString.t;
  NodePort : Z }.
#[global] Instance eq_dec : EqDecision t.
Proof. solve_decision. Defined.
End ServicePort.

Module ServiceSpec.
Record t := mk {
  Ports : list ServicePort.t;
  Selector : gmap string string;
  ClusterIP : string;
  Type_ : string;
  ExternalName : string }.
#[global] Instance eq_dec : EqDecision t.
Proof. solve_decision. Defined.
End ServiceSpec.

Module v1Service.
Record t := mk {
  Meta : ObjectMeta.t;
  Spec : ServiceSpec.t }.
#[global] Instance eq_dec : EqDecision t.
Proof. solve_decision. Defined.
Definition Name (s : t) : string := ObjectMeta.Name (Meta s).
Definition Namespace (s : t) : string := ObjectMeta.Namespace (Meta s).
End v1Service.

Module ContainerPort.
Record t := mk {
  Name : string;
  ContainerPort : Z;  (* int32 *)
  Protocol : string }.
#[global] Instance eq_dec : EqDecision t.
Proof. solve_decision. Defined.
End ContainerPort.

Module Container.
Record t := mk {
  Name : string;
  Ports : list ContainerPort.t }.
#[global] Instance eq_dec : EqDecision t.
Proof. solve_decision. Defined.
End Container.

Module PodSpec.
Record t := mk {
  NodeName : string;
  Containers : list Container.t }.
#[global] Instance eq_dec : EqDecision t.
Proof. solve_decision. Defined.
End PodSpec.

Module Pod.
Record t := mk {
  Meta : ObjectMeta.t;
  Spec : PodSpec.t }.
#[global] Instance eq_dec : EqDecision t.
Proof. solve_decision. Defined.
Definition Name (p : t) : string := ObjectMeta.Name (Meta p).
Definition Namespace (p : t) : string := ObjectMeta.Namespace (Meta p).
Definition Labels (p : t) : gmap string string := ObjectMeta.Labels (Meta p).
Definition UID (p : t) : string := ObjectMeta.UID (Meta p).
End Pod.

Module Node.
Record t := mk { Meta : ObjectMeta.t }.
#[global] Instance eq_dec : EqDecision t.
Proof. solve_decision. Defined.
Definition Labels (n : t) : gmap string string := ObjectMeta.Labels (Meta n).
End Node.

(** Reading a Go [map[string]string] at a key: the zero value when absent. *)
Definition label (m : gmap string string) (k : string) : string := default "" (m !! k).

(** ** istio.io/istio/pilot/pkg/model

    The struct declarations live outside this package; the records carry the
    fields the controller reads or writes.  [ServiceInstance.Service] and
    [NetworkEndpoint.ServicePort] are pointers the controller always fills and
    dereferences unconditionally; they are embedded as their pointees. *)

Inductive Event := EventAdd | EventUpdate | EventDelete.

#[global] Instance Event_eq_dec : EqDecision Event.
Proof. solve_decision. Defined.

Module Port.
Record t := mk {
  Name : string;
  Port : Z;            (* int *)
  Protocol : string }.
#[global] Instance eq_dec : EqDecision t.
Proof. solve_decision. Defined.
End Port.

Module ServiceAttributes.
Record t := mk {
  Name : string;
  Namespace : string;
  UID : string }.
#[global] Instance eq_dec : EqDecision t.
Proof. solve_decision. Defined.
End ServiceAttributes.

Module Service.
Record t := mk {
  Hostname : string;   (* host.Name *)
  Address : string;
  Ports : list Port.t;
  ServiceAccounts : list string;
  Attributes : ServiceAttributes.t }.
#[global] Instance eq_dec : EqDecision t.
Proof. solve_decision. Defined.
End Service.

Module NetworkEndpoint.
Record t := mk {
  Address : string;
  Port : Z;            (* int *)
  ServicePort : Port.t;
  UID : string;
  Network : string;
  Locality : string }.
#[global] Instance eq_dec : EqDecision t.
Proof. solve_decision. Defined.
End NetworkEndpoint.

Module ServiceInstance.
Record t := mk {
  Endpoint : NetworkEndpoint.t;
  Service : Service.t;
  Labels : gmap string string;
  ServiceAccount : string;
  TLSMode : string }.
#[global] Instance eq_dec : EqDecision t.
Proof. solve_decision. Defined.
End ServiceInstance.

Module IstioEndpoint.
Record t := mk {
  Address : string;
  EndpointPort : Z;    (* uint32 *)
  ServicePortName : string;
  Labels : gmap string string;
  UID : string;
  ServiceAccount : string;
  Network : string;
  Locality : string;
  Attributes : ServiceAttributes.t;
  TLSMode : string }.
#[global] Instance eq_dec : EqDecision t.
Proof. solve_decision. Defined.
End IstioEndpoint.

Module PodPort.
Record t := mk {
  Name : string;
  ContainerPort : Z;   (* int *)
  Protocol : string }.
#[global] Instance eq_dec : EqDecision t.
Proof. solve_decision. Defined.
End PodPort.

Module NodeMetadata.
Record t := mk {
  Network : string;
  ClusterID : string;
  ServiceAccount : string;
  PodPorts : list PodPort.t }.
#[global] Instance eq_dec : EqDecision t.
Proof. solve_decision. Defined.
End NodeMetadata.

Module Locality.
Record t := mk {
  Region : string;
  Zone : string;
  SubZone : string }.
#[global] Instance eq_dec : EqDecision t.
Proof. solve_decision. Defined.
End Locality.

Module Proxy.
Record t := mk {
  ID : string;
  IPAddresses : list string;
  Locality_ : option Locality.t;
  ConfigNamespace : string;
  Metadata : NodeMetadata.t;
  WorkloadLabels : list (gmap string string) }.   (* labels.Collection *)
#[global] Instance eq_dec : EqDecision t.
Proof. solve_decision. Defined.
End Proxy.

Module MeshConfig.
Record t := mk {
  MixerCheckServer : string;
  MixerReportServer : string }.
End MeshConfig.

(** [model.Environment]: the mesh configuration and the push context, both
    pointers that may be nil. *)
Module Environment.
Record t := mk {
  Mesh : option MeshConfig.t;
  PushContext : option unit }.
End Environment.

(** [model.LocalityLabel], the pod label that [GetPodLocality] reads first. *)
Definition LocalityLabel : string := "istio-locality".

(** Push-status metrics handed to [PushContext.Add]. *)
Inductive Metric := ProxyStatusNoService | ProxyStatusEndpointNotReady | EndpointNoPod.

(** ** Constants of the controller *)

Definition NodeRegionLabel : string := "failure-domain.beta.kubernetes.io/region".
Definition NodeZoneLabel : string := "failure-domain.beta.kubernetes.io/zone".
Definition NodeRegionLabelGA : string := "failure-domain.kubernetes.io/region".
Definition NodeZoneLabelGA : string := "failure-domain.kubernetes.io/zone".

(** ** Errors

    One constructor per [fmt.Errorf]/[errors.New] site of the controller, with
    the values its message is built from; [ErrLib] stands for an error that
    comes out of a library call. *)

Inductive error :=
| ErrWaitingSync                                  (* "waiting till full synchronization" *)
| ErrNoWorkloadLabels                             (* "no workload labels found" *)
| ErrClusterMismatch (proxyCluster own : string)  (* "proxy is in cluster %v, but controller is for cluster %v" *)
| ErrGettingInstances (cause : error)             (* "error getting instances: %v" *)
| ErrNoInstancesFound                             (* "no instances found: %v " *)
| ErrNoModelService (hostname : string)           (* "failed to find model service for %v" *)
| ErrNoSvcPort (name : string)                    (* "failed to get svc port for %v" *)
| ErrNoTargetPort (proxyID : string) (cause : error)  (* "failed to find target port for %v: %v" *)
| ErrNoMatchingPort (svcPort : ServicePort.t)     (* "no matching port found for %+v" *)
| ErrNoSuitablePort (uid : string)                (* "no suitable port for manifest: %s" *)
| ErrLib (msg : string).

Inductive result (A : Type) := Ok (a : A) | Err (e : error).
Arguments Ok {A} a.
Arguments Err {A} e.

Definition is_err {A} (r : result A) : bool :=
  match r with Err _ => true | Ok _ => false end.

(** The triple [(item, exists, err)] returned by [cache.Store.GetByKey]. *)
Inductive lookup (A : Type) := Found (a : A) | Missing | Failed (e : error).
Arguments Found {A} a.
Arguments Missing {A}.
Arguments Failed {A} e.

(** ** Effects and the trace monad *)

Inductive level := Debug | Info | Warn | Error.

(** What the trace keeps of a formatted value: strings and errors verbatim,
    anything else by a short tag. *)
Inductive fmtarg := AStr (s : string) | AErr (e : option error) | AVal (tag : string).

Inductive effect :=
| Log (l : level) (format : string) (args : list fmtarg)
| IncrementEvent (kind event : string)               (* k8sEvents metric *)
| PodsGetByIP (ip : string)                          (* c.pods.getPodByIP *)
| PodsLabelsByIP (ip : string)                       (* c.pods.labelsByIP *)
| NodesGetByKey (key : string)                       (* c.nodes.informer.GetStore().GetByKey *)
| EndpointsGetByKey (key : string)                   (* c.endpoints.informer.GetStore().GetByKey *)
| EndpointsList                                      (* c.endpoints.informer.GetStore().List *)
| ServicesGetByKey (key : string)                    (* c.services.informer.GetIndexer().GetByKey *)
| GetPodServices (namespace : string) (labels : gmap string string)  (* selector matching *)
| RangerContainingNetworks (ip : string)             (* c.ranger.ContainingNetworks(net.ParseIP(ip)) *)
| PushContextAdd (m : Metric) (key : string) (msg : string)
| SvcUpdate (cluster name namespace : string) (ev : Event)
| EDSUpdate (cluster hostname namespace : string) (eps : list IstioEndpoint.t)
| ConfigUpdateFull (namespace : string)
| ServiceHandlerCall (svc : Service.t) (ev : Event). (* the callback given to AppendServiceHandler *)

Definition W (A : Type) : Type := (A * list effect)%type.

#[global] Instance W_ret : MRet W := fun A a => (a, []).
#[global] Instance W_bind : MBind W := fun A B f m =>
  let '(a, t1) := m in let '(b, t2) := f a in (b, t1 ++ t2).

Definition emit (e : effect) : W unit := (tt, [e]).
Definition value {A} (m : W A) : A := fst m.
Definition trace {A} (m : W A) : list effect := snd m.

(** [for _, x := range xs { out = append(out, body(x)...) }] *)
Fixpoint forAppend {A B} (xs : list A) (body : A -> W (list B)) : W (list B) :=
  match xs with
  | [] => mret []
  | x :: xs' => ys ← body x; zs ← forAppend xs' body; mret (ys ++ zs)
  end.

(** The same loop when the body may [return nil, err] out of the function. *)
Fixpoint forAppendE {A B} (xs : list A) (body : A -> W (result (list B)))
  : W (result (list B)) :=
  match xs with
  | [] => mret (Ok [])
  | x :: xs' =>
      r ← body x;
      match r with
      | Err e => mret (Err e)
      | Ok ys =>
          r' ← forAppendE xs' body;
          match r' with
          | Err e => mret (Err e)
          | Ok zs => mret (Ok (ys ++ zs))
          end
      end
  end.

(** ** Collaborators of the controller

    Functions of other packages that [controller.go] calls but whose bodies
    are not part of this development.  They are pure; the controller's
    behaviour is stated for every implementation of them. *)

(** [net.IP] is a byte slice; [net.ParseIP] returns nil on malformed text. *)
Definition IP : Type := slice Z.

Class Deps := {
  (* pilot/pkg/serviceregistry/kube *)
  ServiceHostname : string -> string -> string -> string;
  KeyFunc : string -> string -> string;
  ConvertService : v1Service.t -> string -> string -> Service.t;
  ExternalNameServiceInstances : v1Service.t -> Service.t -> slice ServiceInstance.t;
  SecureNamingSAN : Pod.t -> string;
  PodTLSMode : option Pod.t -> string;
  (* pkg/config/kube *)
  ConvertLabels : ObjectMeta.t -> gmap string string;
  (* pkg/config/labels: Collection.HasSubsetOf *)
  HasSubsetOf : list (gmap string string) -> gmap string string -> bool;
  (* pilot/pkg/model: PortList.Get, PortList.GetByPort *)
  PortList_Get : list Port.t -> string -> option Port.t;
  PortList_GetByPort : list Port.t -> Z -> option Port.t;
  (* pilot/pkg/networking/util *)
  LocalityToString : option Locality.t -> string;
  (* controller/util.go *)
  hasProxyIP : slice EndpointAddress.t -> string -> bool;
  (* net *)
  ParseIP : string -> IP;
  (* pilot/pkg/features: EnableHeadlessService.Get() *)
  EnableHeadlessService : bool }.

(** Objects held by the controller behind an interface or a pointer are
    records of their methods, read at the moment of the call. *)

(** [cache.Store] of an informer. *)
Record Store (A : Type) := {
  HasSynced : bool;
  GetByKey : string -> lookup A;
  List_ : list A }.
Arguments HasSynced {A} s.
Arguments GetByKey {A} s key.
Arguments List_ {A} s.

(** The services informer: its store, and [listerv1.ServiceLister.GetPodServices]
    over its indexer (the services of the pod's namespace whose selector
    matches the pod's labels). *)
Record ServiceInformer := {
  svcStore : Store v1Service.t;
  PodServices : string -> gmap string string -> result (list v1Service.t) }.

(** [PodCache] (pod.go). *)
Record PodCache := {
  podsHasSynced : bool;
  getPodByIP : string -> option Pod.t;
  labelsByIP : string -> gmap string string * bool }.

(** [namedRangerEntry]: a network's CIDR and name. *)
Module IPNet.
Record t := mk { IP_ : IP; Mask : slice Z }.
End IPNet.

Record namedRangerEntry := {
  name : string;
  network : IPNet.t }.

(** returns the IPNet for the network *)
Definition Network (n : namedRangerEntry) : IPNet.t := network n.

(** [cidranger.Ranger], as far as the controller queries it.  Loading the mesh
    networks ([InitNetworkLookup], which fills [ranger] and [networkForRegistry])
    is left out: the statements range over every value of the two fields. *)
Record Ranger := {
  ContainingNetworks : IP -> result (list namedRangerEntry) }.

(** [interface{}] values that travel through the queue. *)
Inductive obj :=
| ObjNil
| ObjService (s : v1Service.t)
| ObjEndpoints (e : Endpoints.t)
| ObjPod (p : Pod.t)
| ObjNode (n : Node.t)
| ObjTombstone (key : string) (o : obj).      (* cache.DeletedFinalStateUnknown *)

#[global] Instance obj_eq_dec : EqDecision obj.
Proof. solve_decision. Defined.

(** [kube.Task]; the handler chain is named by the resource type it was
    created for. *)
Record Task := {
  Handler : string;
  Obj : obj;
  TaskEvent : Event }.

(** ** The controller *)

Record Controller := {
  domainSuffix : string;
  queue : list Task;
  services : ServiceInformer;
  endpoints : Store Endpoints.t;
  nodes : Store Node.t;
  pods : PodCache;
  Env : option Environment.t;
  ClusterID : string;
  servicesMap : gmap string Service.t;
  externalNameSvcInstanceMap : gmap string (list ServiceInstance.t);
  ranger : option Ranger;
  networkForRegistry : string }.

Definition with_queue (q : list Task) (c : Controller) : Controller :=
  {| domainSuffix := domainSuffix c; queue := q; services := services c;
     endpoints := endpoints c; nodes := nodes c; pods := pods c; Env := Env c;
     ClusterID := ClusterID c; servicesMap := servicesMap c;
     externalNameSvcInstanceMap := externalNameSvcInstanceMap c;
     ranger := ranger c; networkForRegistry := networkForRegistry c |}.

Definition with_maps (sm : gmap string Service.t)
    (xm : gmap string (list ServiceInstance.t)) (c : Controller) : Controller :=
  {| domainSuffix := domainSuffix c; queue := queue c; services := services c;
     endpoints := endpoints c; nodes := nodes c; pods := pods c; Env := Env c;
     ClusterID := ClusterID c; servicesMap := sm;
     externalNameSvcInstanceMap := xm;
     ranger := ranger c; networkForRegistry := networkForRegistry c |}.

(** [c.queue.Push] *)
Definition Push (t : Task) (c : Controller) : Controller :=
  with_queue (queue c ++ [t]) c.

Definition incrementEvent (kind event : string) : W unit :=
  emit (IncrementEvent kind event).

(** HasSynced returns true after the initial state synchronization *)
Definition HasSynced_ (c : Controller) : bool :=
  if negb (HasSynced (svcStore (services c)))
     || negb (HasSynced (endpoints c))
     || negb (podsHasSynced (pods c))
     || negb (HasSynced (nodes c))
  then false else true.

(** notify is the first handler in the handler chain. *)
Definition notify (c : Controller) (o : obj) (event : Event) : option error :=
  if negb (HasSynced_ c) then Some ErrWaitingSync else None.

(** ** Watch callbacks *)

(** The three callbacks registered by [createCacheHandler] (Services, Nodes,
    Pods). *)
Definition AddFunc (otype : string) (o : obj) (c : Controller) : W Controller :=
  incrementEvent otype "add";;
  mret (Push {| Handler := otype; Obj := o; TaskEvent := EventAdd |} c).

Definition UpdateFunc (otype : string) (old cur : obj) (c : Controller) : W Controller :=
  if negb (DeepEqual old cur) then
    incrementEvent otype "update";;
    mret (Push {| Handler := otype; Obj := cur; TaskEvent := EventUpdate |} c)
  else
    incrementEvent otype "updatesame";;
    mret c.

Definition DeleteFunc (otype : string) (o : obj) (c : Controller) : W Controller :=
  incrementEvent otype "delete";;
  mret (Push {| Handler := otype; Obj := o; TaskEvent := EventDelete |} c).

Fixpoint compareSubsets (a b : list EndpointSubset.t) : bool :=
  match a, b with
  | sa :: a', sb :: b' =>
      if negb (DeepEqual (EndpointSubset.Ports sa) (EndpointSubset.Ports sb)) then false
      else if negb (DeepEqual (EndpointSubset.Addresses sa) (EndpointSubset.Addresses sb)) then false
      else compareSubsets a' b'
  | _, _ => true
  end.

(** compareEndpoints returns true if the two endpoints are the same in aspects
    Pilot cares about.  This currently means only looking at "Ready" endpoints. *)
Definition compareEndpoints (a b : Endpoints.t) : bool :=
  if negb (bool_decide (length (elems (Endpoints.Subsets a)) = length (elems (Endpoints.Subsets b))))
  then false
  else compareSubsets (elems (Endpoints.Subsets a)) (elems (Endpoints.Subsets b)).

(** The three callbacks registered by [createEDSCacheHandler]. *)
Definition EDS_AddFunc (otype : string) (o : obj) (c : Controller) : W Controller :=
  incrementEvent otype "add";;
  mret (Push {| Handler := otype; Obj := o; TaskEvent := EventAdd |} c).

Definition EDS_UpdateFunc (otype : string) (old cur : Endpoints.t) (c : Controller)
  : W Controller :=
  let oldE := old in
  let curE := cur in
  if negb (compareEndpoints oldE curE) then
    incrementEvent otype "update";;
    mret (Push {| Handler := otype; Obj := ObjEndpoints cur; TaskEvent := EventUpdate |} c)
  else
    incrementEvent otype "updatesame";;
    mret c.

Definition EDS_DeleteFunc (otype : string) (o : obj) (c : Controller) : W Controller :=
  incrementEvent otype "delete";;
  mret (Push {| Handler := otype; Obj := o; TaskEvent := EventDelete |} c).

(** ** Service handler (AppendServiceHandler) *)

Section WithDeps.
Context `{Deps}.

Definition eventString (e : Event) : string :=
  match e with EventAdd => "add" | EventUpdate => "update" | EventDelete => "delete" end.

(** The part of the handler after the object has been unwrapped. *)
Definition handleService (svc : v1Service.t) (event : Event) (c : Controller)
  : W (Controller * option error) :=
  emit (Log Debug "Handle event %s for service %s in namespace %s"
          [AStr (eventString event); AStr (v1Service.Name svc); AStr (v1Service.Namespace svc)]);;
  let svcConv := ConvertService svc (domainSuffix c) (ClusterID c) in
  c' ← match event with
       | EventDelete =>
           let c' := with_maps (delete (Service.Hostname svcConv) (servicesMap c))
                               (delete (Service.Hostname svcConv) (externalNameSvcInstanceMap c)) c in
           (* EDS needs to just know when service is deleted. *)
           emit (SvcUpdate (ClusterID c) (v1Service.Name svc) (v1Service.Namespace svc) event);;
           mret c'
       | _ =>
           (* instance conversion is only required when service is added/updated. *)
           let instances := ExternalNameServiceInstances svc svcConv in
           let sm := <[Service.Hostname svcConv := svcConv]> (servicesMap c) in
           let xm := match instances with
                     | None => delete (Service.Hostname svcConv) (externalNameSvcInstanceMap c)
                     | Some l => <[Service.Hostname svcConv := l]> (externalNameSvcInstanceMap c)
                     end in
           emit (SvcUpdate (ClusterID c) (v1Service.Name svc) (v1Service.Namespace svc) event);;
           mret (with_maps sm xm c)
       end;
  emit (ServiceHandlerCall svcConv event);;
  mret (c', None).

(** The function appended to the services chain. *)
Definition serviceHandler (o : obj) (event : Event) (c : Controller)
  : W (Controller * option error) :=
  match o with
  | ObjService svc => handleService svc event c
  | ObjTombstone _ (ObjService svc) => handleService svc event c
  | ObjTombstone _ _ =>
      emit (Log Error "Tombstone contained object that is not a service %#v" [AVal "obj"]);;
      mret (c, None)
  | _ =>
      emit (Log Error "Couldn't get object from tombstone %#v" [AVal "obj"]);;
      mret (c, None)
  end.

(** The queue hands the tasks of the services chain to the handler one at a
    time, in the order received; each runs on the state the previous one left. *)
Fixpoint runServiceEvents (evs : list (obj * Event)) (c : Controller) : W Controller :=
  match evs with
  | [] => mret c
  | (o, e) :: evs' =>
      r ← serviceHandler o e c;
      runServiceEvents evs' (fst r)
  end.

(** ** Service catalog reads *)

(** The order [sort.Slice] is asked for: [less(i, j)] is
    [out[i].Hostname < out[j].Hostname]; [a] may stand before [b] when [b] is
    not less than [a]. *)
Definition hostname_le (a b : Service.t) : Prop :=
  String.ltb (Service.Hostname b) (Service.Hostname a) = false.

#[global] Instance hostname_le_dec : RelDecision hostname_le.
Proof. intros a b. unfold hostname_le. solve_decision. Defined.

(** Services implements a service catalog operation.  The values of the map
    are collected (Go leaves the iteration order open; [map_to_list] fixes
    one) and sorted by hostname. *)
Definition Services (c : Controller) : slice Service.t * option error :=
  let out := (map_to_list (servicesMap c)).*2 in
  (Some (merge_sort hostname_le out), None).

(** GetService implements a service catalog operation by hostname specified. *)
Definition GetService (c : Controller) (hostname : string) : option Service.t * option error :=
  (servicesMap c !! hostname, None).

(** ** Locality *)

(** Modelled from the spec: [model.GetLocalityOrDefault], whose body is in
    package model and not in controller.go.  "If the pod carries an explicit
    locality label, parse and return it directly": a non-empty label is the
    locality, an empty one gives the default. *)
Definition GetLocalityOrDefault (label defaultLocality : string) : string :=
  if bool_decide (0 < String.length label)%nat then label else defaultLocality.

(** Modelled from the spec: [getLabelValue], whose body is in util.go of this
    package and not in controller.go.  "Read both the modern and legacy forms
    of region/zone labels": the value under the first key, and when that is
    empty the value under the fall-back key. *)
Definition getLabelValue (node : Node.t) (label_ fallBackLabel : string) : string :=
  let val := label (Node.Labels node) label_ in
  if negb (String.eqb val "") then val
  else label (Node.Labels node) fallBackLabel.

(** GetPodLocality retrieves the locality for a pod. *)
Definition GetPodLocality (c : Controller) (pod : Pod.t) : W string :=
  (* if pod has `istio-locality` label, skip below ops *)
  if bool_decide (0 < String.length (label (Pod.Labels pod) LocalityLabel))%nat then
    mret (GetLocalityOrDefault (label (Pod.Labels pod) LocalityLabel) "")
  else
    let nodeName := PodSpec.NodeName (Pod.Spec pod) in
    emit (NodesGetByKey nodeName);;
    match GetByKey (nodes c) nodeName with
    | Missing =>
        emit (Log Warn "unable to get node %q for pod %q: %v"
                [AStr nodeName; AStr (Pod.Name pod); AErr None]);;
        mret ""
    | Failed err =>
        emit (Log Warn "unable to get node %q for pod %q: %v"
                [AStr nodeName; AStr (Pod.Name pod); AErr (Some err)]);;
        mret ""
    | Found node =>
        let region := getLabelValue node NodeRegionLabel NodeRegionLabelGA in
        let zone := getLabelValue node NodeZoneLabel NodeZoneLabelGA in
        if String.eqb region "" && String.eqb zone "" then mret ""
        else mret (region +:+ "/" +:+ zone)   (* "%v/%v" *)
    end.

(** ** Network *)

(** return the mesh network for the endpoint IP. Empty string if not found. *)
Definition endpointNetwork (c : Controller) (endpointIP : string) : W string :=
  (* If networkForRegistry is set then all endpoints discovered by this registry
     belong to the configured network so simply return it *)
  if negb (bool_decide (String.length (networkForRegistry c) = 0%nat)) then
    mret (networkForRegistry c)
  else
    match ranger c with
    | None => mret ""
    | Some r =>
        emit (RangerContainingNetworks endpointIP);;
        match ContainingNetworks r (ParseIP endpointIP) with
        | Err err => emit (Log Error "%v" [AErr (Some err)]);; mret ""
        | Ok entries =>
            match entries with
            | [] => mret ""
            | first :: _ =>
                (if bool_decide (1 < length entries)%nat then
                   emit (Log Warn "Found multiple networks CIDRs matching the endpoint IP: %s. Using the first match."
                           [AStr endpointIP])
                 else mret tt);;
                mret (name first)
            end
        end
    end.

(** ** Service to instances *)

(** A slice declared with [var out []T] and grown with [append]: still nil
    when nothing was appended. *)
Definition appended {A} (l : list A) : slice A :=
  match l with [] => None | _ => Some l end.

Definition mixerEnabled (c : Controller) : bool :=
  match Env c with
  | Some env =>
      match Environment.Mesh env with
      | Some mesh =>
          negb (String.eqb (MeshConfig.MixerCheckServer mesh) "")
          || negb (String.eqb (MeshConfig.MixerReportServer mesh) "")
      | None => false
      end
  | None => false
  end.

(** "kubernetes://%s.%s" *)
Definition podUID (pod : Pod.t) : string :=
  "kubernetes://" +:+ Pod.Name pod +:+ "." +:+ Pod.Namespace pod.

(** InstancesByPort implements a service catalog operation *)
Definition InstancesByPort (c : Controller) (svc : Service.t) (reqSvcPort : Z)
    (labelsList : list (gmap string string))
  : W (slice ServiceInstance.t * option error) :=
  let instances := externalNameSvcInstanceMap c !! Service.Hostname svc in
  match instances with
  | Some instances =>
      let inScopeInstances :=
        filter (fun i => ServiceAttributes.Namespace (Service.Attributes (ServiceInstance.Service i))
                         = ServiceAttributes.Namespace (Service.Attributes svc)) instances in
      mret (Some inScopeInstances, None)
  | None =>
      let svcName := ServiceAttributes.Name (Service.Attributes svc) in
      let svcNamespace := ServiceAttributes.Namespace (Service.Attributes svc) in
      emit (EndpointsGetByKey (KeyFunc svcName svcNamespace));;
      match GetByKey (endpoints c) (KeyFunc svcName svcNamespace) with
      | Failed err =>
          emit (Log Info "get endpoint(%s, %s) => error %v"
                  [AStr svcName; AStr svcNamespace; AErr (Some err)]);;
          mret (None, None)
      | Missing => mret (None, None)
      | Found ep =>
          (* Locate all ports in the actual service *)
          match PortList_GetByPort (Service.Ports svc) reqSvcPort with
          | None => mret (None, None)
          | Some svcPortEntry =>
              out ← forAppend (elems (Endpoints.Subsets ep)) (fun ss =>
                forAppend (elems (EndpointSubset.Addresses ss)) (fun ea =>
                  emit (PodsGetByIP (EndpointAddress.IP ea));;
                  let pod := getPodByIP (pods c) (EndpointAddress.IP ea) in
                  let podLabels := match pod with
                                   | Some p => ConvertLabels (Pod.Meta p)
                                   | None => ∅
                                   end in
                  (* check that one of the input labels is a subset of the labels *)
                  if negb (HasSubsetOf labelsList podLabels) then mret []
                  else
                    '(az, sa, uid) ← match pod with
                                     | Some p =>
                                         az ← GetPodLocality c p;
                                         mret (az, SecureNamingSAN p,
                                               if mixerEnabled c then podUID p else "")
                                     | None => mret ("", "", "")
                                     end;
                    let tlsMode := PodTLSMode pod in
                    (* identify the port by name. K8S EndpointPort uses the service port name *)
                    forAppend (elems (EndpointSubset.Ports ss)) (fun port =>
                      if String.eqb (EndpointPort.Name port) ""   (* 'name optional if single port is defined' *)
                         || String.eqb (Port.Name svcPortEntry) (EndpointPort.Name port)
                      then
                        net ← endpointNetwork c (EndpointAddress.IP ea);
                        mret [ {| ServiceInstance.Endpoint :=
                                    {| NetworkEndpoint.Address := EndpointAddress.IP ea;
                                       NetworkEndpoint.Port := EndpointPort.Port port;
                                       NetworkEndpoint.ServicePort := svcPortEntry;
                                       NetworkEndpoint.UID := uid;
                                       NetworkEndpoint.Network := net;
                                       NetworkEndpoint.Locality := az |};
                                  ServiceInstance.Service := svc;
                                  ServiceInstance.Labels := podLabels;
                                  ServiceInstance.ServiceAccount := sa;
                                  ServiceInstance.TLSMode := tlsMode |} ]
                      else mret [])));
              mret (appended out, None)
          end
      end
  end.

(** ** Proxy to instances *)

(** FindPort locates the container port for the given pod and portName.  If the
    targetPort is a number, use that.  If the targetPort is a string, look that
    string up in all named ports in all containers in the target pod.  If no
    match is found, fail. *)
Definition FindPort (pod : Pod.t) (svcPort : ServicePort.t) : result Z :=
  let portName := ServicePort.TargetPort svcPort in
  match IntOrString.Type_ portName with
  | IntOrString.String =>
      let name_ := IntOrString.StrVal portName in
      match
        list_find (fun port : ContainerPort.t =>
                     ContainerPort.Name port = name_
                     ∧ ContainerPort.Protocol port = ServicePort.Protocol svcPort)
          (concat (Container.Ports <$> PodSpec.Containers (Pod.Spec pod)))
      with
      | Some (_, port) => Ok (ContainerPort.ContainerPort port)
      | None => Err (ErrNoSuitablePort (Pod.UID pod))
      end
  | IntOrString.Int => Ok (IntOrString.IntValue portName)
  end.

(** findPortFromMetadata resolves the TargetPort of a Service Port, by reading
    the Pod spec. *)
Definition findPortFromMetadata (svcPort : ServicePort.t) (podPorts : list PodPort.t)
  : result Z :=
  let target := ServicePort.TargetPort svcPort in
  match IntOrString.Type_ target with
  | IntOrString.String =>
      let name_ := IntOrString.StrVal target in
      match list_find (fun port : PodPort.t => PodPort.Name port = name_) podPorts with
      | Some (_, port) => Ok (PodPort.ContainerPort port)
      | None => Err (ErrNoMatchingPort svcPort)
      end
  | IntOrString.Int =>
      (* For a direct reference we can just return the port number *)
      Ok (IntOrString.IntValue target)
  end.

Definition getEndpoints (c : Controller) (podIP address : string) (endpointPort : Z)
    (svcPort : Port.t) (svc : Service.t) : W ServiceInstance.t :=
  emit (PodsLabelsByIP podIP);;
  let podLabels := fst (labelsByIP (pods c) podIP) in
  emit (PodsGetByIP podIP);;
  let pod := getPodByIP (pods c) podIP in
  '(az, sa) ← match pod with
              | Some p => az ← GetPodLocality c p; mret (az, SecureNamingSAN p)
              | None => mret ("", "")
              end;
  net ← endpointNetwork c address;
  mret {| ServiceInstance.Endpoint :=
            {| NetworkEndpoint.Address := address;
               NetworkEndpoint.Port := endpointPort;
               NetworkEndpoint.ServicePort := svcPort;
               NetworkEndpoint.UID := "";
               NetworkEndpoint.Network := net;
               NetworkEndpoint.Locality := az |};
          ServiceInstance.Service := svc;
          ServiceInstance.Labels := podLabels;
          ServiceInstance.ServiceAccount := sa;
          ServiceInstance.TLSMode := PodTLSMode pod |}.

(** [proxy.IPAddresses[0]]; every use below is reached only after
    [len(proxy.IPAddresses) > 0] was checked. *)
Definition firstIP (proxy : Proxy.t) : string := default "" (head (Proxy.IPAddresses proxy)).

Definition getProxyServiceInstancesByPod (c : Controller) (pod : Pod.t)
    (service : v1Service.t) (proxy : Proxy.t) : W (list ServiceInstance.t) :=
  let hostname := ServiceHostname (v1Service.Name service) (v1Service.Namespace service)
                    (domainSuffix c) in
  match servicesMap c !! hostname with
  | None => mret []
  | Some svc =>
      forAppend (ServiceSpec.Ports (v1Service.Spec service)) (fun port =>
        match PortList_Get (Service.Ports svc) (ServicePort.Name port) with
        | None => mret []
        | Some svcPort =>
            (* find target port *)
            match FindPort pod port with
            | Err err =>
                emit (Log Warn "Failed to find port for service %s/%s: %v"
                        [AStr (v1Service.Namespace service); AStr (v1Service.Name service);
                         AErr (Some err)]);;
                mret []
            | Ok portNum =>
                let podIP := firstIP proxy in
                (* consider multiple IP scenarios *)
                forAppend (Proxy.IPAddresses proxy) (fun ip =>
                  i ← getEndpoints c podIP ip (int32 portNum) svcPort svc;
                  mret [i])
            end
        end)
  end.

Definition getProxyServiceInstancesByEndpoint (c : Controller) (endpoints_ : Endpoints.t)
    (proxy : Proxy.t) : W (list ServiceInstance.t) :=
  let hostname := ServiceHostname (Endpoints.Name endpoints_) (Endpoints.Namespace endpoints_)
                    (domainSuffix c) in
  match servicesMap c !! hostname with
  | None => mret []
  | Some svc =>
      forAppend (elems (Endpoints.Subsets endpoints_)) (fun ss =>
        forAppend (elems (EndpointSubset.Ports ss)) (fun port =>
          match PortList_Get (Service.Ports svc) (EndpointPort.Name port) with
          | None => mret []
          | Some svcPort =>
              let podIP := firstIP proxy in
              (* consider multiple IP scenarios *)
              forAppend (Proxy.IPAddresses proxy) (fun ip =>
                ready ← (if hasProxyIP (EndpointSubset.Addresses ss) ip then
                           i ← getEndpoints c podIP ip (EndpointPort.Port port) svcPort svc;
                           mret [i]
                         else mret []);
                notReady ← (if hasProxyIP (EndpointSubset.NotReadyAddresses ss) ip then
                              i ← getEndpoints c podIP ip (EndpointPort.Port port) svcPort svc;
                              (if Env c is Some _ then
                                 emit (PushContextAdd ProxyStatusEndpointNotReady (Proxy.ID proxy) "")
                               else mret tt);;
                              mret [i]
                            else mret []);
                mret (ready ++ notReady))
          end))
  end.

(** getProxyServiceInstancesFromMetadata retrieves ServiceInstances using proxy
    Metadata rather than from the Pod.  If the proxy doesn't have enough
    metadata, an error is returned. *)
Definition getProxyServiceInstancesFromMetadata (c : Controller) (proxy : Proxy.t)
  : W (result (list ServiceInstance.t)) :=
  if bool_decide (length (Proxy.WorkloadLabels proxy) = 0%nat) then
    mret (Err ErrNoWorkloadLabels)
  else if negb (String.eqb (NodeMetadata.ClusterID (Proxy.Metadata proxy)) (ClusterID c)) then
    mret (Err (ErrClusterMismatch (NodeMetadata.ClusterID (Proxy.Metadata proxy)) (ClusterID c)))
  else
    (* Create a pod with just the information needed to find the associated Services *)
    let dummyNamespace := Proxy.ConfigNamespace proxy in
    let dummyLabels := default ∅ (head (Proxy.WorkloadLabels proxy)) in
    (* Find the Service associated with the pod. *)
    emit (GetPodServices dummyNamespace dummyLabels);;
    match PodServices (services c) dummyNamespace dummyLabels with
    | Err err => mret (Err (ErrGettingInstances err))
    | Ok services_ =>
        if bool_decide (length services_ = 0%nat) then mret (Err ErrNoInstancesFound)
        else
          forAppendE services_ (fun svc =>
            let svcAccount := NodeMetadata.ServiceAccount (Proxy.Metadata proxy) in
            let hostname := ServiceHostname (v1Service.Name svc) (v1Service.Namespace svc)
                              (domainSuffix c) in
            match servicesMap c !! hostname with
            | None => mret (Err (ErrNoModelService hostname))
            | Some modelService =>
                forAppendE (ServiceSpec.Ports (v1Service.Spec svc)) (fun port =>
                  match PortList_Get (Service.Ports modelService) (ServicePort.Name port) with
                  | None => mret (Err (ErrNoSvcPort (ServicePort.Name port)))
                  | Some svcPort =>
                      match findPortFromMetadata port
                              (NodeMetadata.PodPorts (Proxy.Metadata proxy)) with
                      | Err err => mret (Err (ErrNoTargetPort (Proxy.ID proxy) err))
                      | Ok targetPort =>
                          (* Construct the ServiceInstance *)
                          net ← endpointNetwork c (firstIP proxy);
                          mret (Ok [ {| ServiceInstance.Endpoint :=
                                          {| NetworkEndpoint.Address := firstIP proxy;
                                             NetworkEndpoint.Port := targetPort;
                                             NetworkEndpoint.ServicePort := svcPort;
                                             NetworkEndpoint.UID := "";
                                             NetworkEndpoint.Network := net;
                                             NetworkEndpoint.Locality :=
                                               LocalityToString (Proxy.Locality_ proxy) |};
                                        ServiceInstance.Service := modelService;
                                        ServiceInstance.Labels := dummyLabels;
                                        ServiceInstance.ServiceAccount := svcAccount;
                                        ServiceInstance.TLSMode := "" |} ])
                      end
                  end)
            end)
    end.

(** "3. Headless service": the scan over every cached Endpoints object.  The
    instances of the proxy's namespace come before the others. *)
Fixpoint headlessScan (c : Controller) (proxy : Proxy.t) (proxyNamespace : string)
    (items : list Endpoints.t)
    (endpointsForPodInSameNS endpointsForPodInDifferentNS : list ServiceInstance.t)
  : W (list ServiceInstance.t) :=
  match items with
  | [] => mret (endpointsForPodInSameNS ++ endpointsForPodInDifferentNS)
  | ep :: items' =>
      found ← getProxyServiceInstancesByEndpoint c ep proxy;
      if negb (String.eqb (Endpoints.Namespace ep) proxyNamespace) then
        headlessScan c proxy proxyNamespace items'
          endpointsForPodInSameNS (endpointsForPodInDifferentNS ++ found)
      else
        headlessScan c proxy proxyNamespace items'
          (endpointsForPodInSameNS ++ found) endpointsForPodInDifferentNS
  end.

(** The closing [if len(out) == 0] block of [GetProxyServiceInstances]. *)
Definition reportNoService (c : Controller) (proxy : Proxy.t) (out : list ServiceInstance.t)
  : W unit :=
  if bool_decide (length out = 0%nat) then
    match Env c with
    | Some env =>
        emit (PushContextAdd ProxyStatusNoService (Proxy.ID proxy) "");;
        if Environment.PushContext env is None then
          emit (Log Info "Empty list of services for pod %s %v" [AStr (Proxy.ID proxy); AVal "env"])
        else mret tt
    | None =>
        emit (Log Info "Missing env, empty list of services for pod %s" [AStr (Proxy.ID proxy)])
    end
  else mret tt.

(** Steps 2 and 3 of [GetProxyServiceInstances], reached when step 1 did not
    return: the metadata of the proxy, and when that gives an error the scan
    of the Endpoints store. *)
Definition fromMetadataOrHeadless (c : Controller) (proxy : Proxy.t) (proxyNamespace : string)
  : W (slice ServiceInstance.t * option error) :=
  r ← getProxyServiceInstancesFromMetadata c proxy;
  match r with
  | Ok instances => mret (Some instances, None)
  | Err _ =>
      emit EndpointsList;;
      out ← headlessScan c proxy proxyNamespace (List_ (endpoints c)) [] [];
      reportNoService c proxy out;;
      mret (Some out, None)
  end.

(** GetProxyServiceInstances returns service instances co-located with a given proxy *)
Definition GetProxyServiceInstances (c : Controller) (proxy : Proxy.t)
  : W (slice ServiceInstance.t * option error) :=
  match Proxy.IPAddresses proxy with
  | [] => reportNoService c proxy [];; mret (Some [], None)
  | proxyIP :: _ =>
      (* only need to fetch the corresponding pod through the first IP *)
      emit (PodsGetByIP proxyIP);;
      match getPodByIP (pods c) proxyIP with
      | Some pod =>
          (* compare the proxy Network meta with the network which endpoint belongs to,
             if they are not same, ignore the pod, because the pod is in another cluster. *)
          net ← endpointNetwork c proxyIP;
          if negb (String.eqb (NodeMetadata.Network (Proxy.Metadata proxy)) net) then
            mret (Some [], None)
          else
            let proxyNamespace := Pod.Namespace pod in
            (* 1. find proxy service by label selector, if not any, there may exist
               headless service failover to 3 *)
            emit (GetPodServices (Pod.Namespace pod) (Pod.Labels pod));;
            match PodServices (services c) (Pod.Namespace pod) (Pod.Labels pod) with
            | Ok (svc0 :: rest) =>
                out ← forAppend (svc0 :: rest) (fun svc =>
                        getProxyServiceInstancesByPod c pod svc proxy);
                mret (Some out, None)
            | _ => fromMetadataOrHeadless c proxy proxyNamespace
            end
      | None => fromMetadataOrHeadless c proxy ""
      end
  end.

(** ** Endpoints handler (AppendInstanceHandler) *)

Definition updateEDS (c : Controller) (ep : Endpoints.t) (event : Event) : W unit :=
  let hostname := ServiceHostname (Endpoints.Name ep) (Endpoints.Namespace ep) (domainSuffix c) in
  endpoints_ ←
    (if negb (bool_decide (event = EventDelete)) then
       forAppend (elems (Endpoints.Subsets ep)) (fun ss =>
         forAppend (elems (EndpointSubset.Addresses ss)) (fun ea =>
           emit (PodsGetByIP (EndpointAddress.IP ea));;
           let pod := getPodByIP (pods c) (EndpointAddress.IP ea) in
           let build :=
             '(locality, sa, uid, labels) ←
                match pod with
                | Some p =>
                    locality ← GetPodLocality c p;
                    mret (locality, SecureNamingSAN p,
                          (if mixerEnabled c then podUID p else ""),
                          ConvertLabels (Pod.Meta p))
                | None => mret ("", "", "", ∅)
                end;
             let tlsMode := PodTLSMode pod in
             (* EDS and ServiceEntry use name for service port - ADS will need to
                map to numbers. *)
             forAppend (elems (EndpointSubset.Ports ss)) (fun port =>
               net ← endpointNetwork c (EndpointAddress.IP ea);
               mret [ {| IstioEndpoint.Address := EndpointAddress.IP ea;
                         IstioEndpoint.EndpointPort := EndpointPort.Port port mod 2 ^ 32;
                         IstioEndpoint.ServicePortName := EndpointPort.Name port;
                         IstioEndpoint.Labels := labels;
                         IstioEndpoint.UID := uid;
                         IstioEndpoint.ServiceAccount := sa;
                         IstioEndpoint.Network := net;
                         IstioEndpoint.Locality := locality;
                         IstioEndpoint.Attributes :=
                           {| ServiceAttributes.Name := Endpoints.Name ep;
                              ServiceAttributes.Namespace := Endpoints.Namespace ep;
                              ServiceAttributes.UID := "" |};
                         IstioEndpoint.TLSMode := tlsMode |} ]) in
           match pod, EndpointAddress.TargetRef ea with
           | None, Some ref =>
               (* This can not happen in usual case *)
               if String.eqb (ObjectReference.Kind ref) "Pod" then
                 emit (Log Warn "Endpoint without pod %s %s.%s"
                         [AStr (EndpointAddress.IP ea); AStr (Endpoints.Name ep);
                          AStr (Endpoints.Namespace ep)]);;
                 (if Env c is Some _ then
                    emit (PushContextAdd EndpointNoPod hostname (EndpointAddress.IP ea))
                  else mret tt);;
                 mret []
               else build
           | _, _ => build
           end))
     else mret []);
  emit (Log Info "Handle EDS endpoint %s in namespace %s -> %v"
          [AStr (Endpoints.Name ep); AStr (Endpoints.Namespace ep); AVal "addresses"]);;
  emit (EDSUpdate (ClusterID c) hostname (Endpoints.Namespace ep) endpoints_).

Definition handleEndpoints (c : Controller) (ep : Endpoints.t) (event : Event)
  : W (option error) :=
  emit (Log Debug "Handle event %s for endpoint %s in namespace %s"
          [AStr (eventString event); AStr (Endpoints.Name ep); AStr (Endpoints.Namespace ep)]);;
  let plain := updateEDS c ep event;; mret None in
  (* headless service cluster discovery type is ORIGINAL_DST, we do not need update EDS. *)
  if EnableHeadlessService then
    let key := KeyFunc (Endpoints.Name ep) (Endpoints.Namespace ep) in
    emit (ServicesGetByKey key);;
    match GetByKey (svcStore (services c)) key with
    | Found svc =>
        (* if the service is headless service, trigger a full push. *)
        if String.eqb (ServiceSpec.ClusterIP (v1Service.Spec svc)) "None" then
          emit (ConfigUpdateFull (Endpoints.Namespace ep));;
          mret None
        else plain
    | _ => plain
    end
  else plain.

(** The function appended to the endpoints chain. *)
Definition instanceHandler (c : Controller) (o : obj) (event : Event) : W (option error) :=
  match o with
  | ObjEndpoints ep => handleEndpoints c ep event
  | ObjTombstone _ (ObjEndpoints ep) => handleEndpoints c ep event
  | ObjTombstone _ _ =>
      emit (Log Error "Tombstone contained an object that is not an endpoint %#v" [AVal "obj"]);;
      mret None
  | _ =>
      emit (Log Error "Couldn't get object from tombstone %#v" [AVal "obj"]);;
      mret None
  end.

End WithDeps.

(** ** Vocabulary of the statements *)

Section Vocabulary.
Context `{Deps}.

(** What Pilot cares about in an Endpoints object: for each subset, its ports
    and its ready addresses.  Metadata (the resource version among it) and the
    not-ready addresses are left out. *)
Definition readyView (e : Endpoints.t)
  : list (slice EndpointPort.t * slice EndpointAddress.t) :=
  (fun ss => (EndpointSubset.Ports ss, EndpointSubset.Addresses ss))
    <$> elems (Endpoints.Subsets e).

(** The Service a queue object carries: the object itself, or the last known
    state kept in a tombstone. *)
Definition carriedService (o : obj) : option v1Service.t :=
  match o with
  | ObjService svc => Some svc
  | ObjTombstone _ (ObjService svc) => Some svc
  | _ => None
  end.

(** An event of the Service whose hostname is [h], as seen by a controller
    configured with [suffix] and [cluster]. *)
Definition serviceEventFor (h suffix cluster : string) (oe : obj * Event) : Prop :=
  match carriedService oe.1 with
  | Some svc => Service.Hostname (ConvertService svc suffix cluster) = h
  | None => False
  end.

Definition isSvcUpdate (e : effect) : bool :=
  match e with SvcUpdate _ _ _ _ => true | _ => false end.

Definition isEDSUpdate (e : effect) : bool :=
  match e with EDSUpdate _ _ _ _ => true | _ => false end.

(** Marks left in the trace by selector matching, by reads of the Endpoints
    store and by the status report. *)
Definition isResolutionStep (e : effect) : bool :=
  match e with
  | GetPodServices _ _ | EndpointsList | EndpointsGetByKey _ | PushContextAdd _ _ _ => true
  | _ => false
  end.

(** Step 2 of [GetProxyServiceInstances] is reached with [proxyNamespace = ns]:
    the proxy has an address, and either no pod is cached for the first one, or
    the pod is there, on the proxy's network, and no Service selects it. *)
Definition reachesMetadata (c : Controller) (proxy : Proxy.t) (ns : string) : Prop :=
  ∃ ip rest, Proxy.IPAddresses proxy = ip :: rest ∧
    ((getPodByIP (pods c) ip = None ∧ ns = "")
     ∨ (∃ pod, getPodByIP (pods c) ip = Some pod
               ∧ NodeMetadata.Network (Proxy.Metadata proxy) = value (endpointNetwork c ip)
               ∧ ns = Pod.Namespace pod
               ∧ (PodServices (services c) (Pod.Namespace pod) (Pod.Labels pod) = Ok []
                  ∨ ∃ e, PodServices (services c) (Pod.Namespace pod) (Pod.Labels pod) = Err e))).

(** The Services step 2 matches against the proxy's metadata. *)
Definition metadataServices (c : Controller) (proxy : Proxy.t) : result (list v1Service.t) :=
  PodServices (services c) (Proxy.ConfigNamespace proxy)
    (default ∅ (head (Proxy.WorkloadLabels proxy))).

(** The ways metadata-based resolution can miss. *)
Inductive metadataFailure (c : Controller) (proxy : Proxy.t) : Prop :=
| EmptyWorkloadLabels :
    Proxy.WorkloadLabels proxy = [] → metadataFailure c proxy
| ClusterMismatch :
    NodeMetadata.ClusterID (Proxy.Metadata proxy) ≠ ClusterID c → metadataFailure c proxy
| ListerFailed e :
    metadataServices c proxy = Err e → metadataFailure c proxy
| NoMatchingService :
    metadataServices c proxy = Ok [] → metadataFailure c proxy
| MissingModelService svcs svc :
    metadataServices c proxy = Ok svcs → svc ∈ svcs →
    servicesMap c !! ServiceHostname (v1Service.Name svc) (v1Service.Namespace svc) (domainSuffix c) = None →
    metadataFailure c proxy
| MissingServicePort svcs svc modelService port :
    metadataServices c proxy = Ok svcs → svc ∈ svcs →
    servicesMap c !! ServiceHostname (v1Service.Name svc) (v1Service.Namespace svc) (domainSuffix c)
      = Some modelService →
    port ∈ ServiceSpec.Ports (v1Service.Spec svc) →
    PortList_Get (Service.Ports modelService) (ServicePort.Name port) = None →
    metadataFailure c proxy
| UnresolvableTargetPort svcs svc port e :
    metadataServices c proxy = Ok svcs → svc ∈ svcs →
    port ∈ ServiceSpec.Ports (v1Service.Spec svc) →
    findPortFromMetadata port (NodeMetadata.PodPorts (Proxy.Metadata proxy)) = Err e →
    metadataFailure c proxy.

(** The pod labels [InstancesByPort] tests the label filter against. *)
Definition podLabelsAt (c : Controller) (ip : string) : gmap string string :=
  match getPodByIP (pods c) ip with
  | Some p => ConvertLabels (Pod.Meta p)
  | None => ∅
  end.

End Vocabulary.

(** ** A concrete registry

    Straightforward implementations of the collaborators and a small cluster,
    to run the controller on concrete inputs. *)

Module Sample.

Definition findPort (ports : list Port.t) (P : Port.t -> bool) : option Port.t :=
  head (List.filter P ports).

Definition convertPort (p : ServicePort.t) : Port.t :=
  {| Port.Name := ServicePort.Name p; Port.Port := ServicePort.Port p;
     Port.Protocol := ServicePort.Protocol p |}.

Definition hostname (n ns suffix : string) : string :=
  n +:+ "." +:+ ns +:+ ".svc." +:+ suffix.

Definition convertService (svc : v1Service.t) (suffix cluster : string) : Service.t :=
  {| Service.Hostname := hostname (v1Service.Name svc) (v1Service.Namespace svc) suffix;
     Service.Address := ServiceSpec.ClusterIP (v1Service.Spec svc);
     Service.Ports := convertPort <$> ServiceSpec.Ports (v1Service.Spec svc);
     Service.ServiceAccounts := [];
     Service.Attributes :=
       {| ServiceAttributes.Name := v1Service.Name svc;
          ServiceAttributes.Namespace := v1Service.Namespace svc;
          ServiceAttributes.UID := "istio://" +:+ v1Service.Namespace svc +:+ "/services/"
                                   +:+ v1Service.Name svc |} |}.

Definition externalNameInstances (svc : v1Service.t) (conv : Service.t)
  : slice ServiceInstance.t :=
  if String.eqb (ServiceSpec.Type_ (v1Service.Spec svc)) "ExternalName"
     && negb (String.eqb (ServiceSpec.ExternalName (v1Service.Spec svc)) "")
  then Some ((fun p =>
          {| ServiceInstance.Endpoint :=
               {| NetworkEndpoint.Address := ServiceSpec.ExternalName (v1Service.Spec svc);
                  NetworkEndpoint.Port := Port.Port p;
                  NetworkEndpoint.ServicePort := p;
                  NetworkEndpoint.UID := "";
                  NetworkEndpoint.Network := "";
                  NetworkEndpoint.Locality := "" |};
             ServiceInstance.Service := conv;
             ServiceInstance.Labels := ∅;
             ServiceInstance.ServiceAccount := "";
             ServiceInstance.TLSMode := "" |}) <$> Service.Ports conv)
  else None.

Definition subsetOf (this that : gmap string string) : bool :=
  forallb (fun kv => bool_decide (that !! kv.1 = Some kv.2)) (map_to_list this).

(** Dotted-quad text to four bytes. *)
Fixpoint parseOctets (s : string) (cur : option Z) (acc : list Z) : option (list Z) :=
  match s with
  | EmptyString =>
      match cur with Some n => Some (acc ++ [n]) | None => None end
  | String a s' =>
      let code := Z.of_nat (Ascii.nat_of_ascii a) in
      if (code =? 46)%Z then
        match cur with Some n => parseOctets s' None (acc ++ [n]) | None => None end
      else if ((48 <=? code) && (code <=? 57))%Z then
        let n := default 0 cur * 10 + (code - 48) in
        if (n <=? 255)%Z then parseOctets s' (Some n) acc else None
      else None
  end.

Definition parseIP (s : string) : IP :=
  match parseOctets s None [] with
  | Some l => if bool_decide (length l = 4%nat) then Some l else None
  | None => None
  end.

#[global] Instance deps : Deps := {|
  ServiceHostname := hostname;
  KeyFunc := fun n ns => if String.eqb ns "" then n else ns +:+ "/" +:+ n;
  ConvertService := convertService;
  ExternalNameServiceInstances := externalNameInstances;
  SecureNamingSAN := fun p => "spiffe://cluster.local/ns/" +:+ Pod.Namespace p +:+ "/sa/default";
  PodTLSMode := fun p => match p with Some _ => "istio" | None => "disabled" end;
  ConvertLabels := ObjectMeta.Labels;
  HasSubsetOf := fun c that =>
    match c with [] => true | _ => existsb (fun this => subsetOf this that) c end;
  PortList_Get := fun ports n => findPort ports (fun p => String.eqb (Port.Name p) n);
  PortList_GetByPort := fun ports num => findPort ports (fun p => (Port.Port p =? num)%Z);
  LocalityToString := fun l =>
    match l with
    | Some l => Locality.Region l +:+ "/" +:+ Locality.Zone l +:+ "/" +:+ Locality.SubZone l
    | None => ""
    end;
  hasProxyIP := fun addrs ip =>
    existsb (fun a => String.eqb (EndpointAddress.IP a) ip) (elems addrs);
  ParseIP := parseIP;
  EnableHeadlessService := false |}.

Definition storeOf {A} (items : list (string * A)) : Store A :=
  {| HasSynced := true;
     GetByKey := fun k =>
       match List.find (fun kv => String.eqb kv.1 k) items with
       | Some kv => Found kv.2
       | None => Missing
       end;
     List_ := items.*2 |}.

Definition informerOf (svcs : list v1Service.t) : ServiceInformer :=
  {| svcStore := storeOf ((fun s => (KeyFunc (v1Service.Name s) (v1Service.Namespace s), s)) <$> svcs);
     PodServices := fun ns labels =>
       Ok (List.filter (fun s =>
             String.eqb (v1Service.Namespace s) ns
             && negb (bool_decide (ServiceSpec.Selector (v1Service.Spec s) = ∅))
             && subsetOf (ServiceSpec.Selector (v1Service.Spec s)) labels) svcs) |}.

Definition podCacheOf (byIP : list (string * Pod.t)) : PodCache :=
  {| podsHasSynced := true;
     getPodByIP := fun ip =>
       match List.find (fun kv => String.eqb kv.1 ip) byIP with
       | Some kv => Some kv.2
       | None => None
       end;
     labelsByIP := fun ip =>
       match List.find (fun kv => String.eqb kv.1 ip) byIP with
       | Some kv => (ObjectMeta.Labels (Pod.Meta kv.2), true)
       | None => (∅, false)
       end |}.

Definition maskBits (bits : Z) : list Z :=
  (fun i => let b := Z.min 8 (Z.max 0 (bits - 8 * i)) in 256 - 2 ^ (8 - b)) <$> [0; 1; 2; 3].

Definition cidr (a b c d bits : Z) : IPNet.t :=
  {| IPNet.IP_ := Some [a; b; c; d]; IPNet.Mask := Some (maskBits bits) |}.

Definition contains (n : IPNet.t) (ip : list Z) : bool :=
  bool_decide (zip_with Z.land ip (elems (IPNet.Mask n)) = elems (IPNet.IP_ n)).

(** A ranger that answers from a list of entries, in list order. *)
Definition rangerOf (entries : list namedRangerEntry) : Ranger :=
  {| ContainingNetworks := fun ip =>
       match ip with
       | Some bytes => Ok (List.filter (fun e => contains (network e) bytes) entries)
       | None => Err (ErrLib "invalid network number input")
       end |}.

Definition meta (n ns rv : string) (labels : list (string * string)) : ObjectMeta.t :=
  {| ObjectMeta.Name := n; ObjectMeta.Namespace := ns; ObjectMeta.UID := "";
     ObjectMeta.ResourceVersion := rv; ObjectMeta.Labels := list_to_map labels;
     ObjectMeta.Annotations := ∅ |}.

Definition address (ip : string) : EndpointAddress.t :=
  {| EndpointAddress.IP := ip; EndpointAddress.Hostname := "";
     EndpointAddress.NodeName := None; EndpointAddress.TargetRef := None |}.

Definition svcPort (n : string) (port target : Z) : ServicePort.t :=
  {| ServicePort.Name := n; ServicePort.Protocol := "TCP"; ServicePort.Port := port;
     ServicePort.TargetPort := {| IntOrString.Type_ := IntOrString.Int;
                                  IntOrString.IntVal := target; IntOrString.StrVal := "" |};
     ServicePort.NodePort := 0 |}.

(** Service "foo" in namespace "ns", port http:8080 -> 9376. *)
Definition fooService : v1Service.t :=
  {| v1Service.Meta := meta "foo" "ns" "10" [];
     v1Service.Spec := {| ServiceSpec.Ports := [svcPort "http" 8080 9376];
                          ServiceSpec.Selector := {[ "app" := "foo" ]};
                          ServiceSpec.ClusterIP := "10.96.0.10";
                          ServiceSpec.Type_ := "ClusterIP";
                          ServiceSpec.ExternalName := "" |} |}.

(** Service "multi" with two named ports. *)
Definition multiService : v1Service.t :=
  {| v1Service.Meta := meta "multi" "ns" "11" [];
     v1Service.Spec := {| ServiceSpec.Ports := [svcPort "http" 80 8080; svcPort "grpc" 81 8081];
                          ServiceSpec.Selector := ∅;
                          ServiceSpec.ClusterIP := "10.96.0.11";
                          ServiceSpec.Type_ := "ClusterIP";
                          ServiceSpec.ExternalName := "" |} |}.

(** An ExternalName service. *)
Definition extService : v1Service.t :=
  {| v1Service.Meta := meta "ext" "ns" "12" [];
     v1Service.Spec := {| ServiceSpec.Ports := [svcPort "http" 80 80];
                          ServiceSpec.Selector := ∅;
                          ServiceSpec.ClusterIP := "";
                          ServiceSpec.Type_ := "ExternalName";
                          ServiceSpec.ExternalName := "example.com" |} |}.

Definition fooEndpoints (rv : string) : Endpoints.t :=
  {| Endpoints.Meta := meta "foo" "ns" rv [];
     Endpoints.Subsets := Some [
       {| EndpointSubset.Addresses := Some [address "10.1.2.3"];
          EndpointSubset.NotReadyAddresses := None;
          EndpointSubset.Ports := Some [ {| EndpointPort.Name := "http"; EndpointPort.Port := 9376;
                                            EndpointPort.Protocol := "TCP" |} ] |} ] |}.

(** Endpoints written by hand for "multi": one port, left unnamed. *)
Definition multiEndpoints : Endpoints.t :=
  {| Endpoints.Meta := meta "multi" "ns" "20" [];
     Endpoints.Subsets := Some [
       {| EndpointSubset.Addresses := Some [address "10.1.2.4"];
          EndpointSubset.NotReadyAddresses := None;
          EndpointSubset.Ports := Some [ {| EndpointPort.Name := ""; EndpointPort.Port := 9000;
                                            EndpointPort.Protocol := "TCP" |} ] |} ] |}.

Definition fooPod : Pod.t :=
  {| Pod.Meta := meta "foo-1" "ns" "30" [("app", "foo")];
     Pod.Spec := {| PodSpec.NodeName := "node-a"; PodSpec.Containers := [] |} |}.

(** A pod that declares its own locality, scheduled on a node with other
    region and zone labels. *)
Definition pinnedPod : Pod.t :=
  {| Pod.Meta := meta "pinned-1" "ns" "31" [("istio-locality", "us-east/1a")];
     Pod.Spec := {| PodSpec.NodeName := "node-a"; PodSpec.Containers := [] |} |}.

Definition barePod (node : string) : Pod.t :=
  {| Pod.Meta := meta "bare-1" "ns" "32" [];
     Pod.Spec := {| PodSpec.NodeName := node; PodSpec.Containers := [] |} |}.

Definition nodeA : Node.t :=
  {| Node.Meta := meta "node-a" "" "40"
       [(NodeRegionLabel, "us-west"); (NodeZoneLabelGA, "2b")] |}.

Definition nodeB : Node.t := {| Node.Meta := meta "node-b" "" "41" [] |}.

Definition netA : namedRangerEntry := {| name := "netA"; network := cidr 10 0 0 0 24 |}.
Definition netB : namedRangerEntry := {| name := "netB"; network := cidr 10 0 0 0 16 |}.

Definition controller (r : option Ranger) (registryNetwork : string) : Controller :=
  {| domainSuffix := "cluster.local";
     queue := [];
     services := informerOf [fooService; multiService; extService];
     endpoints := storeOf [("ns/foo", fooEndpoints "1"); ("ns/multi", multiEndpoints)];
     nodes := storeOf [("node-a", nodeA); ("node-b", nodeB)];
     pods := podCacheOf [("10.1.2.3", fooPod); ("10.1.2.9", pinnedPod)];
     Env := None;
     ClusterID := "c1";
     servicesMap := ∅;
     externalNameSvcInstanceMap := ∅;
     ranger := r;
     networkForRegistry := registryNetwork |}.

(** The sample controller after the three services were added. *)
Definition synced (r : option Ranger) (registryNetwork : string) : Controller :=
  value (runServiceEvents
           [(ObjService fooService, EventAdd); (ObjService multiService, EventAdd);
            (ObjService extService, EventAdd)]
           (controller r registryNetwork)).

Definition fooModel : Service.t := convertService fooService "cluster.local" "c1".
Definition multiModel : Service.t := convertService multiService "cluster.local" "c1".
Definition extModel : Service.t := convertService extService "cluster.local" "c1".

Definition proxyAt (ip network : string) (labels : list (gmap string string)) : Proxy.t :=
  {| Proxy.ID := "sidecar~" +:+ ip; Proxy.IPAddresses := [ip]; Proxy.Locality_ := None;
     Proxy.ConfigNamespace := "ns";
     Proxy.Metadata := {| NodeMetadata.Network := network; NodeMetadata.ClusterID := "c1";
                          NodeMetadata.ServiceAccount := "default"; NodeMetadata.PodPorts := [] |};
     Proxy.WorkloadLabels := labels |}.

End Sample.

(** ** Further catalog operations *)

(** A call returns, or panics (an index out of range). *)
Inductive outcome (A : Type) := Returns (a : A) | Panics.
Arguments Returns {A} a.
Arguments Panics {A}.

Section FurtherOperations.
Context `{Deps}.

(** GetProxyWorkloadLabels: "There is only one IP for kube registry".  The
    first address is read without a length check. *)
Definition GetProxyWorkloadLabels (c : Controller) (proxy : Proxy.t)
  : W (outcome (slice (gmap string string) * option error)) :=
  match Proxy.IPAddresses proxy with
  | [] => mret Panics
  | proxyIP :: _ =>
      emit (PodsGetByIP proxyIP);;
      match getPodByIP (pods c) proxyIP with
      | Some pod => mret (Returns (Some [Pod.Labels pod], None))
      | None => mret (Returns (None, None))
      end
  end.

(** The first loop of [GetIstioServiceAccounts]: the instances of every port,
    or the error of the first [InstancesByPort] call that fails. *)
Fixpoint instancesOfPorts (c : Controller) (svc : Service.t) (ports : list Z)
    (instances : list ServiceInstance.t) : W (result (list ServiceInstance.t)) :=
  match ports with
  | [] => mret (Ok instances)
  | port :: ports' =>
      r ← InstancesByPort c svc port [];
      match r.2 with
      | Some err =>
          emit (Log Warn "InstancesByPort(%s:%d) error: %v"
                  [AStr (Service.Hostname svc); AVal "port"; AErr (Some err)]);;
          mret (Err err)
      | None => instancesOfPorts c svc ports' (instances ++ elems r.1)
      end
  end.

(** GetIstioServiceAccounts returns the Istio service accounts running a
    service hostname.  [saSet] is a [map[string]bool] that only ever holds
    [true]: a set.  The result lists it in the order Go happens to range over
    it; [elements] fixes one. *)
Definition GetIstioServiceAccounts (c : Controller) (svc : Service.t) (ports : list Z)
  : W (slice string) :=
  r ← instancesOfPorts c svc ports [];
  match r with
  | Err _ => mret None
  | Ok instances =>
      let saSet : gset string :=
        foldl (fun saSet si =>
                 if negb (String.eqb (ServiceInstance.ServiceAccount si) "")
                 then {[ ServiceInstance.ServiceAccount si ]} ∪ saSet else saSet)
              ∅ instances in
      let saSet := foldl (fun saSet sa => {[ sa ]} ∪ saSet) saSet (Service.ServiceAccounts svc) in
      mret (Some (elements saSet))
  end.

End FurtherOperations.

(** ** Mesh networks (InitNetworkLookup) *)

(** [meshconfig.Network_NetworkEndpoints]: a oneof of a CIDR and a registry
    name; the getters give the empty string for the other variant. *)
Module NetworkEndpoints.
Inductive t := FromCidr (cidr : string) | FromRegistry (registry : string) | Unset.
Definition GetFromCidr (e : t) : string :=
  match e with FromCidr s => s | _ => "" end.
Definition GetFromRegistry (e : t) : string :=
  match e with FromRegistry s => s | _ => "" end.
End NetworkEndpoints.

Module MeshNetwork.
Record t := mk { Endpoints_ : list NetworkEndpoints.t }.
End MeshNetwork.

(** What the controller uses of package cidranger and of [net.ParseCIDR].
    [Insert] changes the ranger in place; here it returns the changed one (the
    error it may return is dropped by the controller). *)
Class RangerLib := {
  NewPCTrieRanger : Ranger;
  Insert : namedRangerEntry -> Ranger -> Ranger;
  ParseCIDR : string -> result IPNet.t }.

Definition with_network (r : option Ranger) (net : string) (c : Controller) : Controller :=
  {| domainSuffix := domainSuffix c; queue := queue c; services := services c;
     endpoints := endpoints c; nodes := nodes c; pods := pods c; Env := Env c;
     ClusterID := ClusterID c; servicesMap := servicesMap c;
     externalNameSvcInstanceMap := externalNameSvcInstanceMap c;
     ranger := r; networkForRegistry := net |}.

Section NetworkLookup.
Context `{RangerLib}.

(** The body of the inner loop, on the two fields it writes. *)
Definition initEndpoint (clusterID n : string) (ep : NetworkEndpoints.t)
    (st : Ranger * string) : W (Ranger * string) :=
  let registry (st : Ranger * string) : Ranger * string :=
    if negb (String.eqb (NetworkEndpoints.GetFromRegistry ep) "")
       && String.eqb (NetworkEndpoints.GetFromRegistry ep) clusterID
    then (st.1, n) else st in
  if negb (String.eqb (NetworkEndpoints.GetFromCidr ep) "") then
    match ParseCIDR (NetworkEndpoints.GetFromCidr ep) with
    | Err err =>
        emit (Log Warn "unable to parse CIDR %q for network %s"
                [AStr (NetworkEndpoints.GetFromCidr ep); AStr n]);;
        mret st                                     (* continue *)
    | Ok network_ =>
        let rangerEntry := {| name := n; network := network_ |} in
        mret (registry (Insert rangerEntry st.1, st.2))
    end
  else mret (registry st).

Fixpoint initEndpoints (clusterID n : string) (eps : list NetworkEndpoints.t)
    (st : Ranger * string) : W (Ranger * string) :=
  match eps with
  | [] => mret st
  | ep :: eps' => st' ← initEndpoint clusterID n ep st; initEndpoints clusterID n eps' st'
  end.

Fixpoint initNetworks (clusterID : string) (networks : list (string * MeshNetwork.t))
    (st : Ranger * string) : W (Ranger * string) :=
  match networks with
  | [] => mret st
  | (n, v) :: networks' =>
      st' ← initEndpoints clusterID n (MeshNetwork.Endpoints_ v) st;
      initNetworks clusterID networks' st'
  end.

(** InitNetworkLookup will read the mesh networks configuration and initialize
    CIDR rangers for an efficient network lookup when needed.  The [Networks]
    map is given as the list of its entries in the order the range statement
    visits them; [None] is a nil [*MeshNetworks]. *)
Definition InitNetworkLookup (meshNetworks : option (list (string * MeshNetwork.t)))
    (c : Controller) : W Controller :=
  match meshNetworks with
  | None => mret c
  | Some networks =>
      if bool_decide (length networks = 0%nat) then mret c
      else
        st ← initNetworks (ClusterID c) networks (NewPCTrieRanger, networkForRegistry c);
        mret (with_network (Some st.1) st.2 c)
  end.

(** Whether an endpoint of network [n] names the registry [clusterID], and
    the ranger entry its CIDR gives when it has one that parses. *)
Definition endpointRegistry (clusterID n : string) (ep : NetworkEndpoints.t) : list string :=
  if negb (String.eqb (NetworkEndpoints.GetFromRegistry ep) "")
     && String.eqb (NetworkEndpoints.GetFromRegistry ep) clusterID
  then [n] else [].

Definition endpointEntry (n : string) (ep : NetworkEndpoints.t) : list namedRangerEntry :=
  if negb (String.eqb (NetworkEndpoints.GetFromCidr ep) "") then
    match ParseCIDR (NetworkEndpoints.GetFromCidr ep) with
    | Ok network_ => [ {| name := n; network := network_ |} ]
    | Err _ => []
    end
  else [].

(** The networks that name the registry [clusterID], one entry per endpoint
    that does, in visiting order. *)
Definition registryNetworks (clusterID : string) (networks : list (string * MeshNetwork.t))
  : list string :=
  nv ← networks; ep ← MeshNetwork.Endpoints_ nv.2; endpointRegistry clusterID nv.1 ep.

(** The ranger entries of the CIDRs that parse, in visiting order. *)
Definition cidrEntries (networks : list (string * MeshNetwork.t)) : list namedRangerEntry :=
  nv ← networks; ep ← MeshNetwork.Endpoints_ nv.2; endpointEntry nv.1 ep.

(** The CIDRs that do not parse, with their network. *)
Definition badCidrs (networks : list (string * MeshNetwork.t)) : list (string * string) :=
  nv ← networks; ep ← MeshNetwork.Endpoints_ nv.2;
  if negb (String.eqb (NetworkEndpoints.GetFromCidr ep) "")
     && is_err (ParseCIDR (NetworkEndpoints.GetFromCidr ep))
  then [(nv.1, NetworkEndpoints.GetFromCidr ep)] else [].

End NetworkLookup.

(** ** Further vocabulary *)

Section FurtherVocabulary.
Context `{Deps}.

(** Every entry of the Service Map sits under its own hostname. *)
Definition keyedByHostname (c : Controller) : Prop :=
  map_Forall (fun h svc => Service.Hostname svc = h) (servicesMap c).

(** The Endpoints object a queue object carries. *)
Definition carriedEndpoints (o : obj) : option Endpoints.t :=
  match o with
  | ObjEndpoints ep => Some ep
  | ObjTombstone _ (ObjEndpoints ep) => Some ep
  | _ => None
  end.

Definition isConfigUpdate (e : effect) : bool :=
  match e with ConfigUpdateFull _ => true | _ => false end.

Definition isPodLookup (e : effect) : bool :=
  match e with PodsGetByIP _ | PodsLabelsByIP _ => true | _ => false end.

Definition isNoServiceReport (e : effect) : bool :=
  match e with PushContextAdd ProxyStatusNoService _ _ => true | _ => false end.

Definition isNotReadyReport (e : effect) : bool :=
  match e with PushContextAdd ProxyStatusEndpointNotReady _ _ => true | _ => false end.

(** The container ports of a pod, container after container. *)
Definition containerPorts (pod : Pod.t) : list ContainerPort.t :=
  concat (Container.Ports <$> PodSpec.Containers (Pod.Spec pod)).

(** Pod-port metadata that lists the container ports of a pod. *)
Definition podPortsOf (pod : Pod.t) : list PodPort.t :=
  (fun cp => {| PodPort.Name := ContainerPort.Name cp;
                PodPort.ContainerPort := ContainerPort.ContainerPort cp;
                PodPort.Protocol := ContainerPort.Protocol cp |}) <$> containerPorts pod.

(** An address [updateEDS] turns into endpoints: its pod is cached, or it does
    not point at a pod. *)
Definition admittedByEDS (c : Controller) (ea : EndpointAddress.t) : Prop :=
  is_Some (getPodByIP (pods c) (EndpointAddress.IP ea))
  ∨ (∀ ref, EndpointAddress.TargetRef ea = Some ref → ObjectReference.Kind ref ≠ "Pod").

(** The service of an Endpoints object is headless and headless services are
    handled by full pushes. *)
Definition headlessPush (c : Controller) (ep : Endpoints.t) : Prop :=
  EnableHeadlessService = true
  ∧ ∃ svc, GetByKey (svcStore (services c)) (KeyFunc (Endpoints.Name ep) (Endpoints.Namespace ep))
           = Found svc
           ∧ ServiceSpec.ClusterIP (v1Service.Spec svc) = "None".

End FurtherVocabulary.

(** ** More of the concrete registry *)

Module Sample2.
Import Sample.

(** The collaborators of [Sample], with headless services handled by full
    pushes. *)
Definition headlessDeps : Deps := {|
  ServiceHostname := @ServiceHostname Sample.deps;
  KeyFunc := @KeyFunc Sample.deps;
  ConvertService := @ConvertService Sample.deps;
  ExternalNameServiceInstances := @ExternalNameServiceInstances Sample.deps;
  SecureNamingSAN := @SecureNamingSAN Sample.deps;
  PodTLSMode := @PodTLSMode Sample.deps;
  ConvertLabels := @ConvertLabels Sample.deps;
  HasSubsetOf := @HasSubsetOf Sample.deps;
  PortList_Get := @PortList_Get Sample.deps;
  PortList_GetByPort := @PortList_GetByPort Sample.deps;
  LocalityToString := @LocalityToString Sample.deps;
  hasProxyIP := @hasProxyIP Sample.deps;
  ParseIP := @ParseIP Sample.deps;
  EnableHeadlessService := true |}.

(** Decimal digits to a number. *)
Fixpoint parseDecimal (s : string) (acc : option Z) : option Z :=
  match s with
  | EmptyString => acc
  | String a s' =>
      let code := Z.of_nat (Ascii.nat_of_ascii a) in
      if ((48 <=? code) && (code <=? 57))%Z
      then parseDecimal s' (Some (default 0 acc * 10 + (code - 48)))
      else None
  end.

(** The text before and after the first slash. *)
Fixpoint splitSlash (s : string) : option (string * string) :=
  match s with
  | EmptyString => None
  | String a s' =>
      if (Z.of_nat (Ascii.nat_of_ascii a) =? 47)%Z then Some (EmptyString, s')
      else match splitSlash s' with
           | Some (before, after) => Some (String a before, after)
           | None => None
           end
  end.

Definition parseCIDR (s : string) : result IPNet.t :=
  match splitSlash s with
  | Some (addr, bits) =>
      match parseIP addr, parseDecimal bits None with
      | Some bytes, Some n =>
          if (n <=? 32)%Z
          then Ok {| IPNet.IP_ := Some (zip_with Z.land bytes (maskBits n));
                     IPNet.Mask := Some (maskBits n) |}
          else Err (ErrLib "invalid CIDR address")
      | _, _ => Err (ErrLib "invalid CIDR address")
      end
  | None => Err (ErrLib "invalid CIDR address")
  end.

#[global] Instance rangerLib : RangerLib := {|
  NewPCTrieRanger := rangerOf [];
  Insert := fun e r =>
    {| ContainingNetworks := fun ip =>
         match ip, ContainingNetworks r ip with
         | Some bytes, Ok entries =>
             Ok (if contains (network e) bytes then entries ++ [e] else entries)
         | _, answer => answer
         end |};
  ParseCIDR := parseCIDR |}.

(** netA with a CIDR; netB with a CIDR that does not parse and the registry
    c1; netC with the registry c1 too. *)
Definition meshNetworks : list (string * MeshNetwork.t) :=
  [ ("netA", {| MeshNetwork.Endpoints_ := [NetworkEndpoints.FromCidr "10.0.0.0/24"] |});
    ("netB", {| MeshNetwork.Endpoints_ := [NetworkEndpoints.FromCidr "10.0.0.0/40";
                                           NetworkEndpoints.FromRegistry "c1"] |});
    ("netC", {| MeshNetwork.Endpoints_ := [NetworkEndpoints.FromRegistry "c1"] |}) ].

(** Only CIDRs, no registry. *)
Definition cidrNetworks : list (string * MeshNetwork.t) :=
  [ ("netA", {| MeshNetwork.Endpoints_ := [NetworkEndpoints.FromCidr "10.0.0.0/24"] |}) ].

Definition environment : Environment.t :=
  {| Environment.Mesh := Some {| MeshConfig.MixerCheckServer := "mixer:9091";
                                 MeshConfig.MixerReportServer := "" |};
     Environment.PushContext := Some () |}.

(** A headless Service and its Endpoints, one address ready and one not. *)
Definition headlessService : v1Service.t :=
  {| v1Service.Meta := meta "hl" "ns" "13" [];
     v1Service.Spec := {| ServiceSpec.Ports := [svcPort "tcp" 7000 7000];
                          ServiceSpec.Selector := ∅;
                          ServiceSpec.ClusterIP := "None";
                          ServiceSpec.Type_ := "ClusterIP";
                          ServiceSpec.ExternalName := "" |} |}.

Definition tcpPort : EndpointPort.t :=
  {| EndpointPort.Name := "tcp"; EndpointPort.Port := 7000; EndpointPort.Protocol := "TCP" |}.

Definition headlessSubset : EndpointSubset.t :=
  {| EndpointSubset.Addresses := Some [address "10.1.3.1"];
     EndpointSubset.NotReadyAddresses := Some [address "10.1.3.2"];
     EndpointSubset.Ports := Some [tcpPort] |}.

Definition headlessEndpoints : Endpoints.t :=
  {| Endpoints.Meta := meta "hl" "ns" "21" [];
     Endpoints.Subsets := Some [headlessSubset] |}.

(** Endpoints of "foo" with a second ready address that points at a pod the
    cache does not hold. *)
Definition fooEndpointsAhead : Endpoints.t :=
  {| Endpoints.Meta := meta "foo" "ns" "3" [];
     Endpoints.Subsets := Some [
       {| EndpointSubset.Addresses :=
            Some [address "10.1.2.3";
                  {| EndpointAddress.IP := "10.1.2.5"; EndpointAddress.Hostname := "";
                     EndpointAddress.NodeName := None;
                     EndpointAddress.TargetRef :=
                       Some {| ObjectReference.Kind := "Pod"; ObjectReference.Namespace := "ns";
                               ObjectReference.Name := "foo-2"; ObjectReference.UID := "";
                               ObjectReference.APIVersion := "";
                               ObjectReference.ResourceVersion := "";
                               ObjectReference.FieldPath := "" |} |}];
          EndpointSubset.NotReadyAddresses := None;
          EndpointSubset.Ports := Some [ {| EndpointPort.Name := "http"; EndpointPort.Port := 9376;
                                            EndpointPort.Protocol := "TCP" |} ] |} ] |}.

(** A pod with two containers; the name "http" is used for a UDP and for a
    TCP port. *)
Definition webPod : Pod.t :=
  {| Pod.Meta := meta "web-1" "ns" "33" [("app", "foo")];
     Pod.Spec :=
       {| PodSpec.NodeName := "node-a";
          PodSpec.Containers :=
            [ {| Container.Name := "sidecar";
                 Container.Ports := [ {| ContainerPort.Name := "http";
                                         ContainerPort.ContainerPort := 5353;
                                         ContainerPort.Protocol := "UDP" |} ] |};
              {| Container.Name := "app";
                 Container.Ports := [ {| ContainerPort.Name := "http";
                                         ContainerPort.ContainerPort := 8080;
                                         ContainerPort.Protocol := "TCP" |};
                                      {| ContainerPort.Name := "admin";
                                         ContainerPort.ContainerPort := 9901;
                                         ContainerPort.Protocol := "TCP" |} ] |} ] |} |}.

Definition namedPort (n : string) (port : Z) (target : string) : ServicePort.t :=
  {| ServicePort.Name := n; ServicePort.Protocol := "TCP"; ServicePort.Port := port;
     ServicePort.TargetPort := {| IntOrString.Type_ := IntOrString.String;
                                  IntOrString.IntVal := 0; IntOrString.StrVal := target |};
     ServicePort.NodePort := 0 |}.

(** The registry of [Sample] with an environment, the headless Service and
    its Endpoints, after the four services were added. *)
Definition registry : Controller :=
  value (runServiceEvents
           [(ObjService fooService, EventAdd); (ObjService multiService, EventAdd);
            (ObjService extService, EventAdd); (ObjService headlessService, EventAdd)]
           {| domainSuffix := "cluster.local";
              queue := [];
              services := informerOf [fooService; multiService; extService; headlessService];
              endpoints := storeOf [("ns/foo", fooEndpointsAhead); ("ns/multi", multiEndpoints);
                                    ("ns/hl", headlessEndpoints)];
              nodes := storeOf [("node-a", nodeA); ("node-b", nodeB)];
              pods := podCacheOf [("10.1.2.3", fooPod); ("10.1.2.9", pinnedPod)];
              Env := Some environment;
              ClusterID := "c1";
              servicesMap := ∅;
              externalNameSvcInstanceMap := ∅;
              ranger := None;
              networkForRegistry := "" |}).

Definition headlessModel : Service.t := convertService headlessService "cluster.local" "c1".

(** A proxy with the two addresses of the headless Endpoints. *)
Definition headlessProxy : Proxy.t :=
  {| Proxy.ID := "sidecar~hl"; Proxy.IPAddresses := ["10.1.3.1"; "10.1.3.2"];
     Proxy.Locality_ := None; Proxy.ConfigNamespace := "ns";
     Proxy.Metadata := {| NodeMetadata.Network := ""; NodeMetadata.ClusterID := "c1";
                          NodeMetadata.ServiceAccount := "default";
                          NodeMetadata.PodPorts := [] |};
     Proxy.WorkloadLabels := [] |}.

(** A proxy that cannot be placed: no address. *)
Definition emptyProxy : Proxy.t :=
  {| Proxy.ID := "sidecar~none"; Proxy.IPAddresses := [];
     Proxy.Locality_ := None; Proxy.ConfigNamespace := "ns";
     Proxy.Metadata := {| NodeMetadata.Network := ""; NodeMetadata.ClusterID := "c1";
                          NodeMetadata.ServiceAccount := "default";
                          NodeMetadata.PodPorts := [] |};
     Proxy.WorkloadLabels := [] |}.

End Sample2.

(** * Properties *)

Section Properties.
Context `{Deps}.

(** ** The trace monad *)

Lemma value_bind {A B} (m : W A) (f : A -> W B) :
  value (m ≫= f) = value (f (value m)).
Proof.
  destruct m as [a t]. unfold mbind, W_bind, value. simpl.
  by destruct (f a).
Qed.

Lemma trace_bind {A B} (m : W A) (f : A -> W B) :
  trace (m ≫= f) = trace m ++ trace (f (value m)).
Proof.
  destruct m as [a t]. unfold mbind, W_bind, value, trace. simpl.
  by destruct (f a).
Qed.

Lemma value_ret {A} (a : A) : value (mret a : W A) = a.
Proof. done. Qed.

Lemma trace_ret {A} (a : A) : trace (mret a : W A) = [].
Proof. done. Qed.

Lemma W_eta {A} (m : W A) : m = (value m, trace m).
Proof. by destruct m. Qed.

Lemma elem_of_forAppend {A B} (xs : list A) (body : A -> W (list B)) (y : B) :
  y ∈ value (forAppend xs body) ↔ ∃ x, x ∈ xs ∧ y ∈ value (body x).
Proof.
  induction xs as [|x xs IH]; cbn [forAppend].
  - rewrite value_ret. split; [by intros ?%elem_of_nil|].
    by intros (x & ?%elem_of_nil & _).
  - rewrite !value_bind, value_ret, elem_of_app, IH. split.
    + intros [Hy|(x' & Hx' & Hy)].
      * exists x. split; [left|done].
      * exists x'. split; [by right|done].
    + intros (x' & [->|Hx']%elem_of_cons & Hy); [by left|].
      right. by exists x'.
Qed.

(** ** Endpoints updates *)

Lemma compareSubsets_view (a b : list EndpointSubset.t) :
  length a = length b →
  (compareSubsets a b = true ↔
   (fun ss => (EndpointSubset.Ports ss, EndpointSubset.Addresses ss)) <$> a
   = (fun ss => (EndpointSubset.Ports ss, EndpointSubset.Addresses ss)) <$> b).
Proof.
  revert b. induction a as [|sa a IH]; intros [|sb b] Hlen; try done.
  injection Hlen as Hlen. specialize (IH b Hlen).
  cbn [compareSubsets]. rewrite !fmap_cons. unfold DeepEqual.
  repeat case_bool_decide; cbn [negb].
  - rewrite IH. split; [intros ->; congruence|]. by intros [= _ _ ?].
  - split; [done|]. by intros [= _ ? _].
  - split; [done|]. by intros [= ? _ _].
  - split; [done|]. by intros [= ? _ _].
Qed.

Lemma compareEndpoints_readyView (a b : Endpoints.t) :
  compareEndpoints a b = true ↔ readyView a = readyView b.
Proof.
  unfold compareEndpoints, readyView. case_bool_decide as Hlen; simpl.
  - by apply compareSubsets_view.
  - split; [done|]. intros Heq. destruct Hlen.
    apply (f_equal length) in Heq. by rewrite !length_fmap in Heq.
Qed.

Lemma EDS_UpdateFunc_changed (otype : string) (old cur : Endpoints.t) (c : Controller) :
  readyView old ≠ readyView cur →
  queue (value (EDS_UpdateFunc otype old cur c))
  = queue c ++ [ {| Handler := otype; Obj := ObjEndpoints cur; TaskEvent := EventUpdate |} ].
Proof.
  intros Hne. unfold EDS_UpdateFunc.
  destruct (compareEndpoints old cur) eqn:Hcmp; [|done].
  by apply compareEndpoints_readyView in Hcmp.
Qed.

(** C1.  An Endpoints update whose old and new object have, subset by subset,
    the same ports and the same ready addresses (whatever the resource version
    and the other metadata of the two objects, and whatever their not-ready
    addresses) is elided: the controller is left exactly as it was (no task is
    queued, no mirror changes) and the only effect is the "updatesame" metric;
    in particular the XDS updater is not called. *)
Theorem endpoints_update_elided (otype : string) (old cur : Endpoints.t) (c : Controller) :
  readyView old = readyView cur →
  value (EDS_UpdateFunc otype old cur c) = c
  ∧ trace (EDS_UpdateFunc otype old cur c) = [IncrementEvent otype "updatesame"]
  ∧ List.filter isEDSUpdate (trace (EDS_UpdateFunc otype old cur c)) = [].
Proof.
  intros Hview. apply compareEndpoints_readyView in Hview.
  unfold EDS_UpdateFunc. by rewrite Hview.
Qed.

(** ** The service handler *)

Lemma serviceHandler_carried (o : obj) (svc : v1Service.t) (ev : Event) (c : Controller) :
  carriedService o = Some svc →
  serviceHandler o ev c = handleService svc ev c.
Proof.
  destruct o as [| | | | |key inner]; simpl; try done.
  - by intros [= ->].
  - destruct inner; simpl; try done. by intros [= ->].
Qed.

Lemma handleService_state (svc : v1Service.t) (ev : Event) (c : Controller) :
  let svcConv := ConvertService svc (domainSuffix c) (ClusterID c) in
  let c' := (value (handleService svc ev c)).1 in
  servicesMap c' = (if bool_decide (ev = EventDelete)
                    then delete (Service.Hostname svcConv) (servicesMap c)
                    else <[Service.Hostname svcConv := svcConv]> (servicesMap c))
  ∧ domainSuffix c' = domainSuffix c
  ∧ ClusterID c' = ClusterID c.
Proof. by destruct ev. Qed.

Lemma delete_always_queued (otype : string) (o : obj) (c : Controller) :
  queue (value (DeleteFunc otype o c))
  = queue c ++ [ {| Handler := otype; Obj := o; TaskEvent := EventDelete |} ].
Proof. done. Qed.

(** C2.  For a delete event carrying a Service (directly or in a tombstone)
    the handler removes the Service's hostname from the Service Map and from
    the external-name instance map, reports no error, and calls the updater's
    SvcUpdate exactly once, with the delete event. *)
Theorem service_delete_removes_and_notifies (o : obj) (svc : v1Service.t) (c : Controller) :
  carriedService o = Some svc →
  let h := Service.Hostname (ConvertService svc (domainSuffix c) (ClusterID c)) in
  let r := serviceHandler o EventDelete c in
  servicesMap (value r).1 = delete h (servicesMap c)
  ∧ externalNameSvcInstanceMap (value r).1 = delete h (externalNameSvcInstanceMap c)
  ∧ servicesMap (value r).1 !! h = None
  ∧ externalNameSvcInstanceMap (value r).1 !! h = None
  ∧ (value r).2 = None
  ∧ List.filter isSvcUpdate (trace r)
    = [SvcUpdate (ClusterID c) (v1Service.Name svc) (v1Service.Namespace svc) EventDelete].
Proof.
  intros Hsvc h r. subst r. rewrite (serviceHandler_carried _ _ _ _ Hsvc).
  simpl. by rewrite !lookup_delete_eq.
Qed.

Lemma runServiceEvents_snoc (evs : list (obj * Event)) (last : obj * Event) (c : Controller) :
  value (runServiceEvents (evs ++ [last]) c)
  = value (runServiceEvents [last] (value (runServiceEvents evs c))).
Proof.
  revert c. induction evs as [|[o e] evs IH]; intros c; [done|].
  simpl app. cbn [runServiceEvents]. by rewrite !value_bind, IH.
Qed.

Lemma runServiceEvents_frame (h : string) (evs : list (obj * Event)) (c : Controller) :
  Forall (serviceEventFor h (domainSuffix c) (ClusterID c)) evs →
  let c' := value (runServiceEvents evs c) in
  (∀ k, k ≠ h → servicesMap c' !! k = servicesMap c !! k)
  ∧ domainSuffix c' = domainSuffix c
  ∧ ClusterID c' = ClusterID c.
Proof.
  revert c. induction evs as [|[o e] evs IH]; intros c Hall; [done|].
  apply Forall_cons in Hall as [Hh Hall]. unfold serviceEventFor in Hh. simpl in Hh.
  destruct (carriedService o) as [svc|] eqn:Hsvc; [|done].
  cbn [runServiceEvents]. rewrite value_bind.
  rewrite (serviceHandler_carried _ _ _ _ Hsvc).
  destruct (handleService_state svc e c) as (Hmap & Hsuf & Hcl).
  set (c1 := (value (handleService svc e c)).1) in *.
  rewrite <- Hsuf, <- Hcl in Hall. destruct (IH c1 Hall) as (Hoff & Hsuf' & Hcl').
  split_and!; [|congruence..].
  intros k Hk. rewrite (Hoff k Hk), Hmap, Hh.
  case_bool_decide; [by rewrite lookup_delete_ne|by rewrite lookup_insert_ne].
Qed.

(** C3.  For a non-empty sequence of add, update and delete events that all
    belong to the Service of one hostname, run through the service handler in
    order, the Service Map ends up as if only the last event had been applied:
    the entry for the hostname is the same, and so is the whole map; when the
    last event is a delete the hostname is absent. *)
Theorem service_map_last_event_wins
    (h : string) (evs : list (obj * Event)) (last : obj * Event) (c : Controller) :
  Forall (serviceEventFor h (domainSuffix c) (ClusterID c)) (evs ++ [last]) →
  let after := value (runServiceEvents (evs ++ [last]) c) in
  let only := value (runServiceEvents [last] c) in
  servicesMap after !! h = servicesMap only !! h
  ∧ servicesMap after = servicesMap only
  ∧ (last.2 = EventDelete → servicesMap after !! h = None).
Proof.
  intros Hall after only.
  apply Forall_app in Hall as [Hevs Hlast].
  rewrite Forall_singleton in Hlast. unfold serviceEventFor in Hlast.
  destruct (carriedService last.1) as [svc|] eqn:Hsvc; [|done]. rename Hlast into Hh.
  destruct (runServiceEvents_frame h evs c Hevs) as (Hoff & Hsuf & Hcl).
  assert (Hafter : servicesMap after
                   = if bool_decide (last.2 = EventDelete)
                     then delete h (servicesMap (value (runServiceEvents evs c)))
                     else <[h := ConvertService svc (domainSuffix c) (ClusterID c)]>
                            (servicesMap (value (runServiceEvents evs c)))).
  { subst after. rewrite runServiceEvents_snoc. destruct last as [o e]. simpl in *.
    rewrite value_bind, value_ret, (serviceHandler_carried _ _ _ _ Hsvc).
    destruct (handleService_state svc e (value (runServiceEvents evs c))) as (-> & _ & _).
    by rewrite Hsuf, Hcl, Hh. }
  assert (Honly : servicesMap only
                  = if bool_decide (last.2 = EventDelete)
                    then delete h (servicesMap c)
                    else <[h := ConvertService svc (domainSuffix c) (ClusterID c)]> (servicesMap c)).
  { subst only. destruct last as [o e]. simpl in *.
    rewrite value_bind, value_ret, (serviceHandler_carried _ _ _ _ Hsvc).
    destruct (handleService_state svc e c) as (-> & _ & _). by rewrite Hh. }
  assert (Heq : servicesMap after = servicesMap only).
  { rewrite Hafter, Honly. apply map_eq. intros k.
    destruct (decide (k = h)) as [->|Hk]; case_bool_decide.
    - by rewrite !lookup_delete_eq.
    - by rewrite !lookup_insert_eq.
    - rewrite !lookup_delete_ne by done. by apply Hoff.
    - rewrite !lookup_insert_ne by done. by apply Hoff. }
  split_and!; [by rewrite Heq|done|].
  intros Hdel. rewrite Hafter, bool_decide_eq_true_2 by done. apply lookup_delete_eq.
Qed.

(** ** Network resolution *)

Lemma string_length_zero (s : string) : String.length s = 0%nat ↔ s = "".
Proof. by destruct s. Qed.

Lemma endpointNetwork_override (c : Controller) (ip : string) :
  networkForRegistry c ≠ "" → endpointNetwork c ip = (networkForRegistry c, []).
Proof.
  intros Hset. unfold endpointNetwork.
  rewrite bool_decide_eq_false_2; [done|]. by rewrite string_length_zero.
Qed.

Lemma endpointNetwork_lookup (c : Controller) (ip : string) :
  networkForRegistry c = "" →
  endpointNetwork c ip =
    match ranger c with
    | None => ("", [])
    | Some r =>
        match ContainingNetworks r (ParseIP ip) with
        | Err err => ("", [RangerContainingNetworks ip; Log Error "%v" [AErr (Some err)]])
        | Ok [] => ("", [RangerContainingNetworks ip])
        | Ok [only] => (name only, [RangerContainingNetworks ip])
        | Ok (first :: _ :: _) =>
            (name first,
             [RangerContainingNetworks ip;
              Log Warn "Found multiple networks CIDRs matching the endpoint IP: %s. Using the first match."
                [AStr ip]])
        end
    end.
Proof.
  intros Hunset. unfold endpointNetwork. rewrite Hunset.
  destruct (ranger c) as [r|]; [|done].
  destruct (ContainingNetworks r (ParseIP ip)) as [[|e [|e' rest]]|err]; done.
Qed.

Lemma endpointNetwork_no_resolution_step (c : Controller) (ip : string) :
  Forall (fun e => isResolutionStep e = false) (trace (endpointNetwork c ip)).
Proof.
  destruct (decide (networkForRegistry c = "")) as [Hunset|Hset].
  - rewrite (endpointNetwork_lookup c ip Hunset).
    destruct (ranger c) as [r|]; [|by constructor].
    destruct (ContainingNetworks r (ParseIP ip)) as [[|e [|e' rest]]|err];
      by repeat constructor.
  - rewrite (endpointNetwork_override c ip Hset). constructor.
Qed.

(** C4.  The network of an endpoint IP is a function of the IP, the registry
    override and the ranger alone.  With the override set it is the override,
    for every IP, and the ranger is not asked.  Without it: no ranger, or no
    containing CIDR, gives the empty string (no error, no log line); exactly
    one containing CIDR gives that CIDR's network; several give the first of
    the list the ranger returned, together with one warning. *)
Theorem endpoint_network_resolution (c : Controller) (ip : string) :
  (∀ c', networkForRegistry c' = networkForRegistry c → ranger c' = ranger c →
         endpointNetwork c' ip = endpointNetwork c ip)
  ∧ (networkForRegistry c ≠ "" → endpointNetwork c ip = (networkForRegistry c, []))
  ∧ (networkForRegistry c = "" →
       (ranger c = None → endpointNetwork c ip = ("", []))
       ∧ (∀ r, ranger c = Some r →
            (ContainingNetworks r (ParseIP ip) = Ok [] →
               endpointNetwork c ip = ("", [RangerContainingNetworks ip]))
            ∧ (∀ only, ContainingNetworks r (ParseIP ip) = Ok [only] →
                 endpointNetwork c ip = (name only, [RangerContainingNetworks ip]))
            ∧ (∀ first second rest,
                 ContainingNetworks r (ParseIP ip) = Ok (first :: second :: rest) →
                 endpointNetwork c ip
                 = (name first,
                    [RangerContainingNetworks ip;
                     Log Warn "Found multiple networks CIDRs matching the endpoint IP: %s. Using the first match."
                       [AStr ip]])))).
Proof.
  split_and!.
  - intros c' Hnet Hr. unfold endpointNetwork. by rewrite Hnet, Hr.
  - apply endpointNetwork_override.
  - intros Hunset. rewrite (endpointNetwork_lookup c ip Hunset). split.
    + by intros ->.
    + intros r ->. split_and!.
      * by intros ->.
      * by intros only ->.
      * by intros first second rest ->.
Qed.

(** ** Service to instances *)

(** C5.  When instances are stored for the Service's hostname in the
    external-name map, [InstancesByPort] returns, in their stored order, exactly
    the stored instances whose Service namespace is the namespace of the
    queried Service, with a nil error; its trace is empty, so neither the
    Endpoints store nor anything else was consulted. *)
Theorem external_name_instances_returned
    (c : Controller) (svc : Service.t) (reqSvcPort : Z)
    (labelsList : list (gmap string string)) (stored : list ServiceInstance.t) :
  externalNameSvcInstanceMap c !! Service.Hostname svc = Some stored →
  ∃ out, value (InstancesByPort c svc reqSvcPort labelsList) = (Some out, None)
    ∧ (∀ i, i ∈ out ↔
            i ∈ stored
            ∧ ServiceAttributes.Namespace (Service.Attributes (ServiceInstance.Service i))
              = ServiceAttributes.Namespace (Service.Attributes svc))
    ∧ sublist out stored
    ∧ trace (InstancesByPort c svc reqSvcPort labelsList) = [].
Proof.
  intros Hstored. unfold InstancesByPort. rewrite Hstored.
  eexists. split_and!; [done| |apply sublist_filter; apply _|done].
  intros i. rewrite list_elem_of_filter. tauto.
Qed.

(** ** Proxy to instances *)

(** C6.  When the proxy's first IP has a pod in the pod cache and the network
    the proxy declares differs from the network that IP resolves to,
    [GetProxyServiceInstances] returns the empty list and a nil error at once:
    apart from the pod lookup and the network resolution nothing is done, no
    selector matching, no Endpoints read and no status report. *)
Theorem proxy_on_other_network_gets_nothing
    (c : Controller) (proxy : Proxy.t) (ip : string) (rest : list string) (pod : Pod.t) :
  Proxy.IPAddresses proxy = ip :: rest →
  getPodByIP (pods c) ip = Some pod →
  NodeMetadata.Network (Proxy.Metadata proxy) ≠ value (endpointNetwork c ip) →
  value (GetProxyServiceInstances c proxy) = (Some [], None)
  ∧ trace (GetProxyServiceInstances c proxy) = PodsGetByIP ip :: trace (endpointNetwork c ip)
  ∧ Forall (fun e => isResolutionStep e = false) (trace (GetProxyServiceInstances c proxy)).
Proof.
  intros Hips Hpod Hnet.
  assert (Hrun : GetProxyServiceInstances c proxy
                 = ((Some [], None), PodsGetByIP ip :: trace (endpointNetwork c ip))).
  { unfold GetProxyServiceInstances. rewrite Hips, Hpod.
    destruct (endpointNetwork c ip) as [net t] eqn:Hen. simpl in *.
    destruct (String.eqb_spec (NodeMetadata.Network (Proxy.Metadata proxy)) net); [done|].
    simpl. by rewrite app_nil_r. }
  rewrite Hrun. split_and!; [done..|].
  constructor; [done|]. apply endpointNetwork_no_resolution_step.
Qed.

(** ** Locality *)

Lemma getLabelValue_empty (node : Node.t) (l fallBack : string) :
  getLabelValue node l fallBack = ""
  ↔ label (Node.Labels node) l = "" ∧ label (Node.Labels node) fallBack = "".
Proof.
  unfold getLabelValue.
  destruct (String.eqb_spec (label (Node.Labels node) l) "") as [->|Hne]; simpl.
  - tauto.
  - tauto.
Qed.

Lemma GetPodLocality_found (c : Controller) (pod : Pod.t) (node : Node.t) :
  label (Pod.Labels pod) LocalityLabel = "" →
  GetByKey (nodes c) (PodSpec.NodeName (Pod.Spec pod)) = Found node →
  value (GetPodLocality c pod)
  = if String.eqb (getLabelValue node NodeRegionLabel NodeRegionLabelGA) ""
       && String.eqb (getLabelValue node NodeZoneLabel NodeZoneLabelGA) ""
    then ""
    else getLabelValue node NodeRegionLabel NodeRegionLabelGA +:+ "/"
         +:+ getLabelValue node NodeZoneLabel NodeZoneLabelGA.
Proof.
  intros Hown Hnode. unfold GetPodLocality. rewrite Hown, Hnode. simpl.
  by destruct (_ && _).
Qed.

(** C9.  A pod that carries the locality label (with a value; a label read as
    the empty string counts as not carried, as in the code's own test) resolves
    to that value, whatever the node says and without a node lookup.  A pod
    without it resolves to the empty string when its node is not in the node
    store (or the store fails), or when the node's region and zone labels are
    empty under both label keys; otherwise it resolves to "region/zone", each
    part read from the first key and, when that is empty, from the second. *)
Theorem pod_locality (c : Controller) (pod : Pod.t) :
  let own := label (Pod.Labels pod) LocalityLabel in
  let nodeName := PodSpec.NodeName (Pod.Spec pod) in
  (own ≠ "" → GetPodLocality c pod = (own, []))
  ∧ (own = "" →
       (GetByKey (nodes c) nodeName = Missing → value (GetPodLocality c pod) = "")
       ∧ (∀ e, GetByKey (nodes c) nodeName = Failed e → value (GetPodLocality c pod) = "")
       ∧ (∀ node, GetByKey (nodes c) nodeName = Found node →
            let region := getLabelValue node NodeRegionLabel NodeRegionLabelGA in
            let zone := getLabelValue node NodeZoneLabel NodeZoneLabelGA in
            let empty := label (Node.Labels node) NodeRegionLabel = ""
                         ∧ label (Node.Labels node) NodeRegionLabelGA = ""
                         ∧ label (Node.Labels node) NodeZoneLabel = ""
                         ∧ label (Node.Labels node) NodeZoneLabelGA = "" in
            (empty → value (GetPodLocality c pod) = "")
            ∧ (¬ empty → value (GetPodLocality c pod) = region +:+ "/" +:+ zone)
            ∧ (region = label (Node.Labels node) NodeRegionLabel
               ∨ label (Node.Labels node) NodeRegionLabel = ""
                 ∧ region = label (Node.Labels node) NodeRegionLabelGA)
            ∧ (zone = label (Node.Labels node) NodeZoneLabel
               ∨ label (Node.Labels node) NodeZoneLabel = ""
                 ∧ zone = label (Node.Labels node) NodeZoneLabelGA))).
Proof.
  intros own nodeName. split.
  - intros Hown. unfold GetPodLocality, GetLocalityOrDefault. fold own.
    assert (0 < String.length own)%nat.
    { destruct own; [done|simpl; lia]. }
    by rewrite !bool_decide_eq_true_2.
  - intros Hown. split_and!.
    + intros Hmiss. unfold GetPodLocality. fold own nodeName. by rewrite Hown, Hmiss.
    + intros e Hfail. unfold GetPodLocality. fold own nodeName. by rewrite Hown, Hfail.
    + intros node Hnode region zone empty.
      rewrite (GetPodLocality_found c pod node Hown Hnode). fold region zone.
      assert (Hempty : empty ↔ region = "" ∧ zone = "").
      { subst empty region zone. rewrite !getLabelValue_empty. tauto. }
      split_and!.
      * intros [-> ->]%Hempty. done.
      * intros Hne.
        destruct (String.eqb_spec region "") as [Hr|Hr];
          destruct (String.eqb_spec zone "") as [Hz|Hz]; simpl; try done.
        destruct Hne. by apply Hempty.
      * subst region. unfold getLabelValue.
        destruct (String.eqb_spec (label (Node.Labels node) NodeRegionLabel) ""); simpl; auto.
      * subst zone. unfold getLabelValue.
        destruct (String.eqb_spec (label (Node.Labels node) NodeZoneLabel) ""); simpl; auto.
Qed.

(** ** Service catalog reads *)

Lemma hostname_le_leb (a b : Service.t) :
  hostname_le a b ↔ String.leb (Service.Hostname a) (Service.Hostname b) = true.
Proof.
  unfold hostname_le, String.ltb, String.leb.
  rewrite (String.compare_antisym (Service.Hostname a)).
  by destruct (String.compare (Service.Hostname b) (Service.Hostname a)).
Qed.

#[local] Instance hostname_le_total : Total hostname_le.
Proof.
  intros a b. rewrite !hostname_le_leb. apply String.leb_total.
Qed.

Lemma Sorted_weaken {A} (R1 R2 : relation A) (l : list A) :
  (∀ x y, R1 x y → R2 x y) → Sorted R1 l → Sorted R2 l.
Proof.
  intros HR. induction 1 as [|x l _ IH Hhd]; constructor; [done|].
  destruct Hhd; constructor. by apply HR.
Qed.

(** C10.  [Services] returns a nil error and a list that holds each Service
    of the Service Map exactly once (a permutation of the map's values) in
    ascending order of hostname; [GetService] for a hostname that is not in
    the map returns a nil Service and a nil error. *)
Theorem services_sorted_get_service_miss (c : Controller) :
  (∃ out, Services c = (Some out, None)
     ∧ out ≡ₚ (map_to_list (servicesMap c)).*2
     ∧ (∀ svc, svc ∈ out ↔ ∃ h, servicesMap c !! h = Some svc)
     ∧ length out = size (servicesMap c)
     ∧ Sorted (fun a b => String.leb (Service.Hostname a) (Service.Hostname b) = true) out)
  ∧ (∀ hostname, servicesMap c !! hostname = None → GetService c hostname = (None, None)).
Proof.
  split.
  - eexists. split; [done|].
    assert (Hperm : merge_sort hostname_le (map_to_list (servicesMap c)).*2
                    ≡ₚ (map_to_list (servicesMap c)).*2) by apply merge_sort_Permutation.
    split_and!.
    + done.
    + intros svc. rewrite Hperm, list_elem_of_fmap. split.
      * intros ([h s] & -> & Hin%elem_of_map_to_list). by exists h.
      * intros (h & Hh). exists (h, svc). by rewrite elem_of_map_to_list.
    + by rewrite Hperm, length_fmap, length_map_to_list.
    + eapply Sorted_weaken; [|apply (Sorted_merge_sort hostname_le)].
      intros a b. by rewrite hostname_le_leb.
  - intros hostname Hmiss. unfold GetService. by rewrite Hmiss.
Qed.

(** ** Port matching in [InstancesByPort] *)

Lemma elems_appended {A} (l : list A) : elems (appended l) = l.
Proof. by destruct l. Qed.

Lemma port_name_match (svcPortEntry : Port.t) (port : EndpointPort.t) :
  String.eqb (EndpointPort.Name port) ""
  || String.eqb (Port.Name svcPortEntry) (EndpointPort.Name port) = true
  ↔ EndpointPort.Name port = "" ∨ EndpointPort.Name port = Port.Name svcPortEntry.
Proof.
  rewrite orb_true_iff, !String.eqb_eq. split; (intros [?|?]; [by left|by right]).
Qed.

(** C7.  On the Endpoints-backed path of [InstancesByPort] (no external-name
    instances, the Endpoints object found, the requested service port found),
    a port of a subset yields an instance, for every address of that subset
    that passes the label filter, exactly when its name is empty or equals the
    name of the requested service port.  The number of ports the Service
    defines plays no part: an unnamed endpoint port matches every service port
    that is asked for. *)
Theorem instances_by_port_name_match
    (c : Controller) (svc : Service.t) (reqSvcPort : Z)
    (labelsList : list (gmap string string)) (ep : Endpoints.t) (svcPortEntry : Port.t) :
  externalNameSvcInstanceMap c !! Service.Hostname svc = None →
  GetByKey (endpoints c)
    (KeyFunc (ServiceAttributes.Name (Service.Attributes svc))
             (ServiceAttributes.Namespace (Service.Attributes svc))) = Found ep →
  PortList_GetByPort (Service.Ports svc) reqSvcPort = Some svcPortEntry →
  let out := elems (value (InstancesByPort c svc reqSvcPort labelsList)).1 in
  (∀ ss ea port,
     ss ∈ elems (Endpoints.Subsets ep) →
     ea ∈ elems (EndpointSubset.Addresses ss) →
     port ∈ elems (EndpointSubset.Ports ss) →
     HasSubsetOf labelsList (podLabelsAt c (EndpointAddress.IP ea)) = true →
     EndpointPort.Name port = "" ∨ EndpointPort.Name port = Port.Name svcPortEntry →
     ∃ i, i ∈ out
          ∧ NetworkEndpoint.Address (ServiceInstance.Endpoint i) = EndpointAddress.IP ea
          ∧ NetworkEndpoint.Port (ServiceInstance.Endpoint i) = EndpointPort.Port port
          ∧ NetworkEndpoint.ServicePort (ServiceInstance.Endpoint i) = svcPortEntry
          ∧ ServiceInstance.Service i = svc)
  ∧ (∀ i, i ∈ out →
       ∃ ss ea port,
         ss ∈ elems (Endpoints.Subsets ep)
         ∧ ea ∈ elems (EndpointSubset.Addresses ss)
         ∧ port ∈ elems (EndpointSubset.Ports ss)
         ∧ HasSubsetOf labelsList (podLabelsAt c (EndpointAddress.IP ea)) = true
         ∧ (EndpointPort.Name port = "" ∨ EndpointPort.Name port = Port.Name svcPortEntry)
         ∧ NetworkEndpoint.Address (ServiceInstance.Endpoint i) = EndpointAddress.IP ea
         ∧ NetworkEndpoint.Port (ServiceInstance.Endpoint i) = EndpointPort.Port port
         ∧ NetworkEndpoint.ServicePort (ServiceInstance.Endpoint i) = svcPortEntry
         ∧ ServiceInstance.Service i = svc).
Proof.
  intros Hext Hep Hport out. subst out.
  unfold InstancesByPort. rewrite Hext. cbv zeta.
  rewrite value_bind, Hep, Hport, value_bind, value_ret. cbn [fst].
  rewrite elems_appended. split.
  - intros ss ea port Hss Hea Hp Hsub Hname.
    apply port_name_match in Hname. unfold podLabelsAt in Hsub.
    destruct (value (match getPodByIP (pods c) (EndpointAddress.IP ea) with
                     | Some p =>
                         az ← GetPodLocality c p;
                         mret (az, SecureNamingSAN p, if mixerEnabled c then podUID p else "")
                     | None => mret ("", "", "")
                     end)) as [[az sa] uid] eqn:Hinfo.
    eexists. split.
    + apply elem_of_forAppend. exists ss. split; [done|].
      apply elem_of_forAppend. exists ea. split; [done|].
      rewrite value_bind, Hsub. cbn [negb].
      rewrite value_bind, Hinfo.
      apply elem_of_forAppend. exists port. split; [done|].
      rewrite Hname, value_bind, value_ret. apply list_elem_of_singleton. reflexivity.
    + done.
  - intros i (ss & Hss & Hi)%elem_of_forAppend.
    apply elem_of_forAppend in Hi as (ea & Hea & Hi).
    rewrite value_bind in Hi. fold (podLabelsAt c (EndpointAddress.IP ea)) in Hi.
    destruct (HasSubsetOf labelsList (podLabelsAt c (EndpointAddress.IP ea))) eqn:Hsub;
      cbn [negb] in Hi; [|by apply elem_of_nil in Hi].
    match type of Hi with
    | _ ∈ value (?m ≫= _) =>
        rewrite (value_bind m) in Hi; destruct (value m) as [[az sa] uid]
    end.
    apply elem_of_forAppend in Hi as (port & Hp & Hi).
    destruct (_ || _) eqn:Hname in Hi; [|by apply elem_of_nil in Hi].
    apply port_name_match in Hname.
    rewrite value_bind, value_ret in Hi. apply list_elem_of_singleton in Hi as ->.
    by exists ss, ea, port.
Qed.

(** ** Fallback from metadata to the headless scan *)

Lemma forAppendE_err {A B} (xs : list A) (body : A -> W (result (list B))) (x : A) :
  x ∈ xs → is_err (value (body x)) = true →
  is_err (value (forAppendE xs body)) = true.
Proof.
  intros Hx Herr. induction xs as [|x' xs IH]; [by apply elem_of_nil in Hx|].
  cbn [forAppendE]. rewrite value_bind.
  apply elem_of_cons in Hx as [<-|Hx].
  - by destruct (value (body x)).
  - destruct (value (body x')); [|done].
    rewrite value_bind. specialize (IH Hx).
    by destruct (value (forAppendE xs body)).
Qed.

Lemma metadata_failure_is_error (c : Controller) (proxy : Proxy.t) :
  metadataFailure c proxy →
  is_err (value (getProxyServiceInstancesFromMetadata c proxy)) = true.
Proof.
  intros Hfail. unfold getProxyServiceInstancesFromMetadata.
  case_bool_decide as Hlabels; [done|].
  destruct (String.eqb_spec (NodeMetadata.ClusterID (Proxy.Metadata proxy)) (ClusterID c))
    as [Hcluster|Hcluster]; [|done].
  cbn [negb]. cbv zeta. rewrite value_bind. fold (metadataServices c proxy).
  destruct Hfail as [Hl|Hc|e He|He|svcs svc He Hsvc Hmodel
                    |svcs svc modelService port He Hsvc Hmodel Hport Hget
                    |svcs svc port e He Hsvc Hport Hfind].
  - by rewrite Hl in Hlabels.
  - done.
  - by rewrite He.
  - by rewrite He.
  - rewrite He. case_bool_decide; [done|].
    apply (forAppendE_err _ _ svc Hsvc). by rewrite Hmodel.
  - rewrite He. case_bool_decide; [done|].
    apply (forAppendE_err _ _ svc Hsvc). rewrite Hmodel.
    apply (forAppendE_err _ _ port Hport). by rewrite Hget.
  - rewrite He. case_bool_decide; [done|].
    apply (forAppendE_err _ _ svc Hsvc).
    destruct (servicesMap c !! _) as [modelService|]; [|done].
    apply (forAppendE_err _ _ port Hport).
    destruct (PortList_Get _ _); [|done]. by rewrite Hfind.
Qed.

Lemma fromMetadataOrHeadless_miss (c : Controller) (proxy : Proxy.t) (ns : string) :
  is_err (value (getProxyServiceInstancesFromMetadata c proxy)) = true →
  value (fromMetadataOrHeadless c proxy ns)
  = (Some (value (headlessScan c proxy ns (List_ (endpoints c)) [] [])), None)
  ∧ EndpointsList ∈ trace (fromMetadataOrHeadless c proxy ns).
Proof.
  intros Herr. unfold fromMetadataOrHeadless. rewrite value_bind, trace_bind.
  destruct (value (getProxyServiceInstancesFromMetadata c proxy)); [done|].
  rewrite !value_bind, value_ret, !trace_bind. split; [done|].
  apply elem_of_app. right. apply elem_of_app. left. apply list_elem_of_singleton. done.
Qed.

(** C8.  Every way metadata-based resolution can miss (no workload labels,
    another cluster id, the lister failing or selecting no Service, a selected
    Service without model Service or without the service port, a target port
    that cannot be resolved) makes step 2 return an error; and whenever step 2
    is reached and returns an error, [GetProxyServiceInstances] does not pass
    it on: it lists the Endpoints store and returns what the headless scan
    over all cached Endpoints objects finds, with a nil error. *)
Theorem metadata_miss_falls_through (c : Controller) (proxy : Proxy.t) (ns : string) :
  reachesMetadata c proxy ns →
  (metadataFailure c proxy →
     is_err (value (getProxyServiceInstancesFromMetadata c proxy)) = true)
  ∧ (is_err (value (getProxyServiceInstancesFromMetadata c proxy)) = true →
       (value (GetProxyServiceInstances c proxy)).2 = None
       ∧ (value (GetProxyServiceInstances c proxy)).1
         = Some (value (headlessScan c proxy ns (List_ (endpoints c)) [] []))
       ∧ EndpointsList ∈ trace (GetProxyServiceInstances c proxy)).
Proof.
  intros (ip & rest & Hips & Hreach). split; [apply metadata_failure_is_error|].
  intros Herr. destruct (fromMetadataOrHeadless_miss c proxy ns Herr) as (Hval & Htr).
  assert (Hrun : value (GetProxyServiceInstances c proxy) = value (fromMetadataOrHeadless c proxy ns)
                 ∧ ∃ before, trace (GetProxyServiceInstances c proxy)
                             = before ++ trace (fromMetadataOrHeadless c proxy ns)).
  { unfold GetProxyServiceInstances. rewrite Hips, value_bind, trace_bind.
    destruct Hreach as [[Hpod ->]|(pod & Hpod & Hnet & -> & Hsvcs)]; rewrite Hpod.
    - split; [done|]. by eexists.
    - rewrite value_bind, trace_bind, <- Hnet, String.eqb_refl. cbn [negb].
      rewrite value_bind, trace_bind.
      assert (Hnone : match PodServices (services c) (Pod.Namespace pod) (Pod.Labels pod) with
                      | Ok (svc0 :: rest0) =>
                          out ← forAppend (svc0 :: rest0) (fun svc =>
                                  getProxyServiceInstancesByPod c pod svc proxy);
                          mret (Some out, None)
                      | _ => fromMetadataOrHeadless c proxy (Pod.Namespace pod)
                      end = fromMetadataOrHeadless c proxy (Pod.Namespace pod)).
      { by destruct Hsvcs as [->|[e ->]]. }
      rewrite Hnone. split; [done|]. eexists. by rewrite !app_assoc. }
  destruct Hrun as (-> & before & ->). rewrite Hval. split_and!; [done..|].
  apply elem_of_app. by right.
Qed.

End Properties.

(** * Further properties *)

Section FurtherProperties.
Context `{Deps}.

(** ** Watch callbacks *)

(** X1.  An Endpoints update that changes the ports or the ready addresses of
    some subset is passed on: exactly one task, for the new object and with the
    update event, is appended to the queue, the "update" metric is counted and
    nothing else changes.  Together with the elision of equal views: the queue
    stays as it was exactly when the two views are equal. *)
Theorem endpoints_update_queued (otype : string) (old cur : Endpoints.t) (c : Controller) :
  (readyView old ≠ readyView cur →
     EDS_UpdateFunc otype old cur c
     = (Push {| Handler := otype; Obj := ObjEndpoints cur; TaskEvent := EventUpdate |} c,
        [IncrementEvent otype "update"]))
  ∧ (queue (value (EDS_UpdateFunc otype old cur c)) = queue c ↔ readyView old = readyView cur).
Proof.
  unfold EDS_UpdateFunc.
  destruct (compareEndpoints old cur) eqn:Hcmp; cbn [negb].
  - apply compareEndpoints_readyView in Hcmp. split; [done|]. by split.
  - assert (Hne : readyView old ≠ readyView cur).
    { intros Heq%compareEndpoints_readyView. congruence. }
    split; [done|]. split; [|done].
    intros Hq. apply (f_equal length) in Hq. simpl in Hq.
    rewrite length_app in Hq. simpl in Hq. lia.
Qed.

(** ** The service handler *)

Lemma serviceHandler_not_carried (o : obj) (ev : Event) (c : Controller) :
  carriedService o = None →
  value (serviceHandler o ev c) = (c, None)
  ∧ ∃ format args, trace (serviceHandler o ev c) = [Log Error format args].
Proof.
  destruct o as [| | | | |key inner]; simpl; try (intros _; split; [done|by eexists _, _]).
  - done.
  - destruct inner; simpl; try done; intros _; (split; [done|by eexists _, _]).
Qed.

Lemma handleService_frame (svc : v1Service.t) (ev : Event) (c : Controller) :
  let c' := (value (handleService svc ev c)).1 in
  (value (handleService svc ev c)).2 = None
  ∧ queue c' = queue c ∧ domainSuffix c' = domainSuffix c ∧ ClusterID c' = ClusterID c
  ∧ Env c' = Env c ∧ ranger c' = ranger c ∧ networkForRegistry c' = networkForRegistry c
  ∧ services c' = services c ∧ endpoints c' = endpoints c
  ∧ nodes c' = nodes c ∧ pods c' = pods c.
Proof. by destruct ev. Qed.

(** X2.  The service handler never returns an error (so its task is never
    retried on its account) and, whatever the object and the event, writes
    nothing but the two maps: the queue, the configuration, the informers, the
    pod cache and the network lookup are as before.  For an object that carries
    no Service it changes nothing at all and calls neither the updater nor the
    registered callback. *)
Theorem service_handler_frame (o : obj) (ev : Event) (c : Controller) :
  let r := serviceHandler o ev c in
  let c' := (value r).1 in
  (value r).2 = None
  ∧ queue c' = queue c ∧ domainSuffix c' = domainSuffix c ∧ ClusterID c' = ClusterID c
  ∧ Env c' = Env c ∧ ranger c' = ranger c ∧ networkForRegistry c' = networkForRegistry c
  ∧ services c' = services c ∧ endpoints c' = endpoints c
  ∧ nodes c' = nodes c ∧ pods c' = pods c
  ∧ (carriedService o = None →
       c' = c ∧ ∃ format args, trace r = [Log Error format args]).
Proof.
  intros r c'. subst r c'. destruct (carriedService o) as [svc|] eqn:Hsvc.
  - rewrite (serviceHandler_carried _ _ _ _ Hsvc).
    destruct (handleService_frame svc ev c) as (?&?&?&?&?&?&?&?&?&?&?).
    split_and!; done.
  - destruct (serviceHandler_not_carried o ev c Hsvc) as (Hval & Htr).
    rewrite Hval. split_and!; first [done | intros _; by split].
Qed.

(** X3.  After an add or update event for a Service, [GetService] of its
    hostname returns the converted Service, the external-name map holds for
    that hostname exactly what the conversion of the Service gave (nothing when
    it gave nil, so a Service that stops being an ExternalName Service loses
    its stored instances), the entries of all other hostnames in both maps are
    untouched, and the updater is told once, with the same event. *)
Theorem service_upsert_round_trip (o : obj) (svc : v1Service.t) (ev : Event) (c : Controller) :
  carriedService o = Some svc →
  ev ≠ EventDelete →
  let svcConv := ConvertService svc (domainSuffix c) (ClusterID c) in
  let r := serviceHandler o ev c in
  let c' := (value r).1 in
  GetService c' (Service.Hostname svcConv) = (Some svcConv, None)
  ∧ externalNameSvcInstanceMap c' !! Service.Hostname svcConv
    = ExternalNameServiceInstances svc svcConv
  ∧ (∀ k, k ≠ Service.Hostname svcConv →
          servicesMap c' !! k = servicesMap c !! k
          ∧ externalNameSvcInstanceMap c' !! k = externalNameSvcInstanceMap c !! k)
  ∧ List.filter isSvcUpdate (trace r)
    = [SvcUpdate (ClusterID c) (v1Service.Name svc) (v1Service.Namespace svc) ev].
Proof.
  intros Hsvc Hev svcConv r c'. subst r c'.
  rewrite (serviceHandler_carried _ _ _ _ Hsvc). unfold GetService.
  destruct ev; [|                  |done]; simpl; fold svcConv;
    (split_and!;
     [by rewrite lookup_insert_eq
     |destruct (ExternalNameServiceInstances svc svcConv);
        [by rewrite lookup_insert_eq|by rewrite lookup_delete_eq]
     |intros k Hk; split; [by rewrite lookup_insert_ne|];
        destruct (ExternalNameServiceInstances svc svcConv);
        [by rewrite lookup_insert_ne|by rewrite lookup_delete_ne]
     |done]).
Qed.

Lemma serviceHandler_keyedByHostname (o : obj) (ev : Event) (c : Controller) :
  keyedByHostname c → keyedByHostname (value (serviceHandler o ev c)).1.
Proof.
  intros Hinv. destruct (carriedService o) as [svc|] eqn:Hsvc.
  - rewrite (serviceHandler_carried _ _ _ _ Hsvc).
    destruct (handleService_state svc ev c) as (Hmap & _ & _).
    unfold keyedByHostname, map_Forall. intros h s. rewrite Hmap. case_bool_decide.
    + intros [_ Hs]%lookup_delete_Some. by apply Hinv.
    + intros [[<- <-]|[_ Hs]]%lookup_insert_Some; [done|by apply Hinv].
  - destruct (serviceHandler_not_carried o ev c Hsvc) as (-> & _). done.
Qed.

(** X4.  The Service Map only ever holds a Service under its own hostname:
    the property holds for an empty map and every run of service events, of any
    objects and kinds, keeps it. *)
Theorem service_map_keyed_by_hostname (evs : list (obj * Event)) (c : Controller) :
  (servicesMap c = ∅ → keyedByHostname c)
  ∧ (keyedByHostname c → keyedByHostname (value (runServiceEvents evs c))).
Proof.
  split.
  - intros Hempty. unfold keyedByHostname. rewrite Hempty. apply map_Forall_empty.
  - revert c. induction evs as [|[o e] evs IH]; intros c Hinv; [done|].
    cbn [runServiceEvents]. rewrite value_bind. apply IH.
    by apply serviceHandler_keyedByHostname.
Qed.

Lemma leb_ne_ltb (a b : string) : String.leb a b = true → a ≠ b → String.ltb a b = true.
Proof.
  unfold String.leb, String.ltb. intros Hle Hne.
  destruct (String.compare a b) eqn:Hcmp; [|done|done].
  by apply String.compare_eq_iff in Hcmp.
Qed.

Lemma Sorted_strict {A B} (R1 R2 : relation A) (f : A -> B) (l : list A) :
  (∀ x y, R1 x y → f x ≠ f y → R2 x y) →
  Sorted R1 l → NoDup (f <$> l) → Sorted R2 l.
Proof.
  intros HR. induction 1 as [|x l _ IH Hhd]; intros Hnd; constructor.
  - apply IH. rewrite fmap_cons in Hnd. by apply NoDup_cons in Hnd as [_ ?].
  - destruct Hhd as [|y l Hxy]; constructor. apply HR; [done|].
    rewrite !fmap_cons in Hnd. apply NoDup_cons in Hnd as [Hx _].
    intros Heq. apply Hx. rewrite Heq. left.
Qed.

(** X5.  When every entry of the Service Map sits under its own hostname,
    [Services] lists the services in strictly ascending order of hostname, so
    without two services of the same hostname, and [GetService] of the hostname
    of any listed service returns that very service. *)
Theorem services_strictly_sorted (c : Controller) :
  keyedByHostname c →
  let out := elems (Services c).1 in
  Sorted (fun a b => String.ltb (Service.Hostname a) (Service.Hostname b) = true) out
  ∧ NoDup (Service.Hostname <$> out)
  ∧ (∀ svc, svc ∈ out → GetService c (Service.Hostname svc) = (Some svc, None)).
Proof.
  intros Hinv out. subst out. simpl.
  assert (Hperm : merge_sort hostname_le (map_to_list (servicesMap c)).*2
                  ≡ₚ (map_to_list (servicesMap c)).*2) by apply merge_sort_Permutation.
  assert (Hkeys : Service.Hostname <$> (map_to_list (servicesMap c)).*2
                  = (map_to_list (servicesMap c)).*1).
  { rewrite <- list_fmap_compose. apply list_fmap_ext.
    intros i [h svc] Hi. simpl. apply Hinv.
    apply elem_of_map_to_list. by eapply list_elem_of_lookup_2. }
  assert (Hnd : NoDup (Service.Hostname <$> merge_sort hostname_le (map_to_list (servicesMap c)).*2)).
  { rewrite Hperm, Hkeys. apply NoDup_fst_map_to_list. }
  split_and!; [|done|].
  - eapply (Sorted_strict _ _ Service.Hostname); [| |exact Hnd].
    + intros a b Hle Hne. apply leb_ne_ltb; [|done]. by apply hostname_le_leb.
    + pose proof hostname_le_total as Htotal. apply (Sorted_merge_sort hostname_le).
  - intros svc. rewrite Hperm, list_elem_of_fmap.
    intros ([h s] & -> & Hin%elem_of_map_to_list). simpl.
    unfold GetService. by rewrite (Hinv _ _ Hin), Hin.
Qed.

(** X6.  The service handler and [InstancesByPort] fit together.  After an
    add or update whose conversion gives external-name instances, a query for
    the converted Service is answered from those instances alone, without any
    store or cache read.  After a delete, or an add or update whose conversion
    gives none, the query starts with the read of the Endpoints store: nothing
    stored earlier for the hostname is served. *)
Theorem external_name_instances_follow_service
    (o : obj) (svc : v1Service.t) (ev : Event) (c : Controller)
    (reqSvcPort : Z) (labelsList : list (gmap string string)) :
  carriedService o = Some svc →
  let svcConv := ConvertService svc (domainSuffix c) (ClusterID c) in
  let c' := (value (serviceHandler o ev c)).1 in
  (∀ instances, ev ≠ EventDelete → ExternalNameServiceInstances svc svcConv = Some instances →
     InstancesByPort c' svcConv reqSvcPort labelsList
     = ((Some (filter (fun i => ServiceAttributes.Namespace
                                  (Service.Attributes (ServiceInstance.Service i))
                                = ServiceAttributes.Namespace (Service.Attributes svcConv))
                 instances), None), []))
  ∧ (ev = EventDelete ∨ ExternalNameServiceInstances svc svcConv = None →
     ∃ rest, trace (InstancesByPort c' svcConv reqSvcPort labelsList)
             = EndpointsGetByKey (KeyFunc (ServiceAttributes.Name (Service.Attributes svcConv))
                                          (ServiceAttributes.Namespace (Service.Attributes svcConv)))
               :: rest).
Proof.
  intros Hsvc svcConv c'.
  assert (Hext : externalNameSvcInstanceMap c' !! Service.Hostname svcConv
                 = if bool_decide (ev = EventDelete) then None
                   else ExternalNameServiceInstances svc svcConv).
  { subst c'. rewrite (serviceHandler_carried _ _ _ _ Hsvc).
    destruct ev; simpl; fold svcConv;
      try (destruct (ExternalNameServiceInstances svc svcConv);
           [by rewrite lookup_insert_eq|by rewrite lookup_delete_eq]).
    by rewrite lookup_delete_eq. }
  split.
  - intros instances Hev Hinst. unfold InstancesByPort.
    by rewrite Hext, bool_decide_eq_false_2, Hinst.
  - intros Hnone.
    assert (Hmiss : externalNameSvcInstanceMap c' !! Service.Hostname svcConv = None).
    { rewrite Hext. case_bool_decide; [done|]. by destruct Hnone. }
    unfold InstancesByPort. rewrite Hmiss. cbv zeta. rewrite trace_bind. by eexists.
Qed.

(** ** Service to instances *)

(** X7.  [InstancesByPort] never returns an error.  Without external-name
    instances for the hostname it returns nil after the single read of the
    Endpoints store when there is no Endpoints object under the Service's key
    or the requested port is not a port of the Service, and nil, with no pod
    looked up, when the store fails; and on this path a result without
    elements is always nil, never an empty list. *)
Theorem instances_by_port_never_fails
    (c : Controller) (svc : Service.t) (reqSvcPort : Z)
    (labelsList : list (gmap string string)) :
  let key := KeyFunc (ServiceAttributes.Name (Service.Attributes svc))
                     (ServiceAttributes.Namespace (Service.Attributes svc)) in
  let r := InstancesByPort c svc reqSvcPort labelsList in
  (value r).2 = None
  ∧ (externalNameSvcInstanceMap c !! Service.Hostname svc = None →
       (GetByKey (endpoints c) key = Missing → r = ((None, None), [EndpointsGetByKey key]))
       ∧ (∀ err, GetByKey (endpoints c) key = Failed err →
            value r = (None, None) ∧ List.filter isPodLookup (trace r) = [])
       ∧ (∀ ep, GetByKey (endpoints c) key = Found ep →
            PortList_GetByPort (Service.Ports svc) reqSvcPort = None →
            r = ((None, None), [EndpointsGetByKey key]))
       ∧ (value r).1 ≠ Some []).
Proof.
  intros key r. subst r. unfold InstancesByPort. fold key.
  destruct (externalNameSvcInstanceMap c !! Service.Hostname svc) as [stored|]; [done|].
  cbv zeta. fold key. rewrite value_bind.
  destruct (GetByKey (endpoints c) key) as [ep| |err].
  - destruct (PortList_GetByPort (Service.Ports svc) reqSvcPort) as [entry|].
    + rewrite value_bind, value_ret. split; [done|]. intros _. split_and!; try done.
      cbn [fst]. by destruct (value _).
    + split; [done|]. intros _. split_and!; done.
  - split; [done|]. intros _. split_and!; done.
  - split; [done|]. intros _. split_and!; done.
Qed.

(** X8.  On the Endpoints path every instance [InstancesByPort] returns is
    bound to the queried Service, carries the network its own address resolves
    to, the labels and the TLS mode of the pod cached for that address, and
    the locality and identity of that pod; its UID is the pod's only when
    mixer is enabled.  An address without a cached pod gives an instance
    without labels, locality, identity and UID. *)
Theorem instances_by_port_instance_shape
    (c : Controller) (svc : Service.t) (reqSvcPort : Z)
    (labelsList : list (gmap string string)) (i : ServiceInstance.t) :
  externalNameSvcInstanceMap c !! Service.Hostname svc = None →
  i ∈ elems (value (InstancesByPort c svc reqSvcPort labelsList)).1 →
  let addr := NetworkEndpoint.Address (ServiceInstance.Endpoint i) in
  ServiceInstance.Service i = svc
  ∧ NetworkEndpoint.Network (ServiceInstance.Endpoint i) = value (endpointNetwork c addr)
  ∧ ServiceInstance.Labels i = podLabelsAt c addr
  ∧ ServiceInstance.TLSMode i = PodTLSMode (getPodByIP (pods c) addr)
  ∧ match getPodByIP (pods c) addr with
    | Some pod =>
        NetworkEndpoint.Locality (ServiceInstance.Endpoint i) = value (GetPodLocality c pod)
        ∧ ServiceInstance.ServiceAccount i = SecureNamingSAN pod
        ∧ NetworkEndpoint.UID (ServiceInstance.Endpoint i)
          = (if mixerEnabled c then podUID pod else "")
    | None =>
        NetworkEndpoint.Locality (ServiceInstance.Endpoint i) = ""
        ∧ ServiceInstance.ServiceAccount i = ""
        ∧ NetworkEndpoint.UID (ServiceInstance.Endpoint i) = ""
    end.
Proof.
  intros Hext Hi. unfold InstancesByPort in Hi. rewrite Hext in Hi. cbv zeta in Hi.
  rewrite value_bind in Hi.
  destruct (GetByKey (endpoints c) _) as [ep| |err];
    [|by apply elem_of_nil in Hi..].
  destruct (PortList_GetByPort (Service.Ports svc) reqSvcPort) as [entry|];
    [|by apply elem_of_nil in Hi].
  rewrite value_bind, value_ret in Hi. cbn [fst] in Hi. rewrite elems_appended in Hi.
  apply elem_of_forAppend in Hi as (ss & Hss & Hi).
  apply elem_of_forAppend in Hi as (ea & Hea & Hi).
  rewrite value_bind in Hi. unfold podLabelsAt.
  destruct (getPodByIP (pods c) (EndpointAddress.IP ea)) as [p|] eqn:Hpod;
    (destruct (HasSubsetOf labelsList _); cbn [negb] in Hi; [|by apply elem_of_nil in Hi]);
    rewrite !value_bind, ?value_ret in Hi;
    apply elem_of_forAppend in Hi as (port & Hp & Hi);
    (destruct (_ || _) in Hi; [|by apply elem_of_nil in Hi]);
    rewrite value_bind, value_ret in Hi; apply list_elem_of_singleton in Hi as ->;
    simpl; by rewrite Hpod.
Qed.

(** ** Target ports *)

(** X9.  [FindPort] passes a numeric target port through, whatever the pod.
    For a named target port it returns the container port of the first port,
    containers and ports taken in order, whose name is the target name and
    whose protocol is the protocol of the service port; when the pod has no
    such port it fails with the error that names the pod's UID. *)
Theorem find_port_resolution (pod : Pod.t) (svcPort : ServicePort.t) :
  let target := ServicePort.TargetPort svcPort in
  let fits (cp : ContainerPort.t) :=
    ContainerPort.Name cp = IntOrString.StrVal target
    ∧ ContainerPort.Protocol cp = ServicePort.Protocol svcPort in
  (IntOrString.Type_ target = IntOrString.Int →
     FindPort pod svcPort = Ok (IntOrString.IntVal target))
  ∧ (IntOrString.Type_ target = IntOrString.String →
       (∀ p, FindPort pod svcPort = Ok p ↔
             ∃ i cp, containerPorts pod !! i = Some cp ∧ fits cp
                     ∧ ContainerPort.ContainerPort cp = p
                     ∧ ∀ j cp', containerPorts pod !! j = Some cp' → (j < i)%nat → ¬ fits cp')
       ∧ ((∀ cp, cp ∈ containerPorts pod → ¬ fits cp) →
            FindPort pod svcPort = Err (ErrNoSuitablePort (Pod.UID pod)))).
Proof.
  intros target fits. unfold FindPort. fold target. split; [by intros ->|].
  intros ->. fold (containerPorts pod).
  destruct (list_find _ (containerPorts pod)) as [[i cp]|] eqn:Hfind.
  - apply list_find_Some in Hfind as (Hi & Hfits & Hfirst). split.
    + intros p. split.
      * intros [= <-]. by exists i, cp.
      * intros (i' & cp' & Hi' & Hfits' & <- & Hfirst').
        destruct (Nat.lt_trichotomy i i') as [Hlt|[->|Hlt]].
        -- by destruct (Hfirst' i cp Hi Hlt).
        -- congruence.
        -- by destruct (Hfirst i' cp' Hi' Hlt).
    + intros Hnone. destruct (Hnone cp); [|done]. by eapply list_elem_of_lookup_2.
  - split; [|done]. intros p. split; [done|].
    intros (i & cp & Hi & Hfits & _).
    apply list_find_None in Hfind. rewrite Forall_forall in Hfind.
    destruct (Hfind cp); [|done]. by eapply list_elem_of_lookup_2.
Qed.

Lemma list_find_pod_ports (l : list ContainerPort.t) (target protocol : string) :
  (∀ cp, cp ∈ l → ContainerPort.Name cp = target → ContainerPort.Protocol cp = protocol) →
  match
    list_find (fun port : PodPort.t => PodPort.Name port = target)
      ((fun cp => {| PodPort.Name := ContainerPort.Name cp;
                     PodPort.ContainerPort := ContainerPort.ContainerPort cp;
                     PodPort.Protocol := ContainerPort.Protocol cp |}) <$> l),
    list_find (fun cp : ContainerPort.t =>
                 ContainerPort.Name cp = target ∧ ContainerPort.Protocol cp = protocol) l
  with
  | Some (_, a), Some (_, b) => PodPort.ContainerPort a = ContainerPort.ContainerPort b
  | None, None => True
  | _, _ => False
  end.
Proof.
  induction l as [|cp l IH]; intros Hproto; [done|].
  rewrite fmap_cons. cbn [list_find]. simpl PodPort.Name.
  assert (Hl : ∀ cp', cp' ∈ l → ContainerPort.Name cp' = target →
                      ContainerPort.Protocol cp' = protocol).
  { intros cp' Hin. apply Hproto. by right. }
  specialize (IH Hl).
  destruct (decide (ContainerPort.Name cp = target)) as [Hname|Hname].
  - rewrite decide_True by (split; [done|apply Hproto; [left|done]]). done.
  - rewrite decide_False by (by intros [? _]).
    destruct (list_find _ (_ <$> l)) as [[? ?]|], (list_find _ l) as [[? ?]|]; done.
Qed.

(** X10.  The two ways of finding a target port agree when the proxy's
    pod-port metadata lists the container ports of the pod and every container
    port that bears the target name has the protocol of the service port (the
    metadata lookup does not look at protocols): both then succeed with the
    same port or both fail. *)
Theorem metadata_ports_agree_with_pod (pod : Pod.t) (svcPort : ServicePort.t) :
  (∀ cp, cp ∈ containerPorts pod →
         ContainerPort.Name cp = IntOrString.StrVal (ServicePort.TargetPort svcPort) →
         ContainerPort.Protocol cp = ServicePort.Protocol svcPort) →
  (∀ p, findPortFromMetadata svcPort (podPortsOf pod) = Ok p ↔ FindPort pod svcPort = Ok p)
  ∧ (is_err (findPortFromMetadata svcPort (podPortsOf pod)) = is_err (FindPort pod svcPort)).
Proof.
  intros Hproto. unfold findPortFromMetadata, FindPort, podPortsOf.
  fold (containerPorts pod).
  destruct (IntOrString.Type_ (ServicePort.TargetPort svcPort)); [done|].
  pose proof (list_find_pod_ports (containerPorts pod) _ _ Hproto) as Hfind.
  destruct (list_find _ (_ <$> containerPorts pod)) as [[? a]|],
           (list_find _ (containerPorts pod)) as [[? b]|]; try done.
  by rewrite Hfind.
Qed.

(** ** Loops in the trace monad *)

Lemma forAppendE_err_inv {A B} (xs : list A) (body : A -> W (result (list B))) :
  is_err (value (forAppendE xs body)) = true →
  ∃ x, x ∈ xs ∧ is_err (value (body x)) = true.
Proof.
  induction xs as [|x xs IH]; [done|].
  cbn [forAppendE]. rewrite value_bind.
  destruct (value (body x)) as [ys|e] eqn:Hx.
  - rewrite value_bind. destruct (value (forAppendE xs body)) as [zs|e]; [done|].
    intros _. destruct (IH eq_refl) as (x' & Hin & Herr).
    exists x'. split; [by right|done].
  - intros _. exists x. split; [left|by rewrite Hx].
Qed.

Lemma forAppendE_ok {A B} (xs : list A) (body : A -> W (result (list B))) (out : list B) :
  value (forAppendE xs body) = Ok out →
  ∃ yss, Forall2 (fun x ys => value (body x) = Ok ys) xs yss ∧ out = mjoin yss.
Proof.
  revert out. induction xs as [|x xs IH]; intros out.
  - intros [= <-]. exists []. by split.
  - cbn [forAppendE]. rewrite value_bind.
    destruct (value (body x)) as [ys|e] eqn:Hx; [|done].
    rewrite value_bind. destruct (value (forAppendE xs body)) as [zs|e]; [|done].
    intros [= <-]. destruct (IH zs eq_refl) as (yss & Hall & ->).
    exists (ys :: yss). split; [by constructor|done].
Qed.

Lemma forAppendE_ok_elem {A B} (xs : list A) (body : A -> W (result (list B)))
    (out : list B) (y : B) :
  value (forAppendE xs body) = Ok out → y ∈ out →
  ∃ x ys, x ∈ xs ∧ value (body x) = Ok ys ∧ y ∈ ys.
Proof.
  intros (yss & Hall & ->)%forAppendE_ok Hy.
  apply list_elem_of_join in Hy as (ys & Hy & Hys).
  apply list_elem_of_lookup in Hys as (k & Hk).
  destruct (Forall2_lookup_r _ _ _ _ _ Hall Hk) as (x & Hx & Hbody).
  exists x, ys. split_and!; [by eapply list_elem_of_lookup_2|done..].
Qed.

Lemma forAppendE_ok_length {A B} (xs : list A) (body : A -> W (result (list B)))
    (out : list B) (size_ : A -> nat) :
  value (forAppendE xs body) = Ok out →
  (∀ x ys, x ∈ xs → value (body x) = Ok ys → length ys = size_ x) →
  length out = sum_list (size_ <$> xs).
Proof.
  intros (yss & Hall & ->)%forAppendE_ok Hsize.
  induction Hall as [|x ys xs yss Hx Hall IH]; [done|].
  rewrite fmap_cons. simpl. rewrite length_app, (Hsize x ys); [|left|done].
  f_equal. apply IH. intros x' ys' Hin. apply Hsize. by right.
Qed.

Lemma sum_list_ones {A} (l : list A) : sum_list ((fun _ => 1%nat) <$> l) = length l.
Proof. induction l; simpl; [done|by f_equal]. Qed.

(** ** Proxy to instances: metadata *)

(** X11.  The ways metadata-based resolution can miss are all there is to it:
    it returns an error exactly when the proxy has no workload labels, names
    another cluster, the lister fails or selects no Service, or some selected
    Service lacks its model Service, one of its service ports, or a target
    port that the proxy's pod-port metadata resolves. *)
Theorem metadata_failure_complete (c : Controller) (proxy : Proxy.t) :
  is_err (value (getProxyServiceInstancesFromMetadata c proxy)) = true
  ↔ metadataFailure c proxy.
Proof.
  split; [|apply metadata_failure_is_error].
  unfold getProxyServiceInstancesFromMetadata.
  case_bool_decide as Hlabels.
  { intros _. apply EmptyWorkloadLabels. by destruct (Proxy.WorkloadLabels proxy). }
  destruct (String.eqb_spec (NodeMetadata.ClusterID (Proxy.Metadata proxy)) (ClusterID c))
    as [Hcluster|Hcluster]; [|intros _; by apply ClusterMismatch].
  cbn [negb]. cbv zeta. rewrite value_bind. fold (metadataServices c proxy).
  destruct (metadataServices c proxy) as [svcs|e] eqn:Hsvcs;
    [|intros _; by eapply ListerFailed].
  case_bool_decide as Hnone.
  { intros _. apply NoMatchingService. by destruct svcs. }
  intros (svc & Hsvc & Herr)%forAppendE_err_inv.
  destruct (servicesMap c !! _) as [modelService|] eqn:Hmodel;
    [|by eapply MissingModelService].
  apply forAppendE_err_inv in Herr as (port & Hport & Herr).
  destruct (PortList_Get _ _) as [svcPort|] eqn:Hget;
    [|by eapply MissingServicePort].
  destruct (findPortFromMetadata port _) as [targetPort|e] eqn:Hfind;
    [|by eapply UnresolvableTargetPort].
  by rewrite value_bind in Herr.
Qed.

(** X12.  When metadata-based resolution succeeds it yields one instance for
    every port of every selected Service.  Each instance has the proxy's first
    address, the proxy's first workload label set, the service account and the
    locality the proxy declares and the network the first address resolves to;
    its Service is the model Service stored under the hostname of a selected
    Service, and its ports are the service port of that model Service and the
    target port resolved from the proxy's pod-port metadata. *)
Theorem metadata_instances_shape
    (c : Controller) (proxy : Proxy.t) (out : list ServiceInstance.t) :
  value (getProxyServiceInstancesFromMetadata c proxy) = Ok out →
  ∃ svcs, metadataServices c proxy = Ok svcs
    ∧ svcs ≠ []
    ∧ length out
      = sum_list ((fun svc => length (ServiceSpec.Ports (v1Service.Spec svc))) <$> svcs)
    ∧ ∀ i, i ∈ out →
        NetworkEndpoint.Address (ServiceInstance.Endpoint i) = firstIP proxy
        ∧ NetworkEndpoint.Network (ServiceInstance.Endpoint i)
          = value (endpointNetwork c (firstIP proxy))
        ∧ NetworkEndpoint.Locality (ServiceInstance.Endpoint i)
          = LocalityToString (Proxy.Locality_ proxy)
        ∧ Some (ServiceInstance.Labels i) = head (Proxy.WorkloadLabels proxy)
        ∧ ServiceInstance.ServiceAccount i = NodeMetadata.ServiceAccount (Proxy.Metadata proxy)
        ∧ ∃ svc port,
            svc ∈ svcs ∧ port ∈ ServiceSpec.Ports (v1Service.Spec svc)
            ∧ servicesMap c !! ServiceHostname (v1Service.Name svc) (v1Service.Namespace svc)
                                 (domainSuffix c)
              = Some (ServiceInstance.Service i)
            ∧ PortList_Get (Service.Ports (ServiceInstance.Service i)) (ServicePort.Name port)
              = Some (NetworkEndpoint.ServicePort (ServiceInstance.Endpoint i))
            ∧ findPortFromMetadata port (NodeMetadata.PodPorts (Proxy.Metadata proxy))
              = Ok (NetworkEndpoint.Port (ServiceInstance.Endpoint i)).
Proof.
  unfold getProxyServiceInstancesFromMetadata.
  case_bool_decide as Hlabels; [done|].
  destruct (String.eqb_spec (NodeMetadata.ClusterID (Proxy.Metadata proxy)) (ClusterID c))
    as [Hcluster|Hcluster]; [|done].
  cbn [negb]. cbv zeta. rewrite value_bind. fold (metadataServices c proxy).
  destruct (metadataServices c proxy) as [svcs|e]; [|done].
  case_bool_decide as Hnone; [done|].
  intros Hout. exists svcs. split_and!; [done|by intros ->| |].
  - apply (forAppendE_ok_length _ _ _ _ Hout). intros svc ys _.
    destruct (servicesMap c !! _) as [modelService|]; [|done].
    intros Hys. rewrite (forAppendE_ok_length _ _ _ (fun _ => 1%nat) Hys).
    + apply sum_list_ones.
    + intros port zs _. destruct (PortList_Get _ _); [|done].
      destruct (findPortFromMetadata port _); [|done].
      rewrite value_bind. by intros [= <-].
  - intros i Hi.
    destruct (forAppendE_ok_elem _ _ _ _ Hout Hi) as (svc & ys & Hsvc & Hys & Hiys).
    destruct (servicesMap c !! _) as [modelService|] eqn:Hmodel; [|done].
    destruct (forAppendE_ok_elem _ _ _ _ Hys Hiys) as (port & zs & Hport & Hzs & Hizs).
    destruct (PortList_Get _ _) as [svcPort|] eqn:Hget; [|done].
    destruct (findPortFromMetadata port _) as [targetPort|] eqn:Hfind; [|done].
    rewrite value_bind in Hzs. injection Hzs as <-.
    apply list_elem_of_singleton in Hizs as ->. simpl.
    split_and!; try done.
    + by destruct (Proxy.WorkloadLabels proxy).
    + by exists svc, port.
Qed.

(** ** Proxy to instances: the whole resolution *)

Lemma fromMetadataOrHeadless_returns (c : Controller) (proxy : Proxy.t) (ns : string) :
  ∃ out, value (fromMetadataOrHeadless c proxy ns) = (Some out, None).
Proof.
  unfold fromMetadataOrHeadless. rewrite value_bind.
  destruct (value (getProxyServiceInstancesFromMetadata c proxy)); [by eexists|].
  rewrite !value_bind. by eexists.
Qed.

(** X13.  [GetProxyServiceInstances] never returns an error and never a nil
    list: every path, for every proxy and every state of the registry, ends in
    a list (possibly empty) and a nil error. *)
Theorem proxy_instances_never_fail (c : Controller) (proxy : Proxy.t) :
  ∃ out, value (GetProxyServiceInstances c proxy) = (Some out, None).
Proof.
  unfold GetProxyServiceInstances.
  destruct (Proxy.IPAddresses proxy) as [|ip rest].
  { rewrite value_bind. by eexists. }
  rewrite value_bind.
  destruct (getPodByIP (pods c) ip) as [pod|]; [|apply fromMetadataOrHeadless_returns].
  rewrite value_bind. destruct (negb _); [by eexists|].
  rewrite value_bind.
  destruct (PodServices _ _ _) as [[|svc0 rest0]|e];
    try apply fromMetadataOrHeadless_returns.
  rewrite value_bind. by eexists.
Qed.

Lemma headlessScan_value (c : Controller) (proxy : Proxy.t) (ns : string)
    (items : list Endpoints.t) (same diff : list ServiceInstance.t) :
  value (headlessScan c proxy ns items same diff)
  = (same ++ mjoin ((fun ep => value (getProxyServiceInstancesByEndpoint c ep proxy))
                      <$> filter (fun ep => Endpoints.Namespace ep = ns) items))
    ++ (diff ++ mjoin ((fun ep => value (getProxyServiceInstancesByEndpoint c ep proxy))
                         <$> filter (fun ep => Endpoints.Namespace ep ≠ ns) items)).
Proof.
  revert same diff. induction items as [|ep items IH]; intros same diff.
  - simpl. by rewrite !app_nil_r.
  - cbn [headlessScan]. rewrite value_bind.
    destruct (String.eqb_spec (Endpoints.Namespace ep) ns) as [Hns|Hns]; cbn [negb].
    + rewrite IH, filter_cons_True, filter_cons_False by (done || by intros ?).
      rewrite fmap_cons. simpl. by rewrite !app_assoc.
    + rewrite IH, filter_cons_False, filter_cons_True by done.
      rewrite fmap_cons. simpl. by rewrite !app_assoc.
Qed.

(** X14.  The scan of the Endpoints store puts the instances found in the
    proxy's own namespace before all others: its result is what the Endpoints
    objects of that namespace give, in store order, followed by what the
    Endpoints objects of the other namespaces give, in store order. *)
Theorem headless_scan_same_namespace_first
    (c : Controller) (proxy : Proxy.t) (ns : string) (items : list Endpoints.t) :
  value (headlessScan c proxy ns items [] [])
  = mjoin ((fun ep => value (getProxyServiceInstancesByEndpoint c ep proxy))
             <$> filter (fun ep => Endpoints.Namespace ep = ns) items)
    ++ mjoin ((fun ep => value (getProxyServiceInstancesByEndpoint c ep proxy))
                <$> filter (fun ep => Endpoints.Namespace ep ≠ ns) items).
Proof. by rewrite headlessScan_value. Qed.

(** ** What the traces of resolution hold *)

Lemma Forall_trace_bind {A B} (P : effect -> Prop) (m : W A) (f : A -> W B) :
  Forall P (trace m) → (∀ a, Forall P (trace (f a))) → Forall P (trace (m ≫= f)).
Proof. intros Hm Hf. rewrite trace_bind. apply Forall_app. by split. Qed.

Lemma Forall_trace_ret {A} (P : effect -> Prop) (a : A) : Forall P (trace (mret a : W A)).
Proof. constructor. Qed.

Lemma Forall_trace_emit (P : effect -> Prop) (e : effect) : P e → Forall P (trace (emit e)).
Proof. intros He. by repeat constructor. Qed.

Lemma Forall_trace_forAppend {A B} (P : effect -> Prop) (xs : list A) (body : A -> W (list B)) :
  (∀ x, Forall P (trace (body x))) → Forall P (trace (forAppend xs body)).
Proof.
  intros Hbody. induction xs as [|x xs IH]; [constructor|].
  cbn [forAppend]. apply Forall_trace_bind; [done|]. intros ys.
  apply Forall_trace_bind; [done|]. intros zs. constructor.
Qed.

Lemma Forall_trace_forAppendE {A B} (P : effect -> Prop) (xs : list A)
    (body : A -> W (result (list B))) :
  (∀ x, Forall P (trace (body x))) → Forall P (trace (forAppendE xs body)).
Proof.
  intros Hbody. induction xs as [|x xs IH]; [constructor|].
  cbn [forAppendE]. apply Forall_trace_bind; [done|]. intros [ys|e]; [|constructor].
  apply Forall_trace_bind; [done|]. intros [zs|e]; constructor.
Qed.

(** Breaks a goal [Forall P (trace m)] down along the structure of [m]; calls
    of other functions are left to [tac]. *)
Ltac trace_walk tac :=
  repeat first
    [ progress cbv zeta
    | tac
    | apply Forall_trace_ret
    | apply Forall_trace_emit; done
    | apply Forall_trace_bind; [|intros ?]
    | apply Forall_trace_forAppend; intros ?
    | apply Forall_trace_forAppendE; intros ?
    | match goal with
      | |- Forall _ (trace (match ?x with _ => _ end)) => destruct x
      | |- Forall _ (trace (if ?b then _ else _)) => destruct b
      end ].

Lemma endpointNetwork_no_report (c : Controller) (ip : string) :
  Forall (fun e => isNoServiceReport e = false) (trace (endpointNetwork c ip)).
Proof. unfold endpointNetwork. trace_walk fail. Qed.

Lemma GetPodLocality_no_report (c : Controller) (pod : Pod.t) :
  Forall (fun e => isNoServiceReport e = false) (trace (GetPodLocality c pod)).
Proof. unfold GetPodLocality. trace_walk fail. Qed.

Lemma getEndpoints_no_report (c : Controller) (podIP address : string) (endpointPort : Z)
    (svcPort : Port.t) (svc : Service.t) :
  Forall (fun e => isNoServiceReport e = false)
    (trace (getEndpoints c podIP address endpointPort svcPort svc)).
Proof.
  unfold getEndpoints.
  trace_walk ltac:(first [apply endpointNetwork_no_report | apply GetPodLocality_no_report]).
Qed.

Lemma getProxyServiceInstancesByPod_no_report (c : Controller) (pod : Pod.t)
    (service : v1Service.t) (proxy : Proxy.t) :
  Forall (fun e => isNoServiceReport e = false)
    (trace (getProxyServiceInstancesByPod c pod service proxy)).
Proof.
  unfold getProxyServiceInstancesByPod. trace_walk ltac:(apply getEndpoints_no_report).
Qed.

Lemma getProxyServiceInstancesByEndpoint_no_report (c : Controller) (ep : Endpoints.t)
    (proxy : Proxy.t) :
  Forall (fun e => isNoServiceReport e = false)
    (trace (getProxyServiceInstancesByEndpoint c ep proxy)).
Proof.
  unfold getProxyServiceInstancesByEndpoint. trace_walk ltac:(apply getEndpoints_no_report).
Qed.

Lemma getProxyServiceInstancesFromMetadata_no_report (c : Controller) (proxy : Proxy.t) :
  Forall (fun e => isNoServiceReport e = false)
    (trace (getProxyServiceInstancesFromMetadata c proxy)).
Proof.
  unfold getProxyServiceInstancesFromMetadata.
  trace_walk ltac:(apply endpointNetwork_no_report).
Qed.

Lemma headlessScan_no_report (c : Controller) (proxy : Proxy.t) (ns : string)
    (items : list Endpoints.t) (same diff : list ServiceInstance.t) :
  Forall (fun e => isNoServiceReport e = false)
    (trace (headlessScan c proxy ns items same diff)).
Proof.
  revert same diff. induction items as [|ep items IH]; intros same diff; [constructor|].
  cbn [headlessScan].
  trace_walk ltac:(first [apply getProxyServiceInstancesByEndpoint_no_report | apply IH]).
Qed.

Lemma filter_no_report (t : list effect) :
  Forall (fun e => isNoServiceReport e = false) t → List.filter isNoServiceReport t = [].
Proof.
  induction 1 as [|e t He _ IH]; [done|]. simpl. by rewrite He.
Qed.

Lemma reportNoService_trace (c : Controller) (proxy : Proxy.t) (out : list ServiceInstance.t) :
  List.filter isNoServiceReport (trace (reportNoService c proxy out))
  = if bool_decide (out = [] ∧ is_Some (Env c))
    then [PushContextAdd ProxyStatusNoService (Proxy.ID proxy) ""] else [].
Proof.
  unfold reportNoService.
  destruct out as [|i out], (Env c) as [env|];
    try destruct (Environment.PushContext env);
    case_bool_decide as Hcase;
    first [ done
          | by destruct Hcase as [? [? ?]]
          | destruct Hcase; split; [done|by eexists] ].
Qed.

Lemma fromMetadataOrHeadless_report (c : Controller) (proxy : Proxy.t) (ns : string) :
  List.filter isNoServiceReport (trace (fromMetadataOrHeadless c proxy ns))
  = if bool_decide ((value (fromMetadataOrHeadless c proxy ns)).1 = Some []
                    ∧ is_err (value (getProxyServiceInstancesFromMetadata c proxy)) = true
                    ∧ is_Some (Env c))
    then [PushContextAdd ProxyStatusNoService (Proxy.ID proxy) ""] else [].
Proof.
  unfold fromMetadataOrHeadless. rewrite trace_bind, value_bind, List.filter_app.
  rewrite (filter_no_report _ (getProxyServiceInstancesFromMetadata_no_report c proxy)).
  destruct (value (getProxyServiceInstancesFromMetadata c proxy)) as [instances|e].
  - rewrite bool_decide_eq_false_2; [done|]. by intros (_ & ? & _).
  - rewrite !trace_bind, !value_bind, !List.filter_app.
    rewrite (filter_no_report _ (headlessScan_no_report _ _ _ _ _ _)).
    rewrite reportNoService_trace. simpl. rewrite app_nil_r.
    repeat case_bool_decide; try done.
    + match goal with Hn : ¬ _, Hy : _ ∧ _ |- _ => destruct Hn, Hy as [-> ?]; done end.
    + match goal with Hn : ¬ _, Hy : _ ∧ _ |- _ => destruct Hn, Hy as ([= ->] & _ & ?); done end.
Qed.

(** X15.  The "no service" status of a proxy is reported at most once per
    call of [GetProxyServiceInstances], and only for an empty result: when it
    is reported the returned list is empty and the controller has an
    environment.  (An empty result is not always reported: a proxy on another
    network and a successful metadata resolution return without report.) *)
Theorem no_service_reported_only_when_empty (c : Controller) (proxy : Proxy.t) :
  let reports := List.filter isNoServiceReport (trace (GetProxyServiceInstances c proxy)) in
  (reports = [] ∨ reports = [PushContextAdd ProxyStatusNoService (Proxy.ID proxy) ""])
  ∧ (reports ≠ [] → (value (GetProxyServiceInstances c proxy)).1 = Some [] ∧ is_Some (Env c)).
Proof.
  intros reports. subst reports.
  assert (Hfall : ∀ ns before,
            Forall (fun e => isNoServiceReport e = false) before →
            let v := value (fromMetadataOrHeadless c proxy ns) in
            let t := before ++ trace (fromMetadataOrHeadless c proxy ns) in
            (List.filter isNoServiceReport t = []
             ∨ List.filter isNoServiceReport t
               = [PushContextAdd ProxyStatusNoService (Proxy.ID proxy) ""])
            ∧ (List.filter isNoServiceReport t ≠ [] → v.1 = Some [] ∧ is_Some (Env c))).
  { intros ns before Hbefore v t. subst v t.
    rewrite List.filter_app, (filter_no_report _ Hbefore), fromMetadataOrHeadless_report.
    simpl. case_bool_decide as Hcase; [|split; [by left|intros Hne; by destruct Hne]].
    split; [by right|]. intros _. by destruct Hcase as (? & _ & ?). }
  unfold GetProxyServiceInstances.
  destruct (Proxy.IPAddresses proxy) as [|ip rest].
  { rewrite trace_bind, value_bind, List.filter_app, reportNoService_trace. simpl.
    rewrite app_nil_r. case_bool_decide as Hcase; [|split; [by left|intros Hne; by destruct Hne]].
    split; [by right|]. intros _. by destruct Hcase. }
  rewrite trace_bind, value_bind.
  destruct (getPodByIP (pods c) ip) as [pod|].
  2:{ apply (Hfall "" _). by repeat constructor. }
  rewrite trace_bind, value_bind. destruct (negb _).
  { rewrite app_nil_r.
    rewrite (filter_no_report (_ ++ _)); [split; [by left|intros Hne; by destruct Hne]|].
    apply Forall_app. split; [by repeat constructor|apply endpointNetwork_no_report]. }
  rewrite trace_bind, value_bind.
  assert (Hbefore : Forall (fun e => isNoServiceReport e = false)
                      (trace (emit (PodsGetByIP ip))
                       ++ trace (endpointNetwork c ip)
                       ++ trace (emit (GetPodServices (Pod.Namespace pod) (Pod.Labels pod))))).
  { rewrite !Forall_app. split_and!; [by repeat constructor|
      apply endpointNetwork_no_report|by repeat constructor]. }
  destruct (PodServices _ _ _) as [[|svc0 rest0]|e].
  - rewrite !app_assoc. apply Hfall. by rewrite <- !app_assoc.
  - rewrite trace_bind, value_bind.
    match goal with
    | |- context [List.filter isNoServiceReport ?t] => rewrite (filter_no_report t)
    end; [split; [by left|intros Hne; by destruct Hne]|].
    rewrite !Forall_app. split_and!;
      [by repeat constructor|apply endpointNetwork_no_report|by repeat constructor| |constructor].
    apply Forall_trace_forAppend. intros svc. apply getProxyServiceInstancesByPod_no_report.
  - rewrite !app_assoc. apply Hfall. by rewrite <- !app_assoc.
Qed.

(** ** Instances built for a proxy *)

Lemma getEndpoints_value (c : Controller) (podIP address : string) (endpointPort : Z)
    (svcPort : Port.t) (svc : Service.t) :
  let i := value (getEndpoints c podIP address endpointPort svcPort svc) in
  NetworkEndpoint.Address (ServiceInstance.Endpoint i) = address
  ∧ NetworkEndpoint.Port (ServiceInstance.Endpoint i) = endpointPort
  ∧ NetworkEndpoint.ServicePort (ServiceInstance.Endpoint i) = svcPort
  ∧ NetworkEndpoint.Network (ServiceInstance.Endpoint i) = value (endpointNetwork c address)
  ∧ ServiceInstance.Service i = svc
  ∧ ServiceInstance.Labels i = (labelsByIP (pods c) podIP).1
  ∧ ServiceInstance.TLSMode i = PodTLSMode (getPodByIP (pods c) podIP).
Proof.
  unfold getEndpoints. cbv zeta. rewrite !value_bind.
  destruct (getPodByIP (pods c) podIP) as [p|];
    rewrite ?value_bind, ?value_ret; simpl; by rewrite value_bind.
Qed.

(** X16.  What one Endpoints object contributes to the scan for a proxy.
    Nothing, and without any lookup, when no Service is stored under the
    hostname of the Endpoints object.  Otherwise every instance is bound to
    that Service, has one of the proxy's addresses, found among the ready or
    the not-ready addresses of a subset, the port of one of that subset's
    ports whose name is a port name of the Service, and the labels of the pod
    of the proxy's first address; and every such combination of subset, port
    and proxy address is represented, not-ready addresses included. *)
Theorem headless_endpoint_instances (c : Controller) (ep : Endpoints.t) (proxy : Proxy.t) :
  let hostname := ServiceHostname (Endpoints.Name ep) (Endpoints.Namespace ep) (domainSuffix c) in
  let out := value (getProxyServiceInstancesByEndpoint c ep proxy) in
  (servicesMap c !! hostname = None →
     getProxyServiceInstancesByEndpoint c ep proxy = ([], []))
  ∧ (∀ svc, servicesMap c !! hostname = Some svc →
       (∀ i, i ∈ out →
          ServiceInstance.Service i = svc
          ∧ NetworkEndpoint.Address (ServiceInstance.Endpoint i) ∈ Proxy.IPAddresses proxy
          ∧ ServiceInstance.Labels i = (labelsByIP (pods c) (firstIP proxy)).1
          ∧ ∃ ss port,
              ss ∈ elems (Endpoints.Subsets ep) ∧ port ∈ elems (EndpointSubset.Ports ss)
              ∧ PortList_Get (Service.Ports svc) (EndpointPort.Name port)
                = Some (NetworkEndpoint.ServicePort (ServiceInstance.Endpoint i))
              ∧ NetworkEndpoint.Port (ServiceInstance.Endpoint i) = EndpointPort.Port port
              ∧ (hasProxyIP (EndpointSubset.Addresses ss)
                   (NetworkEndpoint.Address (ServiceInstance.Endpoint i)) = true
                 ∨ hasProxyIP (EndpointSubset.NotReadyAddresses ss)
                     (NetworkEndpoint.Address (ServiceInstance.Endpoint i)) = true))
       ∧ (∀ ss port svcPort ip,
            ss ∈ elems (Endpoints.Subsets ep) → port ∈ elems (EndpointSubset.Ports ss) →
            PortList_Get (Service.Ports svc) (EndpointPort.Name port) = Some svcPort →
            ip ∈ Proxy.IPAddresses proxy →
            hasProxyIP (EndpointSubset.Addresses ss) ip = true
            ∨ hasProxyIP (EndpointSubset.NotReadyAddresses ss) ip = true →
            ∃ i, i ∈ out
                 ∧ NetworkEndpoint.Address (ServiceInstance.Endpoint i) = ip
                 ∧ NetworkEndpoint.Port (ServiceInstance.Endpoint i) = EndpointPort.Port port
                 ∧ NetworkEndpoint.ServicePort (ServiceInstance.Endpoint i) = svcPort)).
Proof.
  intros hostname out. subst out. unfold getProxyServiceInstancesByEndpoint. fold hostname.
  split; [by intros ->|]. intros svc ->. cbv zeta. split.
  - intros i (ss & Hss & Hi)%elem_of_forAppend.
    apply elem_of_forAppend in Hi as (port & Hport & Hi).
    destruct (PortList_Get (Service.Ports svc) (EndpointPort.Name port)) as [svcPort|] eqn:Hget;
      [|by apply elem_of_nil in Hi].
    apply elem_of_forAppend in Hi as (ip & Hip & Hi).
    rewrite !value_bind, value_ret in Hi.
    pose proof (getEndpoints_value c (firstIP proxy) ip (EndpointPort.Port port) svcPort svc)
      as (Ha & Hp & Hsp & _ & Hsvc & Hl & _).
    assert (Hshape : i = value (getEndpoints c (firstIP proxy) ip (EndpointPort.Port port)
                                  svcPort svc)
                     ∧ (hasProxyIP (EndpointSubset.Addresses ss) ip = true
                        ∨ hasProxyIP (EndpointSubset.NotReadyAddresses ss) ip = true)).
    { apply elem_of_app in Hi as [Hi|Hi].
      - destruct (hasProxyIP (EndpointSubset.Addresses ss) ip); [|by apply elem_of_nil in Hi].
        rewrite value_bind, value_ret in Hi. apply list_elem_of_singleton in Hi. by split; [|left].
      - destruct (hasProxyIP (EndpointSubset.NotReadyAddresses ss) ip);
          [|by apply elem_of_nil in Hi].
        rewrite !value_bind, value_ret in Hi. apply list_elem_of_singleton in Hi.
        by split; [|right]. }
    destruct Hshape as [-> Hhas]. rewrite Ha, Hsvc, Hl, Hp, Hsp.
    split_and!; try done. exists ss, port. by rewrite Hget.
  - intros ss port svcPort ip Hss Hport Hget Hip Hhas.
    pose proof (getEndpoints_value c (firstIP proxy) ip (EndpointPort.Port port) svcPort svc)
      as (Ha & Hp & Hsp & _).
    exists (value (getEndpoints c (firstIP proxy) ip (EndpointPort.Port port) svcPort svc)).
    split; [|done].
    apply elem_of_forAppend. exists ss. split; [done|].
    apply elem_of_forAppend. exists port. split; [done|]. rewrite Hget.
    apply elem_of_forAppend. exists ip. split; [done|].
    rewrite !value_bind, value_ret. apply elem_of_app.
    destruct Hhas as [Hready|HnotReady].
    + left. rewrite Hready, value_bind, value_ret. by apply list_elem_of_singleton.
    + right. rewrite HnotReady, !value_bind, value_ret. by apply list_elem_of_singleton.
Qed.

(** X17.  What one selected Service contributes on the pod path.  Nothing,
    and without any lookup, when no model Service is stored under its
    hostname.  Otherwise a port of the Service that is not a port of the model
    Service, or whose target port the pod does not resolve, is skipped (it is
    no error), and every other port gives one instance per address of the
    proxy, bound to the model Service and to the target port found in the
    pod, converted to int32. *)
Theorem pod_path_instances
    (c : Controller) (pod : Pod.t) (service : v1Service.t) (proxy : Proxy.t) :
  let hostname := ServiceHostname (v1Service.Name service) (v1Service.Namespace service)
                    (domainSuffix c) in
  let out := value (getProxyServiceInstancesByPod c pod service proxy) in
  (servicesMap c !! hostname = None →
     getProxyServiceInstancesByPod c pod service proxy = ([], []))
  ∧ (∀ svc, servicesMap c !! hostname = Some svc →
       (∀ i, i ∈ out →
          ServiceInstance.Service i = svc
          ∧ NetworkEndpoint.Address (ServiceInstance.Endpoint i) ∈ Proxy.IPAddresses proxy
          ∧ ∃ port portNum,
              port ∈ ServiceSpec.Ports (v1Service.Spec service)
              ∧ PortList_Get (Service.Ports svc) (ServicePort.Name port)
                = Some (NetworkEndpoint.ServicePort (ServiceInstance.Endpoint i))
              ∧ FindPort pod port = Ok portNum
              ∧ NetworkEndpoint.Port (ServiceInstance.Endpoint i) = int32 portNum)
       ∧ (∀ port svcPort portNum ip,
            port ∈ ServiceSpec.Ports (v1Service.Spec service) →
            PortList_Get (Service.Ports svc) (ServicePort.Name port) = Some svcPort →
            FindPort pod port = Ok portNum →
            ip ∈ Proxy.IPAddresses proxy →
            ∃ i, i ∈ out
                 ∧ NetworkEndpoint.Address (ServiceInstance.Endpoint i) = ip
                 ∧ NetworkEndpoint.Port (ServiceInstance.Endpoint i) = int32 portNum
                 ∧ NetworkEndpoint.ServicePort (ServiceInstance.Endpoint i) = svcPort)).
Proof.
  intros hostname out. subst out. unfold getProxyServiceInstancesByPod. fold hostname.
  split; [by intros ->|]. intros svc ->. split.
  - intros i (port & Hport & Hi)%elem_of_forAppend.
    destruct (PortList_Get (Service.Ports svc) (ServicePort.Name port)) as [svcPort|] eqn:Hget;
      [|by apply elem_of_nil in Hi].
    destruct (FindPort pod port) as [portNum|err] eqn:Hfind;
      [|by apply elem_of_nil in Hi].
    cbv zeta in Hi. apply elem_of_forAppend in Hi as (ip & Hip & Hi).
    rewrite value_bind, value_ret in Hi. apply list_elem_of_singleton in Hi as ->.
    pose proof (getEndpoints_value c (firstIP proxy) ip (int32 portNum) svcPort svc)
      as (Ha & Hp & Hsp & _ & Hsvc & _).
    rewrite Ha, Hsvc, Hp, Hsp. split_and!; try done. exists port, portNum. by rewrite Hget.
  - intros port svcPort portNum ip Hport Hget Hfind Hip.
    pose proof (getEndpoints_value c (firstIP proxy) ip (int32 portNum) svcPort svc)
      as (Ha & Hp & Hsp & _).
    exists (value (getEndpoints c (firstIP proxy) ip (int32 portNum) svcPort svc)).
    split; [|done].
    apply elem_of_forAppend. exists port. split; [done|]. rewrite Hget, Hfind. cbv zeta.
    apply elem_of_forAppend. exists ip. split; [done|].
    rewrite value_bind, value_ret. by apply list_elem_of_singleton.
Qed.

(** X18.  [GetProxyWorkloadLabels] reads the proxy's first address without
    checking that there is one: for a proxy without addresses it panics, where
    [GetProxyServiceInstances] returns an empty list and no error.  For any
    other proxy it returns no error, looks up the first address only, and
    returns the labels of the pod cached for it as the single element of the
    collection, or a nil collection when no pod is cached. *)
Theorem workload_labels_of_first_address (c : Controller) (proxy : Proxy.t) :
  (Proxy.IPAddresses proxy = [] →
     value (GetProxyWorkloadLabels c proxy) = Panics
     ∧ value (GetProxyServiceInstances c proxy) = (Some [], None))
  ∧ (∀ ip rest, Proxy.IPAddresses proxy = ip :: rest →
       GetProxyWorkloadLabels c proxy
       = (Returns ((fun pod => [Pod.Labels pod]) <$> getPodByIP (pods c) ip, None),
          [PodsGetByIP ip])).
Proof.
  unfold GetProxyWorkloadLabels, GetProxyServiceInstances. split.
  - intros ->. split; [done|]. by rewrite value_bind.
  - intros ip rest ->. by destruct (getPodByIP (pods c) ip).
Qed.

(** ** Service accounts *)

Lemma InstancesByPort_error_nil (c : Controller) (svc : Service.t) (port : Z)
    (labelsList : list (gmap string string)) :
  (value (InstancesByPort c svc port labelsList)).2 = None.
Proof.
  unfold InstancesByPort.
  destruct (externalNameSvcInstanceMap c !! Service.Hostname svc); [done|].
  cbv zeta. rewrite value_bind.
  destruct (GetByKey (endpoints c) _); [|done..].
  destruct (PortList_GetByPort _ _); [|done]. by rewrite value_bind.
Qed.

Lemma instancesOfPorts_value (c : Controller) (svc : Service.t) (ports : list Z)
    (instances : list ServiceInstance.t) :
  value (instancesOfPorts c svc ports instances)
  = Ok (instances
        ++ mjoin ((fun port => elems (value (InstancesByPort c svc port [])).1) <$> ports)).
Proof.
  revert instances. induction ports as [|port ports IH]; intros instances.
  - simpl. by rewrite app_nil_r.
  - cbn [instancesOfPorts]. rewrite value_bind, InstancesByPort_error_nil, IH.
    rewrite fmap_cons. simpl. by rewrite app_assoc.
Qed.

Lemma elem_of_foldl_accounts (x : string) (instances : list ServiceInstance.t)
    (saSet : gset string) :
  x ∈ foldl (fun saSet si =>
               if negb (String.eqb (ServiceInstance.ServiceAccount si) "")
               then {[ ServiceInstance.ServiceAccount si ]} ∪ saSet else saSet)
            saSet instances
  ↔ x ∈ saSet ∨ (x ≠ "" ∧ ∃ si, si ∈ instances ∧ ServiceInstance.ServiceAccount si = x).
Proof.
  revert saSet. induction instances as [|si instances IH]; intros saSet; simpl.
  - split; [by left|]. intros [?|(_ & si & ?%elem_of_nil & _)]; done.
  - rewrite IH. destruct (String.eqb_spec (ServiceInstance.ServiceAccount si) "") as [He|He];
      simpl; [|rewrite elem_of_union, elem_of_singleton]; split.
    + intros [?|(Hx & si' & Hin & Hsa)]; [by left|].
      right. split; [done|]. exists si'. split; [by right|done].
    + intros [?|(Hx & si' & [->|Hin]%elem_of_cons & Hsa)]; [by left|congruence|].
      right. split; [done|]. by exists si'.
    + intros [[->|?]|(Hx & si' & Hin & Hsa)].
      * right. split; [done|]. exists si. split; [left|done].
      * by left.
      * right. split; [done|]. exists si'. split; [by right|done].
    + intros [?|(Hx & si' & [->|Hin]%elem_of_cons & Hsa)].
      * left. by right.
      * left. by left.
      * right. split; [done|]. by exists si'.
Qed.

Lemma elem_of_foldl_names (x : string) (names : list string) (saSet : gset string) :
  x ∈ foldl (fun saSet sa => {[ sa ]} ∪ saSet) saSet names ↔ x ∈ saSet ∨ x ∈ names.
Proof.
  revert saSet. induction names as [|sa names IH]; intros saSet; simpl.
  - split; [by left|]. by intros [?|?%elem_of_nil].
  - rewrite IH, elem_of_union, elem_of_singleton, elem_of_cons. tauto.
Qed.

(** X19.  [GetIstioServiceAccounts] never returns nil: since [InstancesByPort]
    never fails, its error branch is dead.  The accounts it returns are, each
    exactly once, the accounts listed on the Service together with the
    non-empty accounts of the instances that [InstancesByPort] finds, with an
    empty label filter, for any of the given ports. *)
Theorem service_accounts_membership (c : Controller) (svc : Service.t) (ports : list Z) :
  ∃ out, value (GetIstioServiceAccounts c svc ports) = Some out
    ∧ NoDup out
    ∧ ∀ x, x ∈ out ↔
           x ∈ Service.ServiceAccounts svc
           ∨ (x ≠ "" ∧ ∃ port i,
                port ∈ ports
                ∧ i ∈ elems (value (InstancesByPort c svc port [])).1
                ∧ ServiceInstance.ServiceAccount i = x).
Proof.
  unfold GetIstioServiceAccounts. rewrite value_bind, instancesOfPorts_value. cbv zeta.
  eexists. split; [done|]. split; [apply NoDup_elements|].
  intros x. rewrite elem_of_elements, elem_of_foldl_names, elem_of_foldl_accounts.
  rewrite app_nil_l. split.
  - intros [[?%elem_of_empty|(Hx & si & Hin & Hsa)]|?]; [done| |by left].
    right. split; [done|].
    apply list_elem_of_join in Hin as (l & Hsi & Hl).
    apply list_elem_of_fmap in Hl as (port & -> & Hport). by exists port, si.
  - intros [?|(Hx & port & si & Hport & Hin & Hsa)]; [by right|].
    left. right. split; [done|]. exists si. split; [|done].
    apply list_elem_of_join. eexists. split; [exact Hin|].
    apply list_elem_of_fmap. by exists port.
Qed.

(** ** The Endpoints handler *)

Lemma endpointNetwork_no_push (c : Controller) (ip : string) :
  Forall (fun e => isEDSUpdate e = false ∧ isConfigUpdate e = false)
    (trace (endpointNetwork c ip)).
Proof. unfold endpointNetwork. trace_walk fail. Qed.

Lemma GetPodLocality_no_push (c : Controller) (pod : Pod.t) :
  Forall (fun e => isEDSUpdate e = false ∧ isConfigUpdate e = false)
    (trace (GetPodLocality c pod)).
Proof. unfold GetPodLocality. trace_walk fail. Qed.

Lemma filter_no_push (t : list effect) :
  Forall (fun e => isEDSUpdate e = false ∧ isConfigUpdate e = false) t →
  List.filter isEDSUpdate t = [] ∧ List.filter isConfigUpdate t = [] ∧
  ∀ cluster hostname ns eps, EDSUpdate cluster hostname ns eps ∉ t.
Proof.
  induction 1 as [|e t [He1 He2] _ (IH1 & IH2 & IH3)]; [split_and!; try done|].
  - intros ???? ?%elem_of_nil. done.
  - simpl. rewrite He1, He2. split_and!; try done.
    intros cluster hostname ns eps [Heq|Hin]%elem_of_cons; [by rewrite <- Heq in He1|].
    by eapply IH3.
Qed.

(** The statement of [updateEDS], with the list it builds named. *)
Lemma updateEDS_trace (c : Controller) (ep : Endpoints.t) (event : Event) :
  ∃ (build : W (list IstioEndpoint.t)) format args,
    trace (updateEDS c ep event)
    = trace build
      ++ [Log Info format args;
          EDSUpdate (ClusterID c)
            (ServiceHostname (Endpoints.Name ep) (Endpoints.Namespace ep) (domainSuffix c))
            (Endpoints.Namespace ep) (value build)]
    ∧ Forall (fun e => isEDSUpdate e = false ∧ isConfigUpdate e = false) (trace build)
    ∧ (event = EventDelete → build = mret [])
    ∧ (event ≠ EventDelete →
       ∀ e, e ∈ value build ↔
         ∃ ss ea port,
           ss ∈ elems (Endpoints.Subsets ep)
           ∧ ea ∈ elems (EndpointSubset.Addresses ss)
           ∧ port ∈ elems (EndpointSubset.Ports ss)
           ∧ admittedByEDS c ea
           ∧ e = {| IstioEndpoint.Address := EndpointAddress.IP ea;
                    IstioEndpoint.EndpointPort := EndpointPort.Port port mod 2 ^ 32;
                    IstioEndpoint.ServicePortName := EndpointPort.Name port;
                    IstioEndpoint.Labels := podLabelsAt c (EndpointAddress.IP ea);
                    IstioEndpoint.UID :=
                      match getPodByIP (pods c) (EndpointAddress.IP ea) with
                      | Some p => if mixerEnabled c then podUID p else ""
                      | None => ""
                      end;
                    IstioEndpoint.ServiceAccount :=
                      match getPodByIP (pods c) (EndpointAddress.IP ea) with
                      | Some p => SecureNamingSAN p
                      | None => ""
                      end;
                    IstioEndpoint.Network := value (endpointNetwork c (EndpointAddress.IP ea));
                    IstioEndpoint.Locality :=
                      match getPodByIP (pods c) (EndpointAddress.IP ea) with
                      | Some p => value (GetPodLocality c p)
                      | None => ""
                      end;
                    IstioEndpoint.Attributes :=
                      {| ServiceAttributes.Name := Endpoints.Name ep;
                         ServiceAttributes.Namespace := Endpoints.Namespace ep;
                         ServiceAttributes.UID := "" |};
                    IstioEndpoint.TLSMode :=
                      PodTLSMode (getPodByIP (pods c) (EndpointAddress.IP ea)) |}).
Proof.
  unfold updateEDS. cbv zeta.
  match goal with |- context [trace (?b ≫= _)] => exists b end.
  eexists _, _. split; [by rewrite !trace_bind|]. split_and!.
  - destruct (negb _); [|constructor].
    trace_walk ltac:(first [apply endpointNetwork_no_push | apply GetPodLocality_no_push]).
  - intros ->. done.
  - intros Hev e. rewrite bool_decide_eq_false_2 by done. cbn [negb].
    unfold admittedByEDS, podLabelsAt. split.
    + intros (ss & Hss & He)%elem_of_forAppend.
      apply elem_of_forAppend in He as (ea & Hea & He). rewrite value_bind in He.
      exists ss, ea.
      destruct (getPodByIP (pods c) (EndpointAddress.IP ea)) as [p|] eqn:Hpod.
      * rewrite !value_bind, value_ret in He.
        apply elem_of_forAppend in He as (port & Hport & He).
        rewrite value_bind, value_ret in He. apply list_elem_of_singleton in He.
        exists port. split_and!; try done. left. by eexists.
      * destruct (EndpointAddress.TargetRef ea) as [ref|] eqn:Href.
        -- destruct (String.eqb_spec (ObjectReference.Kind ref) "Pod") as [Hkind|Hkind].
           { rewrite !value_bind in He. by apply elem_of_nil in He. }
           rewrite !value_bind in He.
           apply elem_of_forAppend in He as (port & Hport & He).
           rewrite value_bind, value_ret in He. apply list_elem_of_singleton in He.
           exists port. split_and!; try done. right. by intros ? [= <-].
        -- rewrite !value_bind in He.
           apply elem_of_forAppend in He as (port & Hport & He).
           rewrite value_bind, value_ret in He. apply list_elem_of_singleton in He.
           exists port. split_and!; try done. right. by intros ? [=].
    + intros (ss & ea & port & Hss & Hea & Hport & Hadm & ->).
      apply elem_of_forAppend. exists ss. split; [done|].
      apply elem_of_forAppend. exists ea. split; [done|]. rewrite value_bind.
      destruct (getPodByIP (pods c) (EndpointAddress.IP ea)) as [p|] eqn:Hpod.
      * rewrite !value_bind, value_ret.
        apply elem_of_forAppend. exists port. split; [done|].
        rewrite value_bind, value_ret. by apply list_elem_of_singleton.
      * destruct Hadm as [[? ?]|Hadm]; [done|].
        destruct (EndpointAddress.TargetRef ea) as [ref|] eqn:Href.
        -- destruct (String.eqb_spec (ObjectReference.Kind ref) "Pod") as [Hkind|Hkind];
             [by destruct (Hadm ref eq_refl)|].
           rewrite !value_bind.
           apply elem_of_forAppend. exists port. split; [done|].
           rewrite value_bind, value_ret. by apply list_elem_of_singleton.
        -- rewrite !value_bind.
           apply elem_of_forAppend. exists port. split; [done|].
           rewrite value_bind, value_ret. by apply list_elem_of_singleton.
Qed.

Lemma updateEDS_pushes (c : Controller) (ep : Endpoints.t) (event : Event) :
  List.filter isConfigUpdate (trace (updateEDS c ep event)) = []
  ∧ ∃ eps, List.filter isEDSUpdate (trace (updateEDS c ep event))
           = [EDSUpdate (ClusterID c)
                (ServiceHostname (Endpoints.Name ep) (Endpoints.Namespace ep) (domainSuffix c))
                (Endpoints.Namespace ep) eps]
      ∧ last (trace (updateEDS c ep event))
        = Some (EDSUpdate (ClusterID c)
                  (ServiceHostname (Endpoints.Name ep) (Endpoints.Namespace ep) (domainSuffix c))
                  (Endpoints.Namespace ep) eps)
      ∧ (event = EventDelete → eps = [] ∧ List.filter isPodLookup (trace (updateEDS c ep event)) = []).
Proof.
  destruct (updateEDS_trace c ep event) as (build & format & args & -> & Hquiet & Hdel & _).
  destruct (filter_no_push _ Hquiet) as (Heds & Hcfg & _).
  rewrite !List.filter_app, Heds, Hcfg. split; [done|].
  exists (value build). split_and!; [done| |].
  - by rewrite last_app.
  - intros Hev. by rewrite (Hdel Hev).
Qed.

(** X20.  Every call of [updateEDS] ends with exactly one call of the
    updater's EDSUpdate, for the hostname and namespace of the Endpoints
    object, and never asks for a full push.  For a delete event the list it
    hands over is empty and no pod is looked up: deleting an Endpoints object
    empties the endpoints of the Service rather than removing the Service. *)
Theorem eds_update_exactly_once (c : Controller) (ep : Endpoints.t) (event : Event) :
  let t := trace (updateEDS c ep event) in
  let hostname := ServiceHostname (Endpoints.Name ep) (Endpoints.Namespace ep) (domainSuffix c) in
  List.filter isConfigUpdate t = []
  ∧ ∃ eps, List.filter isEDSUpdate t
           = [EDSUpdate (ClusterID c) hostname (Endpoints.Namespace ep) eps]
      ∧ last t = Some (EDSUpdate (ClusterID c) hostname (Endpoints.Namespace ep) eps)
      ∧ (event = EventDelete → eps = [] ∧ List.filter isPodLookup t = []).
Proof. apply updateEDS_pushes. Qed.

(** X21.  For an add or update event the endpoints that [updateEDS] hands to
    the updater are exactly one per port for each ready address that is
    admitted: an address whose pod is cached, or that does not point at a pod.
    A ready address that points at a pod the cache does not know is left out.
    Each endpoint carries the address, the port as uint32, the name of the
    port, the network the address resolves to, the name and namespace of the
    Endpoints object, and the labels, locality and identity of the pod when
    there is one. *)
Theorem eds_endpoints_membership
    (c : Controller) (ep : Endpoints.t) (event : Event)
    (cluster hostname ns : string) (eps : list IstioEndpoint.t) :
  event ≠ EventDelete →
  EDSUpdate cluster hostname ns eps ∈ trace (updateEDS c ep event) →
  ∀ e, e ∈ eps ↔
    ∃ ss ea port,
      ss ∈ elems (Endpoints.Subsets ep)
      ∧ ea ∈ elems (EndpointSubset.Addresses ss)
      ∧ port ∈ elems (EndpointSubset.Ports ss)
      ∧ admittedByEDS c ea
      ∧ e = {| IstioEndpoint.Address := EndpointAddress.IP ea;
               IstioEndpoint.EndpointPort := EndpointPort.Port port mod 2 ^ 32;
               IstioEndpoint.ServicePortName := EndpointPort.Name port;
               IstioEndpoint.Labels := podLabelsAt c (EndpointAddress.IP ea);
               IstioEndpoint.UID :=
                 match getPodByIP (pods c) (EndpointAddress.IP ea) with
                 | Some p => if mixerEnabled c then podUID p else ""
                 | None => ""
                 end;
               IstioEndpoint.ServiceAccount :=
                 match getPodByIP (pods c) (EndpointAddress.IP ea) with
                 | Some p => SecureNamingSAN p
                 | None => ""
                 end;
               IstioEndpoint.Network := value (endpointNetwork c (EndpointAddress.IP ea));
               IstioEndpoint.Locality :=
                 match getPodByIP (pods c) (EndpointAddress.IP ea) with
                 | Some p => value (GetPodLocality c p)
                 | None => ""
                 end;
               IstioEndpoint.Attributes :=
                 {| ServiceAttributes.Name := Endpoints.Name ep;
                    ServiceAttributes.Namespace := Endpoints.Namespace ep;
                    ServiceAttributes.UID := "" |};
               IstioEndpoint.TLSMode :=
                 PodTLSMode (getPodByIP (pods c) (EndpointAddress.IP ea)) |}.
Proof.
  intros Hev Hin.
  destruct (updateEDS_trace c ep event) as (build & format & args & Htr & Hquiet & _ & Hmem).
  rewrite Htr in Hin. apply elem_of_app in Hin as [Hin|Hin].
  { destruct (filter_no_push _ Hquiet) as (_ & _ & Hno). by destruct (Hno _ _ _ _ Hin). }
  apply elem_of_cons in Hin as [?|Hin]; [done|].
  apply list_elem_of_singleton in Hin. injection Hin as -> -> -> ->.
  by apply Hmem.
Qed.

Lemma instanceHandler_carried (c : Controller) (o : obj) (ep : Endpoints.t) (event : Event) :
  carriedEndpoints o = Some ep → instanceHandler c o event = handleEndpoints c ep event.
Proof.
  destruct o as [| | | | |key inner]; simpl; try done.
  - by intros [= ->].
  - destruct inner; simpl; try done. by intros [= ->].
Qed.

Lemma instanceHandler_not_carried (c : Controller) (o : obj) (event : Event) :
  carriedEndpoints o = None →
  ∃ format args, instanceHandler c o event = (None, [Log Error format args]).
Proof.
  destruct o as [| | | | |key inner]; simpl; try (intros _; by eexists _, _).
  - done.
  - destruct inner; simpl; try done; intros _; by eexists _, _.
Qed.

(** X22.  The Endpoints handler never returns an error, and an event that
    carries an Endpoints object leads to exactly one call of the updater.  When
    headless services are enabled and the Service of the Endpoints object is
    headless, that call is a full push for the namespace, and nothing else
    happens: no pod is looked up and EDSUpdate is not called.  In every other
    case it is one EDSUpdate and no full push.  An object that carries no
    Endpoints object leads to no call at all. *)
Theorem endpoints_event_one_push (c : Controller) (o : obj) (event : Event) :
  let t := trace (instanceHandler c o event) in
  value (instanceHandler c o event) = None
  ∧ (carriedEndpoints o = None →
       List.filter isEDSUpdate t = [] ∧ List.filter isConfigUpdate t = [])
  ∧ (∀ ep, carriedEndpoints o = Some ep →
       (headlessPush c ep →
          ∃ format args,
            t = [Log Debug format args;
                 ServicesGetByKey (KeyFunc (Endpoints.Name ep) (Endpoints.Namespace ep));
                 ConfigUpdateFull (Endpoints.Namespace ep)])
       ∧ (¬ headlessPush c ep →
            List.filter isConfigUpdate t = []
            ∧ ∃ eps, List.filter isEDSUpdate t
                     = [EDSUpdate (ClusterID c)
                          (ServiceHostname (Endpoints.Name ep) (Endpoints.Namespace ep)
                             (domainSuffix c))
                          (Endpoints.Namespace ep) eps])).
Proof.
  intros t. subst t. destruct (carriedEndpoints o) as [ep|] eqn:Hep.
  2:{ destruct (instanceHandler_not_carried c o event Hep) as (format & args & ->).
      split_and!; [done|done|done]. }
  rewrite (instanceHandler_carried c o ep event Hep).
  assert (Hplain : ∀ before,
            List.filter isEDSUpdate before = [] → List.filter isConfigUpdate before = [] →
            value (updateEDS c ep event;; mret (@None error)) = None
            ∧ List.filter isConfigUpdate (before ++ trace (updateEDS c ep event;; mret (@None error))) = []
            ∧ ∃ eps, List.filter isEDSUpdate (before ++ trace (updateEDS c ep event;; mret (@None error)))
                     = [EDSUpdate (ClusterID c)
                          (ServiceHostname (Endpoints.Name ep) (Endpoints.Namespace ep)
                             (domainSuffix c))
                          (Endpoints.Namespace ep) eps]).
  { intros before Hb1 Hb2. rewrite value_bind, trace_bind, app_nil_r, !List.filter_app, Hb1, Hb2.
    destruct (updateEDS_pushes c ep event) as (-> & eps & -> & _). split_and!; [done..|].
    by exists eps. }
  unfold handleEndpoints, headlessPush. cbv zeta.
  rewrite value_bind, trace_bind.
  destruct EnableHeadlessService eqn:Hflag.
  - rewrite value_bind, trace_bind.
    destruct (GetByKey (svcStore (services c)) _) as [svc| |err] eqn:Hget.
    + destruct (String.eqb_spec (ServiceSpec.ClusterIP (v1Service.Spec svc)) "None")
        as [Hip|Hip].
      * split_and!; [done|done|]. intros ? [= <-]. split; [intros _; by eexists _, _|].
        intros []. split; [done|]. by exists svc.
      * destruct (Hplain (trace (emit (Log Debug "Handle event %s for endpoint %s in namespace %s"
                                         [AStr (eventString event); AStr (Endpoints.Name ep);
                                          AStr (Endpoints.Namespace ep)]))
                          ++ trace (emit (ServicesGetByKey
                                            (KeyFunc (Endpoints.Name ep) (Endpoints.Namespace ep)))))
                         eq_refl eq_refl) as (Hv & Hc & He).
        rewrite <- !app_assoc in Hc, He.
        split_and!; [done|done|]. intros ? [= <-]. split.
        -- intros (_ & svc' & Heq & HNone). congruence.
        -- intros _. by split.
    + destruct (Hplain (trace (emit (Log Debug "Handle event %s for endpoint %s in namespace %s"
                                       [AStr (eventString event); AStr (Endpoints.Name ep);
                                        AStr (Endpoints.Namespace ep)]))
                        ++ trace (emit (ServicesGetByKey
                                          (KeyFunc (Endpoints.Name ep) (Endpoints.Namespace ep)))))
                       eq_refl eq_refl) as (Hv & Hc & He).
      rewrite <- !app_assoc in Hc, He.
      split_and!; [done|done|]. intros ? [= <-]. split.
      * intros (_ & svc' & Heq & _). congruence.
      * intros _. by split.
    + destruct (Hplain (trace (emit (Log Debug "Handle event %s for endpoint %s in namespace %s"
                                       [AStr (eventString event); AStr (Endpoints.Name ep);
                                        AStr (Endpoints.Namespace ep)]))
                        ++ trace (emit (ServicesGetByKey
                                          (KeyFunc (Endpoints.Name ep) (Endpoints.Namespace ep)))))
                       eq_refl eq_refl) as (Hv & Hc & He).
      rewrite <- !app_assoc in Hc, He.
      split_and!; [done|done|]. intros ? [= <-]. split.
      * intros (_ & svc' & Heq & _). congruence.
      * intros _. by split.
  - destruct (Hplain (trace (emit (Log Debug "Handle event %s for endpoint %s in namespace %s"
                                     [AStr (eventString event); AStr (Endpoints.Name ep);
                                      AStr (Endpoints.Namespace ep)])))
                     eq_refl eq_refl) as (Hv & Hc & He).
    split_and!; [done|done|]. intros ? [= <-]. split.
    + intros (Hon & _). unfold EnableHeadlessService in *. congruence.
    + intros _. by split.
Qed.

End FurtherProperties.

(** * Properties of the network lookup *)

Section NetworkLookupProperties.
Context `{Deps} `{RangerLib}.

Lemma default_last_app {A} (d : A) (l1 l2 : list A) :
  default d (last (l1 ++ l2)) = default (default d (last l1)) (last l2).
Proof. rewrite last_app. by destruct (last l2). Qed.

Lemma initEndpoint_run (clusterID n : string) (ep : NetworkEndpoints.t) (st : Ranger * string) :
  initEndpoint clusterID n ep st
  = ((foldl (fun r e => Insert e r) st.1 (endpointEntry n ep),
      default st.2 (last (endpointRegistry clusterID n ep))),
     (fun nc => Log Warn "unable to parse CIDR %q for network %s" [AStr nc.2; AStr nc.1])
       <$> badCidrs [(n, {| MeshNetwork.Endpoints_ := [ep] |})]).
Proof.
  destruct st as [r net].
  unfold initEndpoint, endpointEntry, endpointRegistry, badCidrs.
  destruct ep as [cidr|registry|]; simpl.
  - destruct (String.eqb_spec cidr "") as [->|Hcidr]; simpl; [done|].
    by destruct (ParseCIDR cidr).
  - by destruct (negb (registry =? "") && (registry =? clusterID))%string.
  - done.
Qed.

Lemma initEndpoints_run (clusterID n : string) (eps : list NetworkEndpoints.t)
    (st : Ranger * string) :
  initEndpoints clusterID n eps st
  = ((foldl (fun r e => Insert e r) st.1 (eps ≫= endpointEntry n),
      default st.2 (last (eps ≫= endpointRegistry clusterID n))),
     (fun nc => Log Warn "unable to parse CIDR %q for network %s" [AStr nc.2; AStr nc.1])
       <$> badCidrs [(n, {| MeshNetwork.Endpoints_ := eps |})]).
Proof.
  revert st. induction eps as [|ep eps IH]; intros st; [by destruct st|].
  cbn [initEndpoints]. rewrite initEndpoint_run.
  unfold mbind at 1, W_bind. rewrite IH. cbn [fst snd].
  rewrite !bind_cons, foldl_app, default_last_app.
  f_equal. unfold badCidrs. simpl. by rewrite !app_nil_r, fmap_app.
Qed.

Lemma initNetworks_run (clusterID : string) (networks : list (string * MeshNetwork.t))
    (st : Ranger * string) :
  initNetworks clusterID networks st
  = ((foldl (fun r e => Insert e r) st.1 (cidrEntries networks),
      default st.2 (last (registryNetworks clusterID networks))),
     (fun nc => Log Warn "unable to parse CIDR %q for network %s" [AStr nc.2; AStr nc.1])
       <$> badCidrs networks).
Proof.
  revert st. induction networks as [|[n v] networks IH]; intros st; [by destruct st|].
  cbn [initNetworks]. rewrite initEndpoints_run.
  unfold mbind at 1, W_bind. rewrite IH. cbn [fst snd].
  unfold cidrEntries, registryNetworks, badCidrs.
  rewrite !bind_cons, foldl_app, default_last_app, fmap_app.
  f_equal. simpl. by rewrite ?app_nil_r, ?fmap_app.
Qed.

Lemma InitNetworkLookup_fields (networks : list (string * MeshNetwork.t)) (c : Controller) :
  networks ≠ [] →
  ranger (value (InitNetworkLookup (Some networks) c))
  = Some (foldl (fun r e => Insert e r) NewPCTrieRanger (cidrEntries networks))
  ∧ networkForRegistry (value (InitNetworkLookup (Some networks) c))
    = default (networkForRegistry c) (last (registryNetworks (ClusterID c) networks)).
Proof.
  intros Hne. unfold InitNetworkLookup.
  rewrite bool_decide_eq_false_2 by (by destruct networks).
  rewrite initNetworks_run. unfold mbind, W_bind. by simpl.
Qed.

(** X23.  [InitNetworkLookup] with no configuration, or with one without
    networks, does nothing: the ranger and the registry network stay as they
    were.  With networks it replaces the ranger by a fresh one into which the
    CIDRs that parse are inserted in visiting order (one that does not parse
    costs a warning and nothing else), sets the registry network to the last
    visited network that names this registry and, when none does, leaves the
    registry network of before in place; nothing else in the controller
    changes. *)
Theorem init_network_lookup_result
    (networks : list (string * MeshNetwork.t)) (c : Controller) :
  InitNetworkLookup None c = (c, [])
  ∧ InitNetworkLookup (Some []) c = (c, [])
  ∧ (networks ≠ [] →
       let c' := value (InitNetworkLookup (Some networks) c) in
       ranger c' = Some (foldl (fun r e => Insert e r) NewPCTrieRanger (cidrEntries networks))
       ∧ networkForRegistry c'
         = default (networkForRegistry c) (last (registryNetworks (ClusterID c) networks))
       ∧ trace (InitNetworkLookup (Some networks) c)
         = (fun nc => Log Warn "unable to parse CIDR %q for network %s" [AStr nc.2; AStr nc.1])
             <$> badCidrs networks
       ∧ servicesMap c' = servicesMap c
       ∧ externalNameSvcInstanceMap c' = externalNameSvcInstanceMap c
       ∧ queue c' = queue c ∧ ClusterID c' = ClusterID c ∧ domainSuffix c' = domainSuffix c).
Proof.
  split_and!; [done..|]. intros Hne. unfold InitNetworkLookup.
  rewrite bool_decide_eq_false_2 by (by destruct networks).
  rewrite initNetworks_run. unfold mbind, W_bind. simpl.
  by rewrite app_nil_r.
Qed.

(** X24.  Loading the mesh networks and resolving a network fit together.
    After [InitNetworkLookup] with some networks: when a network names this
    registry, every address resolves to the last visited such network and the
    ranger is never asked; when none does, an override set before the load is
    still in force; and when none does and there was no override, every
    address is resolved by asking the freshly filled ranger. *)
Theorem network_lookup_after_init
    (networks : list (string * MeshNetwork.t)) (c : Controller) (ip : string) :
  networks ≠ [] →
  let c' := value (InitNetworkLookup (Some networks) c) in
  (∀ n, last (registryNetworks (ClusterID c) networks) = Some n → n ≠ "" →
        endpointNetwork c' ip = (n, []))
  ∧ (registryNetworks (ClusterID c) networks = [] → networkForRegistry c ≠ "" →
       endpointNetwork c' ip = (networkForRegistry c, []))
  ∧ (registryNetworks (ClusterID c) networks = [] → networkForRegistry c = "" →
       ∃ rest, trace (endpointNetwork c' ip) = RangerContainingNetworks ip :: rest
         ∧ value (endpointNetwork c' ip)
           = match ContainingNetworks
                     (foldl (fun r e => Insert e r) NewPCTrieRanger (cidrEntries networks))
                     (ParseIP ip) with
             | Ok (first :: _) => name first
             | _ => ""
             end).
Proof.
  intros Hne c'.
  destruct (InitNetworkLookup_fields networks c Hne) as (Hr & Hnet). fold c' in Hr, Hnet.
  split_and!.
  - intros n Hlast Hn. rewrite Hlast in Hnet. simpl in Hnet.
    rewrite <- Hnet. apply endpointNetwork_override. by rewrite Hnet.
  - intros Hnone Hset. rewrite Hnone in Hnet. simpl in Hnet.
    rewrite <- Hnet. apply endpointNetwork_override. by rewrite Hnet.
  - intros Hnone Hunset. rewrite Hnone in Hnet. simpl in Hnet. rewrite Hunset in Hnet.
    rewrite (endpointNetwork_lookup c' ip Hnet), Hr.
    destruct (ContainingNetworks _ _) as [[|e [|e' rest]]|err]; by eexists.
Qed.

End NetworkLookupProperties.

(** * The sample registry, run *)

Import Sample.

(** Two versions of the Endpoints of "foo" that differ in resource version only. *)
Lemma endpoints_update_elided_witness :
  readyView (fooEndpoints "1") = readyView (fooEndpoints "2")
  ∧ fooEndpoints "1" ≠ fooEndpoints "2"
  ∧ value (EDS_UpdateFunc "Endpoints" (fooEndpoints "1") (fooEndpoints "2") (controller None ""))
    = controller None ""
  ∧ trace (EDS_UpdateFunc "Endpoints" (fooEndpoints "1") (fooEndpoints "2") (controller None ""))
    = [IncrementEvent "Endpoints" "updatesame"].
Proof.
  split; [reflexivity|]. split; [discriminate|].
  pose proof (endpoints_update_elided "Endpoints" (fooEndpoints "1") (fooEndpoints "2")
                (controller None "") eq_refl) as (Hv & Ht & _).
  exact (conj Hv Ht).
Defined.

(** Deleting "foo" through a tombstone, after the three services were added. *)
Lemma service_delete_removes_and_notifies_witness :
  carriedService (ObjTombstone "ns/foo" (ObjService fooService)) = Some fooService
  ∧ servicesMap (synced None "") !! "foo.ns.svc.cluster.local" = Some fooModel
  ∧ servicesMap (value (serviceHandler (ObjTombstone "ns/foo" (ObjService fooService))
                          EventDelete (synced None ""))).1
      !! "foo.ns.svc.cluster.local" = None
  ∧ List.filter isSvcUpdate
      (trace (serviceHandler (ObjTombstone "ns/foo" (ObjService fooService))
                EventDelete (synced None "")))
    = [SvcUpdate "c1" "foo" "ns" EventDelete].
Proof.
  split; [reflexivity|]. split; [reflexivity|].
  pose proof (service_delete_removes_and_notifies
                (ObjTombstone "ns/foo" (ObjService fooService)) fooService (synced None "")
                eq_refl) as (_ & _ & Hgone & _ & _ & Hupd).
  exact (conj Hgone Hupd).
Defined.

(** Add, update, then delete "foo". *)
Lemma service_map_last_event_wins_witness :
  Forall (serviceEventFor "foo.ns.svc.cluster.local" "cluster.local" "c1")
    ([(ObjService fooService, EventAdd); (ObjService fooService, EventUpdate)]
       ++ [(ObjTombstone "ns/foo" (ObjService fooService), EventDelete)])
  ∧ servicesMap (value (runServiceEvents
                          ([(ObjService fooService, EventAdd); (ObjService fooService, EventUpdate)]
                             ++ [(ObjTombstone "ns/foo" (ObjService fooService), EventDelete)])
                          (controller None "")))
    = servicesMap (value (runServiceEvents
                            [(ObjTombstone "ns/foo" (ObjService fooService), EventDelete)]
                            (controller None ""))).
Proof.
  assert (Hall : Forall (serviceEventFor "foo.ns.svc.cluster.local" "cluster.local" "c1")
                   ([(ObjService fooService, EventAdd); (ObjService fooService, EventUpdate)]
                      ++ [(ObjTombstone "ns/foo" (ObjService fooService), EventDelete)])).
  { repeat constructor. }
  split; [exact Hall|].
  exact (proj1 (proj2 (service_map_last_event_wins "foo.ns.svc.cluster.local"
                         [(ObjService fooService, EventAdd); (ObjService fooService, EventUpdate)]
                         (ObjTombstone "ns/foo" (ObjService fooService), EventDelete)
                         (controller None "") Hall))).
Defined.

(** The four outcomes of network resolution for 10.0.0.5 / 10.0.1.5 / 10.1.1.5
    against 10.0.0.0/24 (netA) and 10.0.0.0/16 (netB). *)
Lemma endpoint_network_resolution_witness :
  endpointNetwork (controller (Some (rangerOf [netA; netB])) "net1") "10.0.0.5" = ("net1", [])
  ∧ endpointNetwork (controller (Some (rangerOf [netA; netB])) "") "10.1.1.5"
    = ("", [RangerContainingNetworks "10.1.1.5"])
  ∧ endpointNetwork (controller (Some (rangerOf [netA; netB])) "") "10.0.1.5"
    = ("netB", [RangerContainingNetworks "10.0.1.5"])
  ∧ endpointNetwork (controller (Some (rangerOf [netA; netB])) "") "10.0.0.5"
    = ("netA",
       [RangerContainingNetworks "10.0.0.5";
        Log Warn "Found multiple networks CIDRs matching the endpoint IP: %s. Using the first match."
          [AStr "10.0.0.5"]]).
Proof.
  split_and!.
  - apply (proj1 (proj2 (endpoint_network_resolution
                           (controller (Some (rangerOf [netA; netB])) "net1") "10.0.0.5"))).
    discriminate.
  - apply (proj1 (proj2 (proj2 (proj2 (endpoint_network_resolution
                                         (controller (Some (rangerOf [netA; netB])) "") "10.1.1.5"))
                                 eq_refl) (rangerOf [netA; netB]) eq_refl)).
    reflexivity.
  - apply (proj1 (proj2 (proj2 (proj2 (proj2 (endpoint_network_resolution
                                                (controller (Some (rangerOf [netA; netB])) "") "10.0.1.5"))
                                        eq_refl) (rangerOf [netA; netB]) eq_refl)) netB).
    reflexivity.
  - apply (proj2 (proj2 (proj2 (proj2 (proj2 (endpoint_network_resolution
                                                (controller (Some (rangerOf [netA; netB])) "") "10.0.0.5"))
                                        eq_refl) (rangerOf [netA; netB]) eq_refl)) netA netB []).
    reflexivity.
Defined.

(** "ext" is an ExternalName service: its instances come from the map. *)
Lemma external_name_instances_returned_witness :
  (∃ stored, externalNameSvcInstanceMap (synced None "") !! Service.Hostname extModel = Some stored)
  ∧ ∃ out, value (InstancesByPort (synced None "") extModel 80 []) = (Some out, None)
           ∧ length out = 1%nat
           ∧ trace (InstancesByPort (synced None "") extModel 80 []) = [].
Proof.
  assert (Hstored : externalNameSvcInstanceMap (synced None "") !! Service.Hostname extModel
                    = Some (elems (externalNameInstances extService extModel))) by reflexivity.
  split; [eexists; exact Hstored|].
  destruct (external_name_instances_returned (synced None "") extModel 80 []
              (elems (externalNameInstances extService extModel)) Hstored)
    as (out & Hval & _ & _ & Htr).
  exists out. split_and!; [exact Hval| |exact Htr].
  assert (Hout : Some out = (value (InstancesByPort (synced None "") extModel 80 [])).1)
    by (by rewrite Hval).
  by injection Hout as ->.
Defined.

(** The pod at 10.1.2.3 is on the registry's network "net1"; the proxy says
    "net2". *)
Lemma proxy_on_other_network_gets_nothing_witness :
  Proxy.IPAddresses (proxyAt "10.1.2.3" "net2" []) = ["10.1.2.3"]
  ∧ getPodByIP (pods (synced None "net1")) "10.1.2.3" = Some fooPod
  ∧ NodeMetadata.Network (Proxy.Metadata (proxyAt "10.1.2.3" "net2" []))
    ≠ value (endpointNetwork (synced None "net1") "10.1.2.3")
  ∧ GetProxyServiceInstances (synced None "net1") (proxyAt "10.1.2.3" "net2" [])
    = ((Some [], None), [PodsGetByIP "10.1.2.3"]).
Proof.
  assert (Hnet : NodeMetadata.Network (Proxy.Metadata (proxyAt "10.1.2.3" "net2" []))
                 ≠ value (endpointNetwork (synced None "net1") "10.1.2.3")) by discriminate.
  split_and!; [reflexivity|reflexivity|exact Hnet|].
  destruct (proxy_on_other_network_gets_nothing (synced None "net1")
              (proxyAt "10.1.2.3" "net2" []) "10.1.2.3" [] fooPod eq_refl eq_refl Hnet)
    as (Hval & Htr & _).
  rewrite (W_eta (GetProxyServiceInstances _ _)), Hval, Htr. reflexivity.
Defined.

(** C7, with the restriction to single-port services, does not hold: "multi"
    defines two ports, its Endpoints object has a single port without a name,
    and asking for service port 80 still yields the instance built from the
    unnamed port. *)
Lemma unnamed_port_matches_multiport_service :
  length (Service.Ports multiModel) = 2%nat
  ∧ (EndpointPort.Name <$> mjoin ((fun ss => elems (EndpointSubset.Ports ss))
                                    <$> elems (Endpoints.Subsets multiEndpoints))) = [""]
  ∧ ∃ i, value (InstancesByPort (synced None "") multiModel 80 []) = (Some [i], None)
         ∧ NetworkEndpoint.Address (ServiceInstance.Endpoint i) = "10.1.2.4"
         ∧ NetworkEndpoint.Port (ServiceInstance.Endpoint i) = 9000
         ∧ Port.Name (NetworkEndpoint.ServicePort (ServiceInstance.Endpoint i)) = "http".
Proof.
  split; [reflexivity|]. split; [reflexivity|].
  eexists. split; [reflexivity|]. by split_and!.
Qed.

Lemma instances_by_port_name_match_witness :
  externalNameSvcInstanceMap (synced None "") !! Service.Hostname multiModel = None
  ∧ GetByKey (endpoints (synced None "")) "ns/multi" = Found multiEndpoints
  ∧ PortList_GetByPort (Service.Ports multiModel) 81
    = Some {| Port.Name := "grpc"; Port.Port := 81; Port.Protocol := "TCP" |}
  ∧ ∃ i, i ∈ elems (value (InstancesByPort (synced None "") multiModel 81 [])).1
         ∧ NetworkEndpoint.Address (ServiceInstance.Endpoint i) = "10.1.2.4"
         ∧ NetworkEndpoint.Port (ServiceInstance.Endpoint i) = 9000.
Proof.
  assert (Hext : externalNameSvcInstanceMap (synced None "") !! Service.Hostname multiModel = None)
    by reflexivity.
  assert (Hep : GetByKey (endpoints (synced None ""))
                  (KeyFunc (ServiceAttributes.Name (Service.Attributes multiModel))
                           (ServiceAttributes.Namespace (Service.Attributes multiModel)))
                = Found multiEndpoints) by reflexivity.
  assert (Hport : PortList_GetByPort (Service.Ports multiModel) 81
                  = Some {| Port.Name := "grpc"; Port.Port := 81; Port.Protocol := "TCP" |})
    by reflexivity.
  split_and!; [exact Hext|exact Hep|exact Hport|].
  destruct (proj1 (instances_by_port_name_match (synced None "") multiModel 81 [] multiEndpoints
                     {| Port.Name := "grpc"; Port.Port := 81; Port.Protocol := "TCP" |}
                     Hext Hep Hport)
              {| EndpointSubset.Addresses := Some [address "10.1.2.4"];
                 EndpointSubset.NotReadyAddresses := None;
                 EndpointSubset.Ports := Some [ {| EndpointPort.Name := ""; EndpointPort.Port := 9000;
                                                   EndpointPort.Protocol := "TCP" |} ] |}
              (address "10.1.2.4")
              {| EndpointPort.Name := ""; EndpointPort.Port := 9000; EndpointPort.Protocol := "TCP" |})
    as (i & Hi & Ha & Hp & _).
  - apply list_elem_of_singleton. reflexivity.
  - apply list_elem_of_singleton. reflexivity.
  - apply list_elem_of_singleton. reflexivity.
  - reflexivity.
  - left. reflexivity.
  - exists i. split_and!; [exact Hi|exact Ha|exact Hp].
Defined.

(** A proxy at an address without a cached pod and without workload labels:
    step 2 misses and the Endpoints store is scanned. *)
Lemma metadata_miss_falls_through_witness :
  reachesMetadata (synced None "") (proxyAt "10.1.2.7" "" []) ""
  ∧ metadataFailure (synced None "") (proxyAt "10.1.2.7" "" [])
  ∧ (value (GetProxyServiceInstances (synced None "") (proxyAt "10.1.2.7" "" []))).2 = None
  ∧ EndpointsList ∈ trace (GetProxyServiceInstances (synced None "") (proxyAt "10.1.2.7" "" [])).
Proof.
  assert (Hreach : reachesMetadata (synced None "") (proxyAt "10.1.2.7" "" []) "").
  { exists "10.1.2.7", []. split; [reflexivity|]. left. split; reflexivity. }
  assert (Hfail : metadataFailure (synced None "") (proxyAt "10.1.2.7" "" [])).
  { apply EmptyWorkloadLabels. reflexivity. }
  split_and!; [exact Hreach|exact Hfail|..];
    destruct (metadata_miss_falls_through (synced None "") (proxyAt "10.1.2.7" "" []) "" Hreach)
      as (Herr & Hfall);
    destruct (Hfall (Herr Hfail)) as (Hnil & _ & Hlist); [exact Hnil|exact Hlist].
Defined.

(** The pod's own label wins over node-a's labels; without the label the
    node decides. *)
Lemma pod_locality_witness :
  GetPodLocality (controller None "") pinnedPod = ("us-east/1a", [])
  ∧ value (GetPodLocality (controller None "") (barePod "node-z")) = ""
  ∧ value (GetPodLocality (controller None "") (barePod "node-b")) = ""
  ∧ value (GetPodLocality (controller None "") (barePod "node-a")) = "us-west/2b".
Proof.
  split_and!.
  - apply (proj1 (pod_locality (controller None "") pinnedPod)). discriminate.
  - apply (proj1 (proj2 (pod_locality (controller None "") (barePod "node-z")) eq_refl)).
    reflexivity.
  - apply (proj1 (proj2 (proj2 (proj2 (pod_locality (controller None "") (barePod "node-b")) eq_refl))
                    nodeB eq_refl)).
    by split_and!.
  - apply (proj1 (proj2 (proj2 (proj2 (proj2 (pod_locality (controller None "") (barePod "node-a"))
                                         eq_refl)) nodeA eq_refl))).
    intros (Hregion & _). discriminate Hregion.
Defined.

Lemma services_sorted_get_service_miss_witness :
  servicesMap (synced None "") !! "nope.ns.svc.cluster.local" = None
  ∧ GetService (synced None "") "nope.ns.svc.cluster.local" = (None, None)
  ∧ (Service.Hostname <$> elems (Services (synced None "")).1)
    = ["ext.ns.svc.cluster.local"; "foo.ns.svc.cluster.local"; "multi.ns.svc.cluster.local"].
Proof.
  split; [reflexivity|]. split.
  - apply (proj2 (services_sorted_get_service_miss (synced None ""))). reflexivity.
  - reflexivity.
Defined.

(** * More of the sample registry, run *)

Import Sample2.

(** The Endpoints of "foo" gain a ready address. *)
Lemma endpoints_update_queued_witness :
  readyView (fooEndpoints "1") ≠ readyView fooEndpointsAhead
  ∧ EDS_UpdateFunc "Endpoints" (fooEndpoints "1") fooEndpointsAhead (controller None "")
    = (Push {| Handler := "Endpoints"; Obj := ObjEndpoints fooEndpointsAhead;
               TaskEvent := EventUpdate |} (controller None ""),
       [IncrementEvent "Endpoints" "update"]).
Proof.
  assert (Hne : readyView (fooEndpoints "1") ≠ readyView fooEndpointsAhead) by discriminate.
  split; [exact Hne|].
  exact (proj1 (endpoints_update_queued "Endpoints" (fooEndpoints "1") fooEndpointsAhead
                  (controller None "")) Hne).
Defined.

(** An Endpoints object handed to the service handler. *)
Lemma service_handler_frame_witness :
  carriedService (ObjEndpoints (fooEndpoints "1")) = None
  ∧ (value (serviceHandler (ObjEndpoints (fooEndpoints "1")) EventAdd (synced None ""))).1
    = synced None "".
Proof.
  split; [reflexivity|].
  pose proof (service_handler_frame (ObjEndpoints (fooEndpoints "1")) EventAdd (synced None ""))
    as Hframe.
  cbv zeta in Hframe.
  destruct Hframe as (_ & _ & _ & _ & _ & _ & _ & _ & _ & _ & _ & Hnone).
  exact (proj1 (Hnone eq_refl)).
Defined.

(** An update event for "foo" on the empty registry. *)
Lemma service_upsert_round_trip_witness :
  carriedService (ObjService fooService) = Some fooService
  ∧ EventUpdate ≠ EventDelete
  ∧ GetService (value (serviceHandler (ObjService fooService) EventUpdate (controller None ""))).1
      "foo.ns.svc.cluster.local"
    = (Some fooModel, None).
Proof.
  assert (Hev : EventUpdate ≠ EventDelete) by discriminate.
  split; [reflexivity|]. split; [exact Hev|].
  exact (proj1 (service_upsert_round_trip (ObjService fooService) fooService EventUpdate
                  (controller None "") eq_refl Hev)).
Defined.

(** The three adds that make the synced registry. *)
Lemma service_map_keyed_by_hostname_witness :
  servicesMap (controller None "") = ∅
  ∧ keyedByHostname (synced None "").
Proof.
  destruct (service_map_keyed_by_hostname
              [(ObjService fooService, EventAdd); (ObjService multiService, EventAdd);
               (ObjService extService, EventAdd)] (controller None "")) as (Hempty & Hkeeps).
  split; [reflexivity|]. exact (Hkeeps (Hempty eq_refl)).
Defined.

(** The synced registry lists "ext", "foo", "multi". *)
Lemma services_strictly_sorted_witness :
  keyedByHostname (synced None "")
  ∧ NoDup (Service.Hostname <$> elems (Services (synced None "")).1)
  ∧ GetService (synced None "") (Service.Hostname multiModel) = (Some multiModel, None).
Proof.
  assert (Hkeyed : keyedByHostname (synced None "")).
  { unfold keyedByHostname. apply map_Forall_to_list.
    remember (map_to_list (servicesMap (synced None ""))) as entries eqn:Hentries.
    vm_compute in Hentries. subst entries. repeat constructor. }
  split; [exact Hkeyed|].
  pose proof (services_strictly_sorted (synced None "") Hkeyed) as Hsorted.
  cbv zeta in Hsorted. destruct Hsorted as (_ & Hnodup & Hget).
  split; [exact Hnodup|].
  apply Hget.
  remember (elems (Services (synced None "")).1) as out eqn:Hout.
  vm_compute in Hout. subst out.
  apply elem_of_cons; right. apply elem_of_cons; right. apply elem_of_cons; left. reflexivity.
Defined.

(** "ext" is added; a query for it reads no store. *)
Lemma external_name_instances_follow_service_witness :
  carriedService (ObjService extService) = Some extService
  ∧ trace (InstancesByPort
             (value (serviceHandler (ObjService extService) EventAdd (controller None ""))).1
             extModel 80 [])
    = [].
Proof.
  split; [reflexivity|].
  assert (Hadd : EventAdd ≠ EventDelete) by discriminate.
  assert (Hext : ExternalNameServiceInstances extService
                   (ConvertService extService (domainSuffix (controller None ""))
                      (ClusterID (controller None "")))
                 = Some (elems (externalNameInstances extService extModel))) by reflexivity.
  pose proof (proj1 (external_name_instances_follow_service (ObjService extService) extService
                       EventAdd (controller None "") 80 [] eq_refl)
                _ Hadd Hext) as Hrun.
  exact (f_equal snd Hrun).
Defined.

(** The headless Service has no Endpoints object in the small registry. *)
Lemma instances_by_port_never_fails_witness :
  externalNameSvcInstanceMap (synced None "") !! Service.Hostname headlessModel = None
  ∧ GetByKey (endpoints (synced None "")) "ns/hl" = Missing
  ∧ InstancesByPort (synced None "") headlessModel 7000 []
    = ((None, None), [EndpointsGetByKey "ns/hl"]).
Proof.
  assert (Hnone : externalNameSvcInstanceMap (synced None "") !! Service.Hostname headlessModel
                  = None) by reflexivity.
  split; [exact Hnone|]. split; [reflexivity|].
  pose proof (instances_by_port_never_fails (synced None "") headlessModel 7000 []) as Hrun.
  cbv zeta in Hrun. destruct Hrun as (_ & Hpath).
  exact (proj1 (Hpath Hnone) eq_refl).
Defined.

(** The one instance of "foo" on port 8080, built from the pod at 10.1.2.3. *)
Lemma instances_by_port_instance_shape_witness :
  externalNameSvcInstanceMap (synced None "net1") !! Service.Hostname fooModel = None
  ∧ ∃ i, elems (value (InstancesByPort (synced None "net1") fooModel 8080 [])).1 = [i]
         ∧ ServiceInstance.Service i = fooModel
         ∧ NetworkEndpoint.Network (ServiceInstance.Endpoint i) = "net1"
         ∧ ServiceInstance.TLSMode i = "istio"
         ∧ NetworkEndpoint.UID (ServiceInstance.Endpoint i) = "".
Proof.
  assert (Hnone : externalNameSvcInstanceMap (synced None "net1") !! Service.Hostname fooModel
                  = None) by reflexivity.
  split; [exact Hnone|].
  eassert (Hout : elems (value (InstancesByPort (synced None "net1") fooModel 8080 [])).1 = [_])
    by reflexivity.
  match type of Hout with
  | _ = [?i] =>
      assert (Hin : i ∈ elems (value (InstancesByPort (synced None "net1") fooModel 8080 [])).1)
        by (rewrite Hout; by apply list_elem_of_singleton);
      pose proof (instances_by_port_instance_shape (synced None "net1") fooModel 8080 [] i
                    Hnone Hin) as Hshape
  end.
  eexists. split; [exact Hout|].
  cbv zeta in Hshape. destruct Hshape as (Hsvc & Hnet & _ & Htls & Hpod).
  split; [exact Hsvc|]. split; [exact Hnet|]. split; [exact Htls|].
  exact (proj2 (proj2 Hpod)).
Defined.

(** The name "http" is borne by a UDP port of the first container and by the
    TCP port 8080 of the second. *)
Lemma find_port_resolution_witness :
  IntOrString.Type_ (ServicePort.TargetPort (namedPort "http" 80 "http")) = IntOrString.String
  ∧ FindPort webPod (namedPort "http" 80 "http") = Ok 8080
  ∧ (∃ i cp, containerPorts webPod !! i = Some cp
             ∧ ContainerPort.Name cp = "http" ∧ ContainerPort.Protocol cp = "TCP"
             ∧ ContainerPort.ContainerPort cp = 8080)
  ∧ FindPort webPod (namedPort "web" 80 "web") = Err (ErrNoSuitablePort (Pod.UID webPod)).
Proof.
  split; [reflexivity|]. split; [reflexivity|].
  pose proof (find_port_resolution webPod (namedPort "http" 80 "http")) as Hhttp.
  pose proof (find_port_resolution webPod (namedPort "web" 80 "web")) as Hweb.
  cbv zeta in Hhttp, Hweb.
  destruct Hhttp as [_ Hhttp]. destruct (Hhttp eq_refl) as [Hiff _].
  destruct Hweb as [_ Hweb]. destruct (Hweb eq_refl) as [_ Hnone].
  split.
  - destruct (proj1 (Hiff 8080) eq_refl) as (i & cp & Hlookup & [Hname Hproto] & Hport & _).
    exists i, cp. split; [exact Hlookup|]. split; [exact Hname|]. split; [exact Hproto|exact Hport].
  - apply Hnone. apply Forall_forall. repeat constructor; by intros [[=] _].
Defined.

(** Only one container port is named "admin", and it is a TCP port. *)
Lemma metadata_ports_agree_with_pod_witness :
  (∀ cp, cp ∈ containerPorts webPod →
         ContainerPort.Name cp
         = IntOrString.StrVal (ServicePort.TargetPort (namedPort "admin" 9901 "admin")) →
         ContainerPort.Protocol cp = ServicePort.Protocol (namedPort "admin" 9901 "admin"))
  ∧ FindPort webPod (namedPort "admin" 9901 "admin") = Ok 9901
  ∧ findPortFromMetadata (namedPort "admin" 9901 "admin") (podPortsOf webPod) = Ok 9901.
Proof.
  assert (Hproto : ∀ cp, cp ∈ containerPorts webPod →
            ContainerPort.Name cp
            = IntOrString.StrVal (ServicePort.TargetPort (namedPort "admin" 9901 "admin")) →
            ContainerPort.Protocol cp = ServicePort.Protocol (namedPort "admin" 9901 "admin")).
  { apply (Forall_forall (fun cp =>
             ContainerPort.Name cp = "admin" → ContainerPort.Protocol cp = "TCP")).
    repeat constructor; by intros [=]. }
  split; [exact Hproto|]. split; [reflexivity|].
  exact (proj2 (proj1 (metadata_ports_agree_with_pod webPod (namedPort "admin" 9901 "admin")
                         Hproto) 9901) eq_refl).
Defined.

(** A proxy without workload labels. *)
Lemma metadata_failure_complete_witness :
  Proxy.WorkloadLabels (proxyAt "10.1.2.7" "" []) = []
  ∧ is_err (value (getProxyServiceInstancesFromMetadata (synced None "")
                     (proxyAt "10.1.2.7" "" []))) = true.
Proof.
  split; [reflexivity|].
  apply (proj2 (metadata_failure_complete (synced None "") (proxyAt "10.1.2.7" "" []))).
  apply EmptyWorkloadLabels. reflexivity.
Defined.

(** A proxy at an address without cached pod, with the labels of "foo". *)
Lemma metadata_instances_shape_witness :
  ∃ out, value (getProxyServiceInstancesFromMetadata (synced None "")
                  (proxyAt "10.1.2.7" "" [{[ "app" := "foo" ]}])) = Ok out
         ∧ length out = 1%nat
         ∧ ∀ i, i ∈ out →
             NetworkEndpoint.Address (ServiceInstance.Endpoint i) = "10.1.2.7"
             ∧ ServiceInstance.ServiceAccount i = "default".
Proof.
  eassert (Hout : value (getProxyServiceInstancesFromMetadata (synced None "")
                           (proxyAt "10.1.2.7" "" [{[ "app" := "foo" ]}])) = Ok _)
    by reflexivity.
  eexists. split; [exact Hout|]. split; [reflexivity|].
  intros i Hi.
  destruct (metadata_instances_shape (synced None "") (proxyAt "10.1.2.7" "" [{[ "app" := "foo" ]}])
              _ Hout) as (svcs & _ & _ & _ & Hall).
  destruct (Hall i Hi) as (Haddr & _ & _ & _ & Hsa & _).
  split; [exact Haddr|exact Hsa].
Defined.

(** The proxy of the headless Endpoints, which no pod backs. *)
Lemma proxy_instances_never_fail_witness :
  ∃ out, value (GetProxyServiceInstances registry headlessProxy) = (Some out, None).
Proof. exact (proxy_instances_never_fail registry headlessProxy). Defined.

(** The scan of the store of the larger registry for the headless proxy. *)
Lemma headless_scan_same_namespace_first_witness :
  value (headlessScan registry headlessProxy "ns" (List_ (endpoints registry)) [] [])
  = mjoin ((fun ep => value (getProxyServiceInstancesByEndpoint registry ep headlessProxy))
             <$> filter (fun ep => Endpoints.Namespace ep = "ns") (List_ (endpoints registry)))
    ++ mjoin ((fun ep => value (getProxyServiceInstancesByEndpoint registry ep headlessProxy))
                <$> filter (fun ep => Endpoints.Namespace ep ≠ "ns") (List_ (endpoints registry))).
Proof.
  exact (headless_scan_same_namespace_first registry headlessProxy "ns" (List_ (endpoints registry))).
Defined.

(** A proxy without addresses and without workload labels. *)
Lemma no_service_reported_only_when_empty_witness :
  List.filter isNoServiceReport (trace (GetProxyServiceInstances registry emptyProxy))
  = [PushContextAdd ProxyStatusNoService "sidecar~none" ""]
  ∧ (value (GetProxyServiceInstances registry emptyProxy)).1 = Some []
  ∧ is_Some (Env registry).
Proof.
  assert (Hreport : List.filter isNoServiceReport
                      (trace (GetProxyServiceInstances registry emptyProxy))
                    = [PushContextAdd ProxyStatusNoService "sidecar~none" ""]) by reflexivity.
  split; [exact Hreport|].
  pose proof (no_service_reported_only_when_empty registry emptyProxy) as Honce.
  cbv zeta in Honce. apply (proj2 Honce). rewrite Hreport. discriminate.
Defined.

(** The proxy's second address is among the not-ready addresses of the
    headless Endpoints. *)
Lemma headless_endpoint_instances_witness :
  servicesMap registry !! "hl.ns.svc.cluster.local" = Some headlessModel
  ∧ hasProxyIP (EndpointSubset.Addresses headlessSubset) "10.1.3.2" = false
  ∧ hasProxyIP (EndpointSubset.NotReadyAddresses headlessSubset) "10.1.3.2" = true
  ∧ ∃ i, i ∈ value (getProxyServiceInstancesByEndpoint registry headlessEndpoints headlessProxy)
         ∧ NetworkEndpoint.Address (ServiceInstance.Endpoint i) = "10.1.3.2"
         ∧ NetworkEndpoint.Port (ServiceInstance.Endpoint i) = 7000
         ∧ NetworkEndpoint.ServicePort (ServiceInstance.Endpoint i)
           = convertPort (svcPort "tcp" 7000 7000).
Proof.
  assert (Hsvc : servicesMap registry
                   !! ServiceHostname (Endpoints.Name headlessEndpoints)
                        (Endpoints.Namespace headlessEndpoints) (domainSuffix registry)
                 = Some headlessModel) by reflexivity.
  split; [exact Hsvc|]. split; [reflexivity|]. split; [reflexivity|].
  pose proof (headless_endpoint_instances registry headlessEndpoints headlessProxy) as Hep.
  cbv zeta in Hep. destruct Hep as [_ Hep]. destruct (Hep headlessModel Hsvc) as [_ Hall].
  apply (Hall headlessSubset tcpPort (convertPort (svcPort "tcp" 7000 7000)) "10.1.3.2").
  - by apply list_elem_of_singleton.
  - by apply list_elem_of_singleton.
  - reflexivity.
  - apply elem_of_cons; right. by apply list_elem_of_singleton.
  - right. reflexivity.
Defined.

(** The pod of "foo" and the Service that selects it. *)
Lemma pod_path_instances_witness :
  servicesMap (synced None "") !! "foo.ns.svc.cluster.local" = Some fooModel
  ∧ FindPort fooPod (svcPort "http" 8080 9376) = Ok 9376
  ∧ ∃ i, i ∈ value (getProxyServiceInstancesByPod (synced None "") fooPod fooService
                      (proxyAt "10.1.2.3" "" []))
         ∧ NetworkEndpoint.Address (ServiceInstance.Endpoint i) = "10.1.2.3"
         ∧ NetworkEndpoint.Port (ServiceInstance.Endpoint i) = int32 9376
         ∧ NetworkEndpoint.ServicePort (ServiceInstance.Endpoint i)
           = convertPort (svcPort "http" 8080 9376).
Proof.
  assert (Hsvc : servicesMap (synced None "")
                   !! ServiceHostname (v1Service.Name fooService) (v1Service.Namespace fooService)
                        (domainSuffix (synced None ""))
                 = Some fooModel) by reflexivity.
  split; [exact Hsvc|]. split; [reflexivity|].
  pose proof (pod_path_instances (synced None "") fooPod fooService (proxyAt "10.1.2.3" "" []))
    as Hpod.
  cbv zeta in Hpod. destruct Hpod as [_ Hpod]. destruct (Hpod fooModel Hsvc) as [_ Hall].
  apply (Hall (svcPort "http" 8080 9376) (convertPort (svcPort "http" 8080 9376)) 9376 "10.1.2.3").
  - by apply list_elem_of_singleton.
  - reflexivity.
  - reflexivity.
  - by apply list_elem_of_singleton.
Defined.

(** A proxy without addresses, and the proxy of the pod at 10.1.2.3. *)
Lemma workload_labels_of_first_address_witness :
  Proxy.IPAddresses emptyProxy = []
  ∧ value (GetProxyWorkloadLabels registry emptyProxy) = Panics
  ∧ value (GetProxyServiceInstances registry emptyProxy) = (Some [], None)
  ∧ GetProxyWorkloadLabels registry (proxyAt "10.1.2.3" "" [])
    = (Returns (Some [Pod.Labels fooPod], None), [PodsGetByIP "10.1.2.3"]).
Proof.
  split; [reflexivity|].
  destruct (workload_labels_of_first_address registry emptyProxy) as [Hempty _].
  destruct (workload_labels_of_first_address registry (proxyAt "10.1.2.3" "" [])) as [_ Hfirst].
  destruct (Hempty eq_refl) as [Hpanic Hlist].
  split; [exact Hpanic|]. split; [exact Hlist|].
  exact (Hfirst "10.1.2.3" [] eq_refl).
Defined.

(** The identity of the pod behind "foo" is among the accounts of "foo". *)
Lemma service_accounts_membership_witness :
  ∃ out, value (GetIstioServiceAccounts (synced None "") fooModel [8080]) = Some out
         ∧ "spiffe://cluster.local/ns/ns/sa/default" ∈ out.
Proof.
  destruct (service_accounts_membership (synced None "") fooModel [8080])
    as (out & Hout & _ & Hmem).
  exists out. split; [exact Hout|].
  apply Hmem. right. split; [discriminate|].
  eassert (Hinstances : elems (value (InstancesByPort (synced None "") fooModel 8080 [])).1 = [_])
    by reflexivity.
  exists 8080. eexists. split; [by apply list_elem_of_singleton|].
  split; [rewrite Hinstances; by apply list_elem_of_singleton|reflexivity].
Defined.

(** The Endpoints of "foo" are deleted. *)
Lemma eds_update_exactly_once_witness :
  List.filter isEDSUpdate (trace (updateEDS (synced None "") (fooEndpoints "1") EventDelete))
  = [EDSUpdate "c1" "foo.ns.svc.cluster.local" "ns" []]
  ∧ List.filter isPodLookup (trace (updateEDS (synced None "") (fooEndpoints "1") EventDelete))
    = [].
Proof.
  pose proof (eds_update_exactly_once (synced None "") (fooEndpoints "1") EventDelete) as Honce.
  cbv zeta in Honce. destruct Honce as (_ & eps & Hupdate & _ & Hdelete).
  destruct (Hdelete eq_refl) as [Heps Hlookups].
  rewrite Heps in Hupdate. split; [exact Hupdate|exact Hlookups].
Defined.

(** The second ready address of "foo" points at a pod the cache does not
    hold: only 10.1.2.3 is handed to the updater. *)
Lemma eds_endpoints_membership_witness :
  EventAdd ≠ EventDelete
  ∧ ∃ eps, EDSUpdate "c1" "foo.ns.svc.cluster.local" "ns" eps
             ∈ trace (updateEDS registry fooEndpointsAhead EventAdd)
           ∧ (EndpointAddress.IP <$> mjoin ((fun ss => elems (EndpointSubset.Addresses ss))
                                              <$> elems (Endpoints.Subsets fooEndpointsAhead)))
             = ["10.1.2.3"; "10.1.2.5"]
           ∧ ∀ e, e ∈ eps → IstioEndpoint.Address e = "10.1.2.3".
Proof.
  assert (Hadd : EventAdd ≠ EventDelete) by discriminate.
  split; [exact Hadd|].
  eassert (Hlast : last (trace (updateEDS registry fooEndpointsAhead EventAdd))
                   = Some (EDSUpdate "c1" "foo.ns.svc.cluster.local" "ns" _)) by reflexivity.
  apply last_Some_elem_of in Hlast.
  eexists. split; [exact Hlast|]. split; [reflexivity|].
  intros e He.
  apply (eds_endpoints_membership registry fooEndpointsAhead EventAdd _ _ _ _ Hadd Hlast) in He.
  destruct He as (ss & ea & port & Hss & Hea & _ & Hadmitted & He).
  apply list_elem_of_singleton in Hss. rewrite Hss in Hea.
  rewrite He. cbn [IstioEndpoint.Address].
  apply elem_of_cons in Hea as [Hea|Hea]; [by rewrite Hea|].
  apply list_elem_of_singleton in Hea. rewrite Hea in Hadmitted.
  destruct Hadmitted as [[pod Hpod]|Hnopod]; [discriminate Hpod|].
  by destruct (Hnopod _ eq_refl).
Defined.

(** With headless services handled by full pushes, an update of the Endpoints
    of the headless Service. *)
Lemma endpoints_event_one_push_witness :
  @headlessPush headlessDeps registry headlessEndpoints
  ∧ carriedEndpoints (ObjEndpoints headlessEndpoints) = Some headlessEndpoints
  ∧ List.filter isConfigUpdate
      (trace (@instanceHandler headlessDeps registry (ObjEndpoints headlessEndpoints) EventUpdate))
    = [ConfigUpdateFull "ns"]
  ∧ List.filter isEDSUpdate
      (trace (@instanceHandler headlessDeps registry (ObjEndpoints headlessEndpoints) EventUpdate))
    = [].
Proof.
  assert (Hheadless : @headlessPush headlessDeps registry headlessEndpoints).
  { split; [reflexivity|]. exists headlessService. by split. }
  split; [exact Hheadless|]. split; [reflexivity|].
  pose proof (@endpoints_event_one_push headlessDeps registry (ObjEndpoints headlessEndpoints)
                EventUpdate) as Hevent.
  cbv zeta in Hevent. destruct Hevent as (_ & _ & Hcarried).
  destruct (proj1 (Hcarried headlessEndpoints eq_refl) Hheadless) as (format & args & Htrace).
  rewrite Htrace. by split.
Defined.

(** Two networks name the registry c1, netC last; one CIDR does not parse. *)
Lemma init_network_lookup_result_witness :
  meshNetworks ≠ []
  ∧ networkForRegistry (value (InitNetworkLookup (Some meshNetworks) (controller None ""))) = "netC"
  ∧ trace (InitNetworkLookup (Some meshNetworks) (controller None ""))
    = [Log Warn "unable to parse CIDR %q for network %s" [AStr "10.0.0.0/40"; AStr "netB"]]
  ∧ servicesMap (value (InitNetworkLookup (Some meshNetworks) (synced None "")))
    = servicesMap (synced None "").
Proof.
  assert (Hne : meshNetworks ≠ []) by discriminate.
  split; [exact Hne|].
  destruct (init_network_lookup_result meshNetworks (controller None "")) as (_ & _ & Hempty).
  destruct (init_network_lookup_result meshNetworks (synced None "")) as (_ & _ & Hsynced).
  cbv zeta in Hempty, Hsynced.
  destruct (Hempty Hne) as (_ & Hnet & Htrace & _).
  destruct (Hsynced Hne) as (_ & _ & _ & Hmap & _).
  split; [exact Hnet|]. split; [exact Htrace|exact Hmap].
Defined.

(** With a network that names the registry the ranger is not asked; with
    CIDRs only, 10.0.0.7 is found in netA. *)
Lemma network_lookup_after_init_witness :
  meshNetworks ≠ [] ∧ cidrNetworks ≠ []
  ∧ endpointNetwork (value (InitNetworkLookup (Some meshNetworks) (controller None ""))) "10.0.0.7"
    = ("netC", [])
  ∧ registryNetworks "c1" cidrNetworks = []
  ∧ value (endpointNetwork (value (InitNetworkLookup (Some cidrNetworks) (controller None "")))
             "10.0.0.7")
    = "netA".
Proof.
  assert (Hmesh : meshNetworks ≠ []) by discriminate.
  assert (Hcidr : cidrNetworks ≠ []) by discriminate.
  split; [exact Hmesh|]. split; [exact Hcidr|].
  pose proof (network_lookup_after_init meshNetworks (controller None "") "10.0.0.7" Hmesh)
    as Hregistry.
  pose proof (network_lookup_after_init cidrNetworks (controller None "") "10.0.0.7" Hcidr)
    as Hranger.
  cbv zeta in Hregistry, Hranger.
  destruct Hregistry as (Hnamed & _ & _). destruct Hranger as (_ & _ & Hasked).
  split; [apply (Hnamed "netC"); [reflexivity|discriminate]|].
  split; [reflexivity|].
  destruct (Hasked eq_refl eq_refl) as (rest & _ & Hvalue).
  exact Hvalue.
Defined.
